(** * Baseline: the shared application state and the operations that mutate it

    A shallow embedding of [baseline.go]: the [Baseline] struct, its
    reader/writer mutex, the notification queue, the metric history, the
    weather fetch, the todo panel refresh, the command dispatcher
    ([processCommand]) and the dashboard key handler ([inputHandler]).

    Conventions.
    - A method of [*Baseline] is a computation [M A]: a function from the
      struct's current value to an [Outcome].  It returns, blocks on the
      mutex, or panics.
    - Calls are taken one at a time.  [sync.RWMutex] is not re-entrant:
      [Lock] on a mutex that is held suspends the calling goroutine until
      the holder releases it.  A call that starts with the mutex free can
      find it held only by itself (a method that holds [b.mu] and calls
      another method that locks [b.mu]); the holder is then the goroutine
      that waits, nobody is left to release the mutex, and the outcome is
      [Blocked], for ever.  A later call that finds the mutex held waits
      for that stuck holder, and is [Blocked] as well.
    - What a method reads from outside the struct (the clock, the result of
      [os.WriteFile], the iteration order of a Go map, the metrics
      provider, the HTTP response) is an explicit argument.
    - [go f()] appends [f] to the list of goroutines started ([spawned]);
      their later execution is a fresh call of the corresponding method.
    - Text written to a panel through [QueueUpdateDraw] is not part of the
      struct; of the panels only the rows of the todo panel are kept.  What
      the footer and the weather panel show is given as a function of the
      struct ([footerContent], [weatherContent]); [formatDuration],
      [createBar] and the calendar loops of [updateTime] are functions of
      their arguments.
    - Go strings are modelled as strings of ASCII characters, which is what
      the command lines of the program's grammar are; on that range
      [strings.ToLower], [strings.TrimSpace] and [strings.Fields] act
      character by character as defined below.  Nothing is claimed about
      lines with bytes above 127.
    - [float64] readings are modelled as rationals ([Q]); [int] and
      [uint64] as [Z]. *)

From Stdlib Require Import ZArith QArith Qround List String Ascii Bool Lia.
From Stdlib Require Import Permutation Sorted DecimalString.
From Stdlib Require HexadecimalString.
From Stdlib Require Import Lqa.
Import ListNotations.

Local Open Scope string_scope.
Local Open Scope Z_scope.
Local Open Scope list_scope.

(* ================================================================== *)
(** ** Go library functions used by the program *)
(* ================================================================== *)

Module GoStrings.

Definition code (c : ascii) : Z := Z.of_N (N_of_ascii c).

(** [unicode.ToLower] on the ASCII range. *)
Definition lowerChar (c : ascii) : ascii :=
  if (65 <=? code c) && (code c <=? 90)
  then ascii_of_N (N_of_ascii c + 32) else c.

(** [strings.ToLower]. *)
Fixpoint ToLower (s : string) : string :=
  match s with
  | EmptyString => EmptyString
  | String c r => String (lowerChar c) (ToLower r)
  end.

(** [unicode.IsSpace] on the ASCII range: tab, newline, vertical tab,
    form feed, carriage return, space. *)
Definition isSpace (c : ascii) : bool :=
  ((9 <=? code c) && (code c <=? 13)) || (code c =? 32).

Fixpoint trimLeft (s : string) : string :=
  match s with
  | EmptyString => EmptyString
  | String c r => if isSpace c then trimLeft r else s
  end.

(** Drops the trailing white space: a character is kept when something
    that is kept follows it, or when it is not white space. *)
Fixpoint trimRight (s : string) : string :=
  match s with
  | EmptyString => EmptyString
  | String c r =>
      match trimRight r with
      | EmptyString => if isSpace c then EmptyString else String c EmptyString
      | r' => String c r'
      end
  end.

(** [strings.TrimSpace]. *)
Definition TrimSpace (s : string) : string := trimRight (trimLeft s).

(** [strings.Fields]: the maximal runs of non-space characters.  [cur] is
    the field being read, if one has been started. *)
Fixpoint fieldsFrom (cur : option string) (s : string) : list string :=
  match s with
  | EmptyString => match cur with Some f => [f] | None => [] end
  | String c r =>
      if isSpace c then
        match cur with
        | Some f => f :: fieldsFrom None r
        | None => fieldsFrom None r
        end
      else
        fieldsFrom
          (Some (match cur with
                 | Some f => String.append f (String c EmptyString)
                 | None => String c EmptyString
                 end)) r
  end.

Definition Fields (s : string) : list string := fieldsFrom None s.

(** [strings.Join]. *)
Fixpoint Join (elems : list string) (sep : string) : string :=
  match elems with
  | [] => EmptyString
  | [e] => e
  | e :: rest => String.append e (String.append sep (Join rest sep))
  end.

(** [strings.ReplaceAll] for a one-character pattern. *)
Fixpoint ReplaceAll1 (s : string) (old : ascii) (new : string) : string :=
  match s with
  | EmptyString => EmptyString
  | String c r =>
      if Ascii.eqb c old then String.append new (ReplaceAll1 r old new)
      else String c (ReplaceAll1 r old new)
  end.

Definition minInt : Z := - 2 ^ 63.
Definition maxInt : Z := 2 ^ 63 - 1.

Definition digitVal (c : ascii) : option Z :=
  if (48 <=? code c) && (code c <=? 57) then Some (code c - 48) else None.

Fixpoint parseDigits (acc : Z) (s : string) : option Z :=
  match s with
  | EmptyString => Some acc
  | String c r =>
      match digitVal c with
      | Some d => parseDigits (10 * acc + d) r
      | None => None
      end
  end.

(** [strconv.Atoi]: an optional sign, then one or more decimal digits;
    [None] stands for a non-nil [err] (syntax or range). *)
Definition Atoi (s : string) : option Z :=
  let '(neg, body) :=
    match s with
    | String "-"%char r => (true, r)
    | String "+"%char r => (false, r)
    | _ => (false, s)
    end in
  match body with
  | EmptyString => None
  | _ =>
      match parseDigits 0 body with
      | Some n =>
          let v := if neg then - n else n in
          if (minInt <=? v) && (v <=? maxInt) then Some v else None
      | None => None
      end
  end.

(** The verb [%d] of [fmt.Sprintf]. *)
Definition showInt (z : Z) : string := NilZero.string_of_int (Z.to_int z).

End GoStrings.
Import GoStrings.

Module GoSlices.
Section Slices.
Context {A : Type}.

(** [len(s)]. *)
Definition len (s : list A) : Z := Z.of_nat (List.length s).

(** [s[i:]]: a run-time panic unless [0 <= i <= len(s)]. *)
Definition sliceFrom (s : list A) (i : Z) : option (list A) :=
    if (0 <=? i) && (i <=? len s) then Some (skipn (Z.to_nat i) s) else None.

(** [s[:i]]. *)
Definition sliceTo (s : list A) (i : Z) : option (list A) :=
    if (0 <=? i) && (i <=? len s) then Some (firstn (Z.to_nat i) s) else None.

(** [s[i]]. *)
Definition elemAt (s : list A) (i : Z) : option A :=
    if (0 <=? i) && (i <? len s) then nth_error s (Z.to_nat i) else None.

(** [s[i] = v]. *)
Fixpoint setNth (n : nat) (v : A) (s : list A) : list A :=
    match s, n with
    | [], _ => []
    | _ :: r, O => v :: r
    | x :: r, S n' => x :: setNth n' v r
    end.

Definition store (s : list A) (i : Z) (v : A) : option (list A) :=
    if (0 <=? i) && (i <? len s) then Some (setNth (Z.to_nat i) v s) else None.

(** [s = append(s, x); if len(s) > cap { s = s[len(s)-cap:] }], the way
    the notification queue and the command history are kept short. *)
Definition appendCapped (cap : Z) (s : list A) (x : A) : option (list A) :=
    let s' := s ++ [x] in
    if cap <? len s' then sliceFrom s' (len s' - cap) else Some s'.
End Slices.
End GoSlices.
Import GoSlices.

(* ================================================================== *)
(** ** Data structures *)
(* ================================================================== *)

Definition historyLimit : Z := 60.

(** [time.Time], as an instant on an integer time line. *)
Definition Instant := Z.

Record Theme := mkTheme { Main : Z; Dim : Z; Bright : Z }.

(** The map literal [themes]; the order of the pairs carries no meaning. *)
Definition themes : list (string * Theme) :=
  [ ("amber", mkTheme 0xFFBF00 0xCC9900 0xFFDF00);
    ("green", mkTheme 0x00FF00 0x009900 0xCCFFCC);
    ("blue",  mkTheme 0x00BFFF 0x0099CC 0x99CCFF) ].

(** [themes[name]], with the [ok] flag as the option. *)
Fixpoint lookup {V : Type} (m : list (string * V)) (k : string) : option V :=
  match m with
  | [] => None
  | (k', v) :: r => if String.eqb k k' then Some v else lookup r k
  end.

Record TodoItem := mkTodo { Text : string; Done : bool; Priority : string }.

Record Notification :=
  mkNotification { Message : string; Type_ : string; Time_ : Instant }.

Record SystemHistory := mkHistory {
  CPU : list Q;
  Memory : list Q;
  Timestamps : list string;
  NetworkIn : list Z;
  NetworkOut : list Z }.

Record WeatherInfo := mkWeather {
  Location : string;
  TempC : Q;
  Condition : string;
  Humidity : Z;
  WindKph : Q;
  Error : string;
  LastUpdated : Instant }.

(** [net.IOCountersStat], the two counters the program reads. *)
Record IOCountersStat := mkIO { BytesRecv : Z; BytesSent : Z }.

(** State of [sync.RWMutex]. *)
Inductive RWMutex := Unlocked | WriteLocked | ReadLocked (readers : positive).

(** The widget that has the keyboard focus of the [tview] application. *)
Inductive Widget := LayoutWidget | CmdInputWidget.

(** The methods started with [go]. *)
Inductive Task := UpdateFooter | UpdateTodos | ApplyTheme | FetchWeather.

(** What [updateTodos] hands to the todo panel for one item: the number
    shown, the priority mark, the status box and the escaped text. *)
Record TodoRow := mkRow {
  rowNumber : Z; rowPriority : string; rowStatus : string; rowText : string }.

(** What the program has written to its two files under [configDir]:
    [None] as long as it has not written the file. *)
Record Files := mkFiles {
  todosJson : option (list TodoItem);
  systemHistoryJson : option SystemHistory }.

(** The [Baseline] struct.  The first block is the Go struct's state part;
    the second stands for what the program reaches through [b.app],
    [b.cmdInput], [b.todoPanel], the file system and the Go scheduler. *)
Record Baseline := mkBaseline {
  mu : RWMutex;
  configDir : string;
  todoItems : list TodoItem;
  notifications : list Notification;
  systemHistory : SystemHistory;
  weatherInfo : WeatherInfo;
  lastNetIO : IOCountersStat;
  lastNetTime : Instant;
  currentFocus : string;
  commandHistory : list string;
  theme : Theme;
  weatherAPIKey : string;
  weatherLocation : string;
  cpuCoreCount : Z;

  appFocus : Widget;
  appStopped : bool;
  cmdInputText : string;
  todoPanel : list TodoRow;
  files : Files;
  spawned : list Task }.

Definition set_mu v b :=
  let 'mkBaseline _ a2 a3 a4 a5 a6 a7 a8 a9 a10 a11 a12 a13 a14 a15 a16 a17 a18 a19 a20 := b in
  mkBaseline v a2 a3 a4 a5 a6 a7 a8 a9 a10 a11 a12 a13 a14 a15 a16 a17 a18 a19 a20.
Definition set_todoItems v b :=
  let 'mkBaseline a1 a2 _ a4 a5 a6 a7 a8 a9 a10 a11 a12 a13 a14 a15 a16 a17 a18 a19 a20 := b in
  mkBaseline a1 a2 v a4 a5 a6 a7 a8 a9 a10 a11 a12 a13 a14 a15 a16 a17 a18 a19 a20.
Definition set_notifications v b :=
  let 'mkBaseline a1 a2 a3 _ a5 a6 a7 a8 a9 a10 a11 a12 a13 a14 a15 a16 a17 a18 a19 a20 := b in
  mkBaseline a1 a2 a3 v a5 a6 a7 a8 a9 a10 a11 a12 a13 a14 a15 a16 a17 a18 a19 a20.
Definition set_systemHistory v b :=
  let 'mkBaseline a1 a2 a3 a4 _ a6 a7 a8 a9 a10 a11 a12 a13 a14 a15 a16 a17 a18 a19 a20 := b in
  mkBaseline a1 a2 a3 a4 v a6 a7 a8 a9 a10 a11 a12 a13 a14 a15 a16 a17 a18 a19 a20.
Definition set_weatherInfo v b :=
  let 'mkBaseline a1 a2 a3 a4 a5 _ a7 a8 a9 a10 a11 a12 a13 a14 a15 a16 a17 a18 a19 a20 := b in
  mkBaseline a1 a2 a3 a4 a5 v a7 a8 a9 a10 a11 a12 a13 a14 a15 a16 a17 a18 a19 a20.
Definition set_lastNetIO v b :=
  let 'mkBaseline a1 a2 a3 a4 a5 a6 _ a8 a9 a10 a11 a12 a13 a14 a15 a16 a17 a18 a19 a20 := b in
  mkBaseline a1 a2 a3 a4 a5 a6 v a8 a9 a10 a11 a12 a13 a14 a15 a16 a17 a18 a19 a20.
Definition set_lastNetTime v b :=
  let 'mkBaseline a1 a2 a3 a4 a5 a6 a7 _ a9 a10 a11 a12 a13 a14 a15 a16 a17 a18 a19 a20 := b in
  mkBaseline a1 a2 a3 a4 a5 a6 a7 v a9 a10 a11 a12 a13 a14 a15 a16 a17 a18 a19 a20.
Definition set_currentFocus v b :=
  let 'mkBaseline a1 a2 a3 a4 a5 a6 a7 a8 _ a10 a11 a12 a13 a14 a15 a16 a17 a18 a19 a20 := b in
  mkBaseline a1 a2 a3 a4 a5 a6 a7 a8 v a10 a11 a12 a13 a14 a15 a16 a17 a18 a19 a20.
Definition set_commandHistory v b :=
  let 'mkBaseline a1 a2 a3 a4 a5 a6 a7 a8 a9 _ a11 a12 a13 a14 a15 a16 a17 a18 a19 a20 := b in
  mkBaseline a1 a2 a3 a4 a5 a6 a7 a8 a9 v a11 a12 a13 a14 a15 a16 a17 a18 a19 a20.
Definition set_theme v b :=
  let 'mkBaseline a1 a2 a3 a4 a5 a6 a7 a8 a9 a10 _ a12 a13 a14 a15 a16 a17 a18 a19 a20 := b in
  mkBaseline a1 a2 a3 a4 a5 a6 a7 a8 a9 a10 v a12 a13 a14 a15 a16 a17 a18 a19 a20.
Definition set_weatherAPIKey v b :=
  let 'mkBaseline a1 a2 a3 a4 a5 a6 a7 a8 a9 a10 a11 _ a13 a14 a15 a16 a17 a18 a19 a20 := b in
  mkBaseline a1 a2 a3 a4 a5 a6 a7 a8 a9 a10 a11 v a13 a14 a15 a16 a17 a18 a19 a20.
Definition set_weatherLocation v b :=
  let 'mkBaseline a1 a2 a3 a4 a5 a6 a7 a8 a9 a10 a11 a12 _ a14 a15 a16 a17 a18 a19 a20 := b in
  mkBaseline a1 a2 a3 a4 a5 a6 a7 a8 a9 a10 a11 a12 v a14 a15 a16 a17 a18 a19 a20.
Definition set_appFocus v b :=
  let 'mkBaseline a1 a2 a3 a4 a5 a6 a7 a8 a9 a10 a11 a12 a13 a14 _ a16 a17 a18 a19 a20 := b in
  mkBaseline a1 a2 a3 a4 a5 a6 a7 a8 a9 a10 a11 a12 a13 a14 v a16 a17 a18 a19 a20.
Definition set_appStopped v b :=
  let 'mkBaseline a1 a2 a3 a4 a5 a6 a7 a8 a9 a10 a11 a12 a13 a14 a15 _ a17 a18 a19 a20 := b in
  mkBaseline a1 a2 a3 a4 a5 a6 a7 a8 a9 a10 a11 a12 a13 a14 a15 v a17 a18 a19 a20.
Definition set_cmdInputText v b :=
  let 'mkBaseline a1 a2 a3 a4 a5 a6 a7 a8 a9 a10 a11 a12 a13 a14 a15 a16 _ a18 a19 a20 := b in
  mkBaseline a1 a2 a3 a4 a5 a6 a7 a8 a9 a10 a11 a12 a13 a14 a15 a16 v a18 a19 a20.
Definition set_todoPanel v b :=
  let 'mkBaseline a1 a2 a3 a4 a5 a6 a7 a8 a9 a10 a11 a12 a13 a14 a15 a16 a17 _ a19 a20 := b in
  mkBaseline a1 a2 a3 a4 a5 a6 a7 a8 a9 a10 a11 a12 a13 a14 a15 a16 a17 v a19 a20.
Definition set_files v b :=
  let 'mkBaseline a1 a2 a3 a4 a5 a6 a7 a8 a9 a10 a11 a12 a13 a14 a15 a16 a17 a18 _ a20 := b in
  mkBaseline a1 a2 a3 a4 a5 a6 a7 a8 a9 a10 a11 a12 a13 a14 a15 a16 a17 a18 v a20.
Definition set_spawned v b :=
  let 'mkBaseline a1 a2 a3 a4 a5 a6 a7 a8 a9 a10 a11 a12 a13 a14 a15 a16 a17 a18 a19 _ := b in
  mkBaseline a1 a2 a3 a4 a5 a6 a7 a8 a9 a10 a11 a12 a13 a14 a15 a16 a17 a18 a19 v.

(* ================================================================== *)
(** ** Computations on the struct *)
(* ================================================================== *)

(** Which call a goroutine is suspended in. *)
Inductive Pending :=
| InAddNotification (message msgType : string)
| InLock (method : string).

Inductive Outcome (A : Type) :=
| Returned (a : A) (b : Baseline)
| Blocked (at_ : Pending) (b : Baseline)
| Panicked (b : Baseline).
Arguments Returned {A} a b.
Arguments Blocked {A} at_ b.
Arguments Panicked {A} b.

Definition M (A : Type) := Baseline -> Outcome A.

Definition ret {A} (a : A) : M A := fun b => Returned a b.

Definition bind {A B} (m : M A) (k : A -> M B) : M B :=
  fun b =>
    match m b with
    | Returned a b' => k a b'
    | Blocked p b' => Blocked p b'
    | Panicked b' => Panicked b'
    end.

Notation "x <- c1 ;; c2" := (bind c1 (fun x => c2))
  (at level 61, c1 at next level, right associativity).
Notation "c1 ;; c2" := (bind c1 (fun _ => c2))
  (at level 61, right associativity).

(** Reads the struct ([b.field] in the source). *)
Definition get : M Baseline := fun b => Returned b b.

Definition gets {A} (f : Baseline -> A) : M A := fun b => Returned (f b) b.

(** An assignment to a field of the struct. *)
Definition modify (f : Baseline -> Baseline) : M unit :=
  fun b => Returned tt (f b).

Definition panic {A} : M A := fun b => Panicked b.

(** A slice expression or an index that may go out of range. *)
Definition orPanic {A} (o : option A) : M A :=
  match o with Some a => ret a | None => panic end.

(** [go f()]. *)
Definition spawn (t : Task) : M unit :=
  modify (fun b => set_spawned (spawned b ++ [t]) b).

(** [b.mu.Lock()], called from the place [p]. *)
Definition lock (p : Pending) : M unit :=
  fun b =>
    match mu b with
    | Unlocked => Returned tt (set_mu WriteLocked b)
    | _ => Blocked p b
    end.

(** [b.mu.Unlock()]; unlocking a mutex that is not write-locked is a fatal
    error of the Go run time. *)
Definition unlock : M unit :=
  fun b =>
    match mu b with
    | WriteLocked => Returned tt (set_mu Unlocked b)
    | _ => Panicked b
    end.

(** [b.mu.RLock()]. *)
Definition rlock (p : Pending) : M unit :=
  fun b =>
    match mu b with
    | Unlocked => Returned tt (set_mu (ReadLocked 1) b)
    | ReadLocked n => Returned tt (set_mu (ReadLocked (Pos.succ n)) b)
    | WriteLocked => Blocked p b
    end.

(** [b.mu.RUnlock()]. *)
Definition runlock : M unit :=
  fun b =>
    match mu b with
    | ReadLocked 1 => Returned tt (set_mu Unlocked b)
    | ReadLocked n => Returned tt (set_mu (ReadLocked (Pos.pred n)) b)
    | _ => Panicked b
    end.

(** [b.mu.Lock(); defer b.mu.Unlock(); body].  The deferred call runs when
    [body] returns and when it panics, not while it is blocked. *)
Definition withLock {A} (p : Pending) (body : M A) : M A :=
  fun b =>
    match lock p b with
    | Returned _ b1 =>
        match body b1 with
        | Returned a b2 =>
            match unlock b2 with
            | Returned _ b3 => Returned a b3
            | Blocked q b3 => Blocked q b3
            | Panicked b3 => Panicked b3
            end
        | Blocked q b2 => Blocked q b2
        | Panicked b2 =>
            match unlock b2 with
            | Returned _ b3 => Panicked b3
            | Blocked q b3 => Blocked q b3
            | Panicked b3 => Panicked b3
            end
        end
    | Blocked q b1 => Blocked q b1
    | Panicked b1 => Panicked b1
    end.

(** What one call reads from outside the struct. *)
Record World := mkWorld {
  clock : Instant;              (* time.Now() *)
  writeError : option string;   (* err of os.WriteFile, printed with %v *)
  rangeSeed : nat }.            (* picks the order of a range over a map *)

(* ================================================================== *)
(** ** The notification queue *)
(* ================================================================== *)

Definition addNotification (w : World) (message msgType : string) : M unit :=
  withLock (InAddNotification message msgType)
    (b <- get ;;
     q <- orPanic (appendCapped 5 (notifications b)
                     (mkNotification message msgType (clock w))) ;;
     modify (set_notifications q) ;;
     spawn UpdateFooter).

(* ================================================================== *)
(** ** Persistence *)
(* ================================================================== *)

(** [saveTodos]: [json.MarshalIndent] cannot fail on a slice of
    [TodoItem]; [os.WriteFile] succeeds or fails as the world says. *)
Definition saveTodos (w : World) : M unit :=
  b <- get ;;
  match writeError w with
  | None =>
      modify (set_files (mkFiles (Some (todoItems b))
                                 (systemHistoryJson (files b))))
  | Some err =>
      addNotification w (String.append "Error saving todos: " err) "error"
  end.

Definition withCPU v h :=
  mkHistory v (Memory h) (Timestamps h) (NetworkIn h) (NetworkOut h).
Definition withMemory v h :=
  mkHistory (CPU h) v (Timestamps h) (NetworkIn h) (NetworkOut h).
Definition withTimestamps v h :=
  mkHistory (CPU h) (Memory h) v (NetworkIn h) (NetworkOut h).
Definition withNetworkIn v h :=
  mkHistory (CPU h) (Memory h) (Timestamps h) v (NetworkOut h).
Definition withNetworkOut v h :=
  mkHistory (CPU h) (Memory h) (Timestamps h) (NetworkIn h) v.

(** An assignment to one field of [b.systemHistory]. *)
Definition history (f : SystemHistory -> SystemHistory) : M unit :=
  modify (fun b => set_systemHistory (f (systemHistory b)) b).

(** The trimming block of [saveSystemHistory]: five assignments in the
    order of the source, each slicing its own sequence by its own length,
    all under one test on the length of [CPU]. *)
Definition trimHistory : M unit :=
  b <- get ;;
  if historyLimit <? len (CPU (systemHistory b)) then
    (h <- gets systemHistory ;;
     s <- orPanic (sliceFrom (CPU h) (len (CPU h) - historyLimit)) ;;
     history (withCPU s)) ;;
    (h <- gets systemHistory ;;
     s <- orPanic (sliceFrom (Memory h) (len (Memory h) - historyLimit)) ;;
     history (withMemory s)) ;;
    (h <- gets systemHistory ;;
     s <- orPanic (sliceFrom (Timestamps h) (len (Timestamps h) - historyLimit)) ;;
     history (withTimestamps s)) ;;
    (h <- gets systemHistory ;;
     s <- orPanic (sliceFrom (NetworkIn h) (len (NetworkIn h) - historyLimit)) ;;
     history (withNetworkIn s)) ;;
    (h <- gets systemHistory ;;
     s <- orPanic (sliceFrom (NetworkOut h) (len (NetworkOut h) - historyLimit)) ;;
     history (withNetworkOut s))
  else ret tt.

Definition saveSystemHistory (w : World) : M unit :=
  trimHistory ;;
  b <- get ;;
  match writeError w with
  | None =>
      modify (set_files (mkFiles (todosJson (files b))
                                 (Some (systemHistory b))))
  | Some err =>
      addNotification w (String.append "Error saving history: " err) "error"
  end.

(* ================================================================== *)
(** ** The system metrics producer *)
(* ================================================================== *)

(** What [updateSystemInfo] obtains from gopsutil and the clock and puts
    into the struct.  A [None] is a non-nil [err].  Disk, host, load and
    process readings only reach the panel text and are left out. *)
Record Metrics := mkMetrics {
  cpuPercents : option (list Q);            (* cpu.Percent(0, false) *)
  memUsedPercent : option Q;                (* mem.VirtualMemory() *)
  netError : bool;                          (* err of net.IOCounters(false) *)
  currentNetIO : list IOCountersStat;       (* its slice *)
  currentTime : Instant;                    (* time.Now() *)
  nowStr : string }.                        (* time.Now().Format("15:04:05") *)

(** [cpuPercent] and [memPercent]: the reading, or 0.0 when there is
    none. *)
Definition cpuPercent (m : Metrics) : Q :=
  match cpuPercents m with
  | Some (p :: _) => p
  | _ => 0%Q
  end.

Definition memPercent (m : Metrics) : Q :=
  match memUsedPercent m with Some p => p | None => 0%Q end.

(** The bookkeeping for the throughput: the rates themselves only reach
    the panel text. *)
Definition recordNetIO (m : Metrics) : M unit :=
  match currentNetIO m with
  | io0 :: _ =>
      if netError m then ret tt
      else modify (set_lastNetIO io0) ;;
           modify (set_lastNetTime (currentTime m))
  | [] => ret tt
  end.

(** The block "Update History" up to the call of [saveSystemHistory]. *)
Definition appendSample (m : Metrics) : M unit :=
  history (fun h => withCPU (CPU h ++ [cpuPercent m]) h) ;;
  history (fun h => withMemory (Memory h ++ [memPercent m]) h) ;;
  history (fun h => withTimestamps (Timestamps h ++ [nowStr m]) h) ;;
  match currentNetIO m with
  | io0 :: _ =>
      history (fun h => withNetworkIn (NetworkIn h ++ [BytesRecv io0]) h) ;;
      history (fun h => withNetworkOut (NetworkOut h ++ [BytesSent io0]) h)
  | [] => ret tt
  end.

Definition updateSystemInfo (w : World) (m : Metrics) : M unit :=
  withLock (InLock "updateSystemInfo")
    (recordNetIO m ;;
     appendSample m ;;
     saveSystemHistory w).

(* ================================================================== *)
(** ** The weather producer *)
(* ================================================================== *)

(** The outcome of [client.Get(url)] and of decoding the body. *)
Inductive HttpReply :=
| TransportError (err : string)
| BadStatus (status : Z) (apiMessage : option string)
| BadPayload (err : string)
| Payload (name : string) (temp_c : Q) (text : string)
          (humidity : Z) (wind_kph : Q).

(** [updateWeather] copies what it shows under the read lock; the text goes
    to the weather panel. *)
Definition updateWeather : M unit :=
  rlock (InLock "updateWeather") ;;
  runlock.

Definition withError (e : string) (i : WeatherInfo) : WeatherInfo :=
  mkWeather (Location i) (TempC i) (Condition i) (Humidity i) (WindKph i)
            e (LastUpdated i).

Definition fetchWeather (w : World) (reply : HttpReply) : M unit :=
  lock (InLock "fetchWeather") ;;
  b <- get ;;
  let location := weatherLocation b in
  let apiKey := weatherAPIKey b in
  unlock ;;
  let fetchedInfo := mkWeather location 0 "" 0 0 "" (clock w) in
  let fetchedInfo :=
    if String.eqb apiKey "" then
      mkWeather (Location fetchedInfo) 22 "Partly Cloudy (Sample)" 65 8
                "API Key not set" (LastUpdated fetchedInfo)
    else
      match reply with
      | TransportError err =>
          withError (String.append "HTTP error: " err) fetchedInfo
      | BadStatus status (Some msg) =>
          if String.eqb msg "" then
            withError (String.append "API error: Status " (showInt status))
                      fetchedInfo
          else
            withError
              (String.append "API error: "
                 (String.append msg
                    (String.append " (" (String.append (showInt status) ")"))))
              fetchedInfo
      | BadStatus status None =>
          withError (String.append "API error: Status " (showInt status))
                    fetchedInfo
      | BadPayload err =>
          withError (String.append "JSON parse error: " err) fetchedInfo
      | Payload name temp_c text humidity wind_kph =>
          mkWeather name temp_c text humidity wind_kph ""
                    (LastUpdated fetchedInfo)
      end in
  lock (InLock "fetchWeather") ;;
  modify (set_weatherInfo fetchedInfo) ;;
  unlock ;;
  updateWeather.

(* ================================================================== *)
(** ** The todo panel *)
(* ================================================================== *)

(** [priorityMap] of [updateTodos]. *)
Definition priorityMap : list (string * Z) :=
  [("high", 0); ("medium", 1); ("low", 2)].

(** The key the comparison function of [updateTodos] computes for an
    item: its entry in [priorityMap], or 1 when there is none. *)
Definition priorityRank (t : TodoItem) : Z :=
  match lookup priorityMap (ToLower (Priority t)) with
  | Some p => p
  | None => 1
  end.

(** [less(i, j)] of the call of [sort.SliceStable]. *)
Definition lessTodo (x y : TodoItem) : bool :=
  priorityRank x <? priorityRank y.

(** One pass of an insertion sort: [x] moves left past every element it
    is less than, and stops behind the first one it is not less than. *)
Fixpoint insertStable (x : TodoItem) (sorted : list TodoItem) : list TodoItem :=
  match sorted with
  | [] => [x]
  | y :: r => if lessTodo x y then x :: y :: r else y :: insertStable x r
  end.

(** [sort.SliceStable(items, less)].  The library routine is specified by
    its result, the stable sort of the slice; the model computes that
    result by insertion from left to right. *)
Definition SliceStable (items : list TodoItem) : list TodoItem :=
  fold_left (fun sorted x => insertStable x sorted) items [].

Definition escapeBrackets (s : string) : string :=
  ReplaceAll1 (ReplaceAll1 s "["%char "[[") "]"%char "]]".

Definition todoRow (i : Z) (item : TodoItem) : TodoRow :=
  let p := ToLower (Priority item) in
  mkRow (i + 1)
        (if String.eqb p "high" then "!"
         else if String.eqb p "low" then "-" else "o")
        (if Done item then "[X]" else "[ ]")
        (escapeBrackets (Text item)).

(** The [for i, item := range b.todoItems] loop of [updateTodos]. *)
Fixpoint todoRows (i : Z) (items : list TodoItem) : list TodoRow :=
  match items with
  | [] => []
  | item :: r => todoRow i item :: todoRows (i + 1) r
  end.

(** [updateTodos]: sorts [b.todoItems] itself, under the write lock, and
    sends one row per item of the sorted slice to the panel. *)
Definition updateTodos : M unit :=
  withLock (InLock "updateTodos")
    (b <- get ;;
     modify (set_todoItems (SliceStable (todoItems b))) ;;
     b <- get ;;
     modify (set_todoPanel (todoRows 0 (todoItems b)))).

(* ================================================================== *)
(** ** The command dispatcher *)
(* ================================================================== *)

(** The orders in which a [range] over a map may deliver its keys: Go
    leaves the order unspecified, so every arrangement is possible. *)
Fixpoint insertEverywhere {A} (x : A) (l : list A) : list (list A) :=
  match l with
  | [] => [[x]]
  | y :: r => (x :: y :: r) :: map (cons y) (insertEverywhere x r)
  end.

Fixpoint arrangements {A} (l : list A) : list (list A) :=
  match l with
  | [] => [[]]
  | x :: r => flat_map (insertEverywhere x) (arrangements r)
  end.

(** [for k := range m], with the arrangement the world picks. *)
Definition rangeKeys {V} (seed : nat) (m : list (string * V)) : list string :=
  nth seed (arrangements (map fst m)) (map fst m).

Definition withDone (d : bool) (t : TodoItem) : TodoItem :=
  mkTodo (Text t) d (Priority t).
Definition withPriority (p : string) (t : TodoItem) : TodoItem :=
  mkTodo (Text t) (Done t) p.

(** [case "theme"]; the result is [needsThemeUpdate]. *)
Definition themeCommand (w : World) (args : list string) : M bool :=
  match args with
  | [themeName] =>
      match lookup themes themeName with
      | Some newTheme =>
          modify (set_theme newTheme) ;;
          addNotification w (String.append "Theme changed to " themeName)
                          "success" ;;
          ret true
      | None =>
          let available := rangeKeys (rangeSeed w) themes in
          addNotification w
            (String.append "Unknown theme: "
               (String.append themeName
                  (String.append ". Available: " (Join available ", "))))
            "error" ;;
          ret false
      end
  | _ => addNotification w "Usage: theme <themename>" "error" ;; ret false
  end.

Definition invalidIndex (w : World) (arg : string) : M bool :=
  addNotification w (String.append "Invalid todo index: " arg) "error" ;;
  ret false.

(** [case "add"] of the todo commands. *)
Definition todoAdd (w : World) (todoArgs : list string) : M bool :=
  match todoArgs with
  | [] => addNotification w "Usage: todo add <task text>" "error" ;;
          ret false
  | _ =>
      let text := Join todoArgs " " in
      modify (fun b =>
        set_todoItems (todoItems b ++ [mkTodo text false "medium"]) b) ;;
      saveTodos w ;;
      addNotification w (String.append "Added todo: " text) "success" ;;
      ret true
  end.

(** [case "toggle", "done"]. *)
Definition todoToggle (w : World) (todoArgs : list string) : M bool :=
  match todoArgs with
  | [arg] =>
      b <- get ;;
      match Atoi arg with
      | Some index =>
          if (1 <=? index) && (index <=? len (todoItems b)) then
            item <- orPanic (elemAt (todoItems b) (index - 1)) ;;
            items <- orPanic (store (todoItems b) (index - 1)
                                    (withDone (negb (Done item)) item)) ;;
            modify (set_todoItems items) ;;
            saveTodos w ;;
            addNotification w
              (String.append "Toggled todo #" (showInt index)) "success" ;;
            ret true
          else invalidIndex w arg
      | None => invalidIndex w arg
      end
  | _ => addNotification w "Usage: todo toggle <index>" "error" ;;
         ret false
  end.

(** [case "delete", "rm"]. *)
Definition todoDelete (w : World) (todoArgs : list string) : M bool :=
  match todoArgs with
  | [arg] =>
      b <- get ;;
      match Atoi arg with
      | Some index =>
          if (1 <=? index) && (index <=? len (todoItems b)) then
            deleted <- orPanic (elemAt (todoItems b) (index - 1)) ;;
            front <- orPanic (sliceTo (todoItems b) (index - 1)) ;;
            back <- orPanic (sliceFrom (todoItems b) index) ;;
            modify (set_todoItems (front ++ back)) ;;
            saveTodos w ;;
            addNotification w
              (String.append "Deleted todo: " (Text deleted)) "success" ;;
            ret true
          else invalidIndex w arg
      | None => invalidIndex w arg
      end
  | _ => addNotification w "Usage: todo delete <index>" "error" ;;
         ret false
  end.

(** [case "todo"]; the result is [needsTodoUpdate]. *)
Definition todoCommand (w : World) (args : list string) : M bool :=
  match args with
  | [] => addNotification w "Todo commands: add, toggle, delete" "info" ;;
          ret false
  | subCmd :: todoArgs =>
      if String.eqb subCmd "add" then todoAdd w todoArgs
      else if String.eqb subCmd "toggle" || String.eqb subCmd "done" then
        todoToggle w todoArgs
      else if String.eqb subCmd "delete" || String.eqb subCmd "rm" then
        todoDelete w todoArgs
      else
        addNotification w (String.append "Unknown todo command: " subCmd)
                        "error" ;;
        ret false
  end.

(** [case "weather"]; the result is [needsWeatherUpdate]. *)
Definition weatherCommand (w : World) (args : list string) : M bool :=
  match args with
  | arg0 :: ((_ :: _) as rest) =>
      if String.eqb arg0 "set" then
        let location := Join rest " " in
        modify (set_weatherLocation location) ;;
        addNotification w
          (String.append "Weather location set to: "
             (String.append location ". Fetching..."))
          "success" ;;
        ret true
      else addNotification w "Usage: weather set <location>" "error" ;;
           ret false
  | _ => addNotification w "Usage: weather set <location>" "error" ;;
         ret false
  end.

(** The three flags [needsTodoUpdate], [needsWeatherUpdate],
    [needsThemeUpdate] that the [switch] of [processCommand] leaves. *)
Definition switchCommand (w : World) (command cmd : string)
    (args : list string) : M (bool * bool * bool) :=
  if String.eqb cmd "help" || String.eqb cmd "?" then
    addNotification w
      "Cmds: help, todo, weather, clear, exit, theme, shortcut" "info" ;;
    ret (false, false, false)
  else if String.eqb cmd "exit" || String.eqb cmd "quit" || String.eqb cmd "q"
  then
    modify (set_appStopped true) ;;
    ret (false, false, false)
  else if String.eqb cmd "clear" then
    modify (set_notifications []) ;;
    addNotification w "Notifications cleared" "success" ;;
    ret (false, false, false)
  else if String.eqb cmd "shortcut" then
    addNotification w
      "Shortcuts: N(ew), T(oggle), D(elete), P(rio), Q(uit), :(Cmd), ?(Help)"
      "info" ;;
    ret (false, false, false)
  else if String.eqb cmd "theme" then
    t <- themeCommand w args ;; ret (false, false, t)
  else if String.eqb cmd "todo" then
    t <- todoCommand w args ;; ret (t, false, false)
  else if String.eqb cmd "weather" then
    t <- weatherCommand w args ;; ret (false, t, false)
  else
    addNotification w (String.append "Unknown command: " command) "error" ;;
    ret (false, false, false).

Definition when (c : bool) (m : M unit) : M unit := if c then m else ret tt.

Definition processCommand (w : World) (command : string) : M unit :=
  withLock (InLock "processCommand")
    (let command := TrimSpace (ToLower command) in
     if String.eqb command "" then ret tt
     else
       b <- get ;;
       h <- orPanic (appendCapped 20 (commandHistory b) command) ;;
       modify (set_commandHistory h) ;;
       match Fields command with
       | [] => panic
       | cmd :: args =>
           flags <- switchCommand w command cmd args ;;
           let '(needsTodoUpdate, needsWeatherUpdate, needsThemeUpdate) :=
             flags in
           modify (set_cmdInputText "") ;;
           when needsTodoUpdate (spawn UpdateTodos) ;;
           when needsThemeUpdate (spawn ApplyTheme) ;;
           when needsWeatherUpdate (spawn FetchWeather)
       end).

(* ================================================================== *)
(** ** The dashboard key handler *)
(* ================================================================== *)

(** The first index at or after [i] whose item satisfies [p]. *)
Fixpoint findFrom (p : TodoItem -> bool) (i : Z) (items : list TodoItem)
  : option (Z * TodoItem) :=
  match items with
  | [] => None
  | x :: r => if p x then Some (i, x) else findFrom p (i + 1) r
  end.

Definition priorities : list string := ["low"; "medium"; "high"].

(** The inner loop of [case 'p']: the index of [p] in [l], or -1. *)
Fixpoint indexIn (l : list string) (idx : Z) (p : string) : Z :=
  match l with
  | [] => -1
  | q :: r => if String.eqb q p then idx else indexIn r (idx + 1) p
  end.

(** [currentIdx] for an item whose priority field is [p]. *)
Definition priorityIndex (p : string) : Z :=
  let currentPrio := ToLower p in
  let currentPrio :=
    if String.eqb currentPrio "" then "medium" else currentPrio in
  indexIn priorities 0 currentPrio.

(** [priorities[(currentIdx + 1) % len(priorities)]]. *)
Definition nextPriority (currentIdx : Z) : option string :=
  elemAt priorities ((currentIdx + 1) mod len priorities).

(** [case 't']: marks the first item that is not done. *)
Definition keyToggle (w : World) : M unit :=
  b <- get ;;
  match findFrom (fun t => negb (Done t)) 0 (todoItems b) with
  | Some (i, item) =>
      items <- orPanic (store (todoItems b) i (withDone true item)) ;;
      modify (set_todoItems items) ;;
      saveTodos w ;;
      addNotification w (String.append "Completed: " (Text item)) "success"
  | None => addNotification w "No pending tasks to toggle." "info"
  end.

(** [case 'd']: deletes the first item that is done. *)
Definition keyDelete (w : World) : M unit :=
  b <- get ;;
  match findFrom Done 0 (todoItems b) with
  | Some (i, item) =>
      front <- orPanic (sliceTo (todoItems b) i) ;;
      back <- orPanic (sliceFrom (todoItems b) (i + 1)) ;;
      modify (set_todoItems (front ++ back)) ;;
      saveTodos w ;;
      addNotification w (String.append "Deleted: " (Text item)) "success"
  | None => addNotification w "No completed tasks to delete." "info"
  end.

(** [case 'p']: cycles the priority of the first item that is not done. *)
Definition keyPriority (w : World) : M unit :=
  b <- get ;;
  match findFrom (fun t => negb (Done t)) 0 (todoItems b) with
  | Some (i, item) =>
      let currentIdx := priorityIndex (Priority item) in
      if negb (currentIdx =? -1) then
        next <- orPanic (nextPriority currentIdx) ;;
        items <- orPanic (store (todoItems b) i (withPriority next item)) ;;
        modify (set_todoItems items) ;;
        saveTodos w ;;
        addNotification w
          (String.append "Priority set to "
             (String.append next (String.append " for: " (Text item))))
          "success"
      else
        addNotification w "No pending tasks to change priority." "info"
  | None => addNotification w "No pending tasks to change priority." "info"
  end.

(** [inputHandler], for a key event that carries the rune [r].  The result
    is the event handed back for default processing, [None] when the
    handler has consumed it.  Every case of the [switch] but the default
    returns from inside the [switch]. *)
Definition inputHandler (w : World) (r : ascii) : M (option ascii) :=
  b <- get ;;
  match appFocus b with
  | CmdInputWidget => ret (Some r)
  | LayoutWidget =>
    withLock (InLock "inputHandler")
      (if Ascii.eqb r ":" then
         modify (set_currentFocus "command") ;;
         modify (set_appFocus CmdInputWidget) ;;
         ret None
       else if Ascii.eqb r "q" then
         modify (set_appStopped true) ;;
         ret None
       else if Ascii.eqb r "?" then
         addNotification w
           "Keys: N(ew), T(oggle), D(elete), P(rio), Q(uit), :(Cmd), ?(Help)"
           "info" ;;
         ret None
       else if Ascii.eqb r "n" then
         addNotification w "Use ':todo add <task>' to add a new task" "info" ;;
         ret None
       else if Ascii.eqb r "t" then keyToggle w ;; ret None
       else if Ascii.eqb r "d" then keyDelete w ;; ret None
       else if Ascii.eqb r "p" then keyPriority w ;; ret None
       else ret (Some r))
  end.

(* ================================================================== *)
(** ** Construction and the remaining methods *)
(* ================================================================== *)

(** The outcome of [os.ReadFile] followed by [json.Unmarshal]. *)
Inductive FileRead (A : Type) :=
| NotExist
| ReadFailed (err : string)
| Malformed (err : string) (partial : A)
| Parsed (a : A).
Arguments NotExist {A}.
Arguments ReadFailed {A} err.
Arguments Malformed {A} err partial.
Arguments Parsed {A} a.

(** What [NewBaseline] reads from the process environment. *)
Record Startup := mkStartup {
  homeDir : option string;                    (* user.Current() *)
  cpuCounts : option Z;                       (* cpu.Counts(true) *)
  envTheme : string;                          (* THEME *)
  envWeatherAPIKey : string;                  (* WEATHER_API_KEY *)
  envWeatherLocation : string;                (* WEATHER_LOCATION *)
  todosFile : FileRead (list TodoItem);       (* todos.json *)
  historyFile : FileRead SystemHistory;       (* system_history.json *)
  firstNetIO : option (list IOCountersStat) }.

Definition defaultTodos : list TodoItem :=
  [ mkTodo "Review project documentation (Go)" false "medium";
    mkTodo "Debug terminal interface (Go)" true "high";
    mkTodo "Implement weather module (Go)" false "medium";
    mkTodo "Optimize system performance (Go)" false "low" ].

Definition loadTodos (w : World) (f : FileRead (list TodoItem)) : M unit :=
  withLock (InLock "loadTodos")
    (match f with
     | NotExist => modify (set_todoItems defaultTodos)
     | ReadFailed err =>
         addNotification w (String.append "Error loading todos: " err)
                         "error" ;;
         modify (set_todoItems [])
     | Malformed err partial =>
         modify (set_todoItems partial) ;;
         addNotification w (String.append "Error parsing todos.json: " err)
                         "error" ;;
         modify (set_todoItems [])
     | Parsed items => modify (set_todoItems items)
     end).

Definition emptyHistory : SystemHistory := mkHistory [] [] [] [] [].

Definition loadSystemHistory (w : World) (f : FileRead SystemHistory)
  : M unit :=
  withLock (InLock "loadSystemHistory")
    (match f with
     | NotExist => modify (set_systemHistory emptyHistory)
     | ReadFailed err =>
         addNotification w (String.append "Error loading history: " err)
                         "error" ;;
         modify (set_systemHistory emptyHistory)
     | Malformed err partial =>
         modify (set_systemHistory partial) ;;
         addNotification w (String.append "Error parsing history.json: " err)
                         "error" ;;
         modify (set_systemHistory emptyHistory)
     | Parsed h => modify (set_systemHistory h)
     end).

Definition zeroTheme : Theme := mkTheme 0 0 0.
Definition zeroWeather : WeatherInfo := mkWeather "" 0 "" 0 0 "" 0.

(** The struct literal of [NewBaseline]: the fields it names, and the zero
    value everywhere else. *)
Definition newStruct (su : Startup) : Baseline :=
  let themeName := if String.eqb (envTheme su) "" then "amber"
                   else envTheme su in
  let amber := match lookup themes "amber" with
               | Some t => t | None => zeroTheme end in
  mkBaseline Unlocked
    (match homeDir su with
     | Some h => String.append h "/.baseline"
     | None => ".baseline"
     end)
    [] [] (mkHistory [] [] [] [] []) zeroWeather (mkIO 0 0) 0
    "dashboard" []
    (match lookup themes themeName with Some t => t | None => amber end)
    (envWeatherAPIKey su) (envWeatherLocation su)
    (match cpuCounts su with
     | Some n => if n =? 0 then 1 else n
     | None => 1
     end)
    LayoutWidget false "" [] (mkFiles None None) [].

(** [NewBaseline]: the outcome carries the struct it has built. *)
Definition NewBaseline (w : World) (su : Startup) : Outcome unit :=
  ((b <- get ;;
    when (String.eqb (weatherLocation b) "")
         (modify (set_weatherLocation "Lahore"))) ;;
   (b <- get ;;
    when (String.eqb (weatherAPIKey b) "YOUR_API_KEY"
          || String.eqb (weatherAPIKey b) "")
         (modify (set_weatherAPIKey "") ;;
          addNotification w "Weather API key not set. Using sample data."
                          "info")) ;;
   loadTodos w (todosFile su) ;;
   loadSystemHistory w (historyFile su) ;;
   match firstNetIO su with
   | Some (io0 :: _) =>
       modify (set_lastNetIO io0) ;; modify (set_lastNetTime (clock w))
   | _ => ret tt
   end) (newStruct su).

(** [updateHeader] and [updateFooter] read under the read lock and write
    to their widgets only. *)
Definition updateHeader : M unit :=
  rlock (InLock "updateHeader") ;; runlock.
Definition updateFooter : M unit :=
  rlock (InLock "updateFooter") ;; runlock.

(** [applyTheme], after the colours of the widgets are set. *)
Definition applyTheme (w : World) (m : Metrics) : M unit :=
  updateHeader ;;
  updateSystemInfo w m ;;
  updateWeather ;;
  updateTodos ;;
  updateFooter.

(** The [SetDoneFunc] callback of the command line. *)
Inductive DoneKey := KeyEnter | KeyEscape | KeyOther.

Definition cmdInputDone (w : World) (key : DoneKey) : M unit :=
  match key with
  | KeyEnter =>
      b <- get ;;
      processCommand w (cmdInputText b) ;;
      modify (set_appFocus LayoutWidget) ;;
      modify (set_currentFocus "dashboard") ;;
      updateFooter
  | KeyEscape =>
      modify (set_cmdInputText "") ;;
      modify (set_appFocus LayoutWidget) ;;
      modify (set_currentFocus "dashboard") ;;
      updateFooter
  | KeyOther => ret tt
  end.

(* ================================================================== *)
(** ** Executions *)
(* ================================================================== *)

(** A call of one method, by the event loop, by a ticker or by a goroutine
    that an earlier call has started. *)
Inductive Call :=
| CallAddNotification (message msgType : string)
| CallProcessCommand (command : string)
| CallCmdInputDone (key : DoneKey)
| CallInputHandler (r : ascii)
| CallUpdateTodos
| CallUpdateHeader
| CallUpdateFooter
| CallUpdateWeather
| CallFetchWeather (reply : HttpReply)
| CallUpdateSystemInfo (m : Metrics)
| CallApplyTheme (m : Metrics).

(** The struct after an outcome, whichever it is. *)
Definition finalState {A} (o : Outcome A) : Baseline :=
  match o with
  | Returned _ b => b
  | Blocked _ b => b
  | Panicked b => b
  end.

Definition perform (w : World) (c : Call) (b : Baseline) : Baseline :=
  match c with
  | CallAddNotification message msgType =>
      finalState (addNotification w message msgType b)
  | CallProcessCommand command => finalState (processCommand w command b)
  | CallCmdInputDone key => finalState (cmdInputDone w key b)
  | CallInputHandler r => finalState (inputHandler w r b)
  | CallUpdateTodos => finalState (updateTodos b)
  | CallUpdateHeader => finalState (updateHeader b)
  | CallUpdateFooter => finalState (updateFooter b)
  | CallUpdateWeather => finalState (updateWeather b)
  | CallFetchWeather reply => finalState (fetchWeather w reply b)
  | CallUpdateSystemInfo m => finalState (updateSystemInfo w m b)
  | CallApplyTheme m => finalState (applyTheme w m b)
  end.

(** The structs that an execution can show between two calls, the calls
    being taken one at a time. *)
Inductive reachable : Baseline -> Prop :=
| reach_new w su : reachable (finalState (NewBaseline w su))
| reach_call w c b : reachable b -> reachable (perform w c b).

(** A property of the struct that no outcome of [m] destroys. *)
Definition preserves {A} (P : Baseline -> Prop) (m : M A) : Prop :=
  forall b, P b -> P (finalState (m b)).

(* ================================================================== *)
(** ** Properties stated about the model *)
(* ================================================================== *)

(** The notification queue holds at most five entries. *)
Definition queueBounded (b : Baseline) : Prop := len (notifications b) <= 5.

(** The five sequences of the metric history have one length. *)
Definition aligned (h : SystemHistory) : Prop :=
  len (Memory h) = len (CPU h) /\
  len (Timestamps h) = len (CPU h) /\
  len (NetworkIn h) = len (CPU h) /\
  len (NetworkOut h) = len (CPU h).

(** None of them is longer than [historyLimit]. *)
Definition withinLimit (h : SystemHistory) : Prop :=
  len (CPU h) <= historyLimit /\
  len (Memory h) <= historyLimit /\
  len (Timestamps h) <= historyLimit /\
  len (NetworkIn h) <= historyLimit /\
  len (NetworkOut h) <= historyLimit.

(** The last [n] elements of [l]: what is left when the oldest are dropped
    first. *)
Definition lastN {A} (n : nat) (l : list A) : list A :=
  skipn (List.length l - n) l.

(** The history with each sequence cut to its last [historyLimit]
    entries. *)
Definition trimmed (h : SystemHistory) : SystemHistory :=
  mkHistory (lastN 60 (CPU h)) (lastN 60 (Memory h))
            (lastN 60 (Timestamps h)) (lastN 60 (NetworkIn h))
            (lastN 60 (NetworkOut h)).

(** The history after one more sample with network counters [io]. *)
Definition sampled (m : Metrics) (io : IOCountersStat) (h : SystemHistory)
  : SystemHistory :=
  mkHistory (CPU h ++ [cpuPercent m]) (Memory h ++ [memPercent m])
            (Timestamps h ++ [nowStr m]) (NetworkIn h ++ [BytesRecv io])
            (NetworkOut h ++ [BytesSent io]).

Definition hasPanicked {A} (o : Outcome A) : bool :=
  match o with Panicked _ => true | _ => false end.

Definition hasReturned {A} (o : Outcome A) : bool :=
  match o with Returned _ _ => true | _ => false end.

(** The todo list is in the order of the panel: high, then medium and
    unrecognised, then low. *)
Definition inPriorityOrder (items : list TodoItem) : Prop :=
  StronglySorted (fun x y => priorityRank x <= priorityRank y) items.

(** The items of [items] whose rank is [r], in their order. *)
Definition ofRank (r : Z) (items : list TodoItem) : list TodoItem :=
  filter (fun t => priorityRank t =? r) items.

(** The call does not return: it waits for the mutex, and the mutex stays
    held. *)
Definition stuck {A} (m : M A) (b : Baseline) : Prop :=
  exists p b', m b = Blocked p b' /\ mu b' = WriteLocked.

(** The verbs of [case "exit", "quit", "q"]. *)
Definition isExit (cmd : string) : bool :=
  String.eqb cmd "exit" || String.eqb cmd "quit" || String.eqb cmd "q".

(** The runes whose case of [inputHandler] reports with a notification. *)
Definition notifyingKeys : list ascii :=
  ["?"%char; "n"%char; "t"%char; "d"%char; "p"%char].

(** Every character of [s] is white space. *)
Fixpoint allSpace (s : string) : bool :=
  match s with
  | EmptyString => true
  | String c r => isSpace c && allSpace r
  end.

(** One press of [p] on an item of priority [p]: the value the handler
    stores, or [None] when it stores nothing. *)
Definition cyclePriority (p : string) : option string :=
  if priorityIndex p =? -1 then None else nextPriority (priorityIndex p).

(** [todo delete k] on the slice alone. *)
Definition deleteAt (k : Z) (items : list TodoItem) : list TodoItem :=
  firstn (Z.to_nat (k - 1)) items ++ skipn (Z.to_nat k) items.

(** [todo toggle k] on the slice alone. *)
Definition toggleAt (k : Z) (items : list TodoItem) : list TodoItem :=
  match nth_error items (Z.to_nat (k - 1)) with
  | Some item => setNth (Z.to_nat (k - 1)) (withDone (negb (Done item)) item) items
  | None => items
  end.

(* ================================================================== *)
(** ** Sample inputs *)
(* ================================================================== *)

(** A first start: no key, no files, four logical cores. *)
Definition firstStart : Startup :=
  mkStartup (Some "/home/user") (Some 4) "" "" "" NotExist NotExist
            (Some [mkIO 1000 2000]).

Definition noon : World := mkWorld 43200 None 0.

(** The struct [NewBaseline] returns on a first start. *)
Definition started : Baseline := finalState (NewBaseline noon firstStart).

(** The struct after a start that finds an empty list in todos.json. *)
Definition startedEmpty : Baseline :=
  finalState
    (NewBaseline noon
       (mkStartup (Some "/home/user") (Some 4) "" "" "" (Parsed [])
                  NotExist (Some [mkIO 1000 2000]))).

(** Five notifications, the oldest first. *)
Definition fiveNotifications : list Notification :=
  [ mkNotification "one" "info" 1; mkNotification "two" "info" 2;
    mkNotification "three" "error" 3; mkNotification "four" "success" 4;
    mkNotification "five" "info" 5 ].

(** The struct after these five have been pushed on the started one, each
    at the time it carries. *)
Definition startedFull : Baseline :=
  fold_left
    (fun b n =>
       perform (mkWorld (Time_ n) None 0)
               (CallAddNotification (Message n) (Type_ n)) b)
    fiveNotifications started.

(** A reading taken while the network counters are unavailable, and one
    taken while they are available. *)
Definition offline : Metrics :=
  mkMetrics (Some [12.5%Q]) (Some 40%Q) true [] 43202 "12:00:02".
Definition online : Metrics :=
  mkMetrics (Some [12.5%Q]) (Some 40%Q) false [mkIO 1500 2500] 43202
            "12:00:02".

(** [n] ticks of the system ticker, each with the reading [m]; the run
    stops at the first call that does not return. *)
Fixpoint ticks (w : World) (m : Metrics) (n : nat) : M unit :=
  match n with
  | O => ret tt
  | S n' => updateSystemInfo w m ;; ticks w m n'
  end.

(** A todo list stored in the order of insertion, low before high. *)
Definition lowThenHigh : list TodoItem :=
  [ mkTodo "water plants" false "low"; mkTodo "pay rent" false "high" ].

(** The struct after a start that finds [lowThenHigh] in todos.json. *)
Definition startedLowThenHigh : Baseline :=
  finalState
    (NewBaseline noon
       (mkStartup (Some "/home/user") (Some 4) "" "" "" (Parsed lowThenHigh)
                  NotExist (Some [mkIO 1000 2000]))).

(* ================================================================== *)
(** ** Further properties of the struct and of its methods *)
(* ================================================================== *)

Definition hasBlocked {A} (o : Outcome A) : bool :=
  match o with Blocked _ _ => true | _ => false end.

(** The file is absent or holds a value that parses. *)
Definition readable {A} (f : FileRead A) : bool :=
  match f with
  | NotExist | Parsed _ => true
  | ReadFailed _ | Malformed _ _ => false
  end.

(** The palette is one of the entries of [themes]. *)
Definition knownTheme (t : Theme) : Prop :=
  exists name, lookup themes name = Some t.

(** The focus flag of the struct and the widget that has the focus say the
    same. *)
Definition focusCoherent (b : Baseline) : Prop :=
  (currentFocus b = "dashboard" /\ appFocus b = LayoutWidget) \/
  (currentFocus b = "command" /\ appFocus b = CmdInputWidget).

(** What the struct keeps from its construction on. *)
Definition wellFormed (b : Baseline) : Prop :=
  len (commandHistory b) <= 20 /\
  knownTheme (theme b) /\
  focusCoherent b /\
  weatherLocation b <> "".

(** What a call that runs under the write lock leaves as it found it in
    [b0]: the mutex stays held, no goroutine is started, nothing is pushed
    on the notification queue (it can only be emptied), and the fields the
    dispatcher has no business with are untouched. *)
Definition underLock (b0 b : Baseline) : Prop :=
  mu b = WriteLocked /\
  spawned b = spawned b0 /\
  (notifications b = notifications b0 \/ notifications b = []) /\
  commandHistory b = commandHistory b0 /\
  currentFocus b = currentFocus b0 /\
  appFocus b = appFocus b0 /\
  systemHistory b = systemHistory b0 /\
  weatherInfo b = weatherInfo b0 /\
  weatherAPIKey b = weatherAPIKey b0 /\
  todoPanel b = todoPanel b0 /\
  cmdInputText b = cmdInputText b0.

(** The number of entries one sample adds to each network sequence. *)
Definition netSamples (m : Metrics) : Z :=
  match currentNetIO m with [] => 0 | _ :: _ => 1 end.

(** The struct a todo command leaves when it has put [items] in the slice
    and called [saveTodos]. *)
Definition savedTodos (w : World) (items : list TodoItem) (b : Baseline)
  : Baseline :=
  match writeError w with
  | None =>
      set_files (mkFiles (Some items) (systemHistoryJson (files b)))
                (set_todoItems items b)
  | Some _ => set_todoItems items b
  end.

(* ================================================================== *)
(** ** The helpers of the panels *)
(* ================================================================== *)

(** A [time.Duration] is a count of nanoseconds in an [int64]. *)
Definition Second : Z := 1000000000.
Definition Minute : Z := 60 * Second.
Definition Hour : Z := 60 * Minute.
Definition maxDuration : Z := 2 ^ 63 - 1.
Definition minDuration : Z := - 2 ^ 63.

(** The value an [int64] holds after an operation whose exact result is
    [z]. *)
Definition wrap64 (z : Z) : Z := (z + 2 ^ 63) mod 2 ^ 64 - 2 ^ 63.

(** [lessThanHalf(x, y)] of package time: [uint64(x)+uint64(x) < uint64(y)]. *)
Definition lessThanHalf (x y : Z) : bool :=
  ((x mod 2 ^ 64) + (x mod 2 ^ 64)) mod 2 ^ 64 <? y mod 2 ^ 64.

(** [d.Round(m)]: the multiple of [m] nearest to [d], halves going away
    from zero; the largest or smallest duration when that multiple does
    not fit. *)
Definition Round (d m : Z) : Z :=
  if m <=? 0 then d
  else
    let r := Z.rem d m in
    if d <? 0 then
      let r := - r in
      if lessThanHalf r m then d + r
      else
        let d1 := wrap64 (d - m + r) in
        if d1 <? d then d1 else minDuration
    else if lessThanHalf r m then d - r
    else
      let d1 := wrap64 (d + m - r) in
      if d <? d1 then d1 else maxDuration.

(** [d.Hours()] and [d.Minutes()]: the whole units, plus the rest as a
    fraction of one unit. *)
Definition Hours (d : Z) : Q :=
  (inject_Z (Z.quot d Hour) + inject_Z (Z.rem d Hour) / inject_Z Hour)%Q.
Definition Minutes (d : Z) : Q :=
  (inject_Z (Z.quot d Minute) + inject_Z (Z.rem d Minute) / inject_Z Minute)%Q.

(** The conversion [int(x)] of a float: the fraction is dropped. *)
Definition truncate (x : Q) : Z := Z.quot (Qnum x) (Z.pos (Qden x)).

(** The three [return]s at the end of [formatDuration], for the numbers
    of days, hours and minutes it has computed. *)
Definition shownDuration (days hrs mins : Z) : string :=
  if 0 <? days then
    String.append (showInt days)
      (String.append "d "
         (String.append (showInt hrs)
            (String.append "h " (String.append (showInt mins) "m"))))
  else if 0 <? hrs then
    String.append (showInt hrs)
      (String.append "h " (String.append (showInt mins) "m"))
  else String.append (showInt mins) "m".

Definition formatDuration (d : Z) : string :=
  if d <? 0 then "N/A"
  else
    let d := Round d Minute in
    let days := Z.quot (truncate (Hours d)) 24 in
    let hrs := Z.rem (truncate (Hours d)) 24 in
    let mins := Z.rem (truncate (Minutes d)) 60 in
    shownDuration days hrs mins.

(** The calendar of [updateTime].  Each [WriteString] of the inner loop
    is one cell of the week: three blanks, a day number, or the number of
    the current day with its mark. *)
Inductive Cell := Pad | Day (n : Z) | Today (n : Z).

(** One line of the calendar: what [weekStr] holds when the week is
    written, and the flag [isCurrentWeek] that picks its colour. *)
Record WeekRow := mkWeek { cells : list Cell; isCurrentWeek : bool }.

(** The loop [for wd := 0; wd < 7; wd++], from [wd] on, with [n]
    iterations to go.  It carries [currentDay], [weekStr] and
    [isCurrentWeek]. *)
Fixpoint weekLoop (n : nat) (week wd startDay daysInMonth day : Z)
    (currentDay : Z) (weekStr : list Cell) (isCurrent : bool)
  : Z * list Cell * bool :=
  match n with
  | O => (currentDay, weekStr, isCurrent)
  | S n' =>
      if (week =? 0) && (wd <? startDay) then
        weekLoop n' week (wd + 1) startDay daysInMonth day
                 currentDay (weekStr ++ [Pad]) isCurrent
      else if currentDay <=? daysInMonth then
        if currentDay =? day then
          weekLoop n' week (wd + 1) startDay daysInMonth day
                   (currentDay + 1) (weekStr ++ [Today currentDay]) true
        else
          weekLoop n' week (wd + 1) startDay daysInMonth day
                   (currentDay + 1) (weekStr ++ [Day currentDay]) isCurrent
      else
        weekLoop n' week (wd + 1) startDay daysInMonth day
                 currentDay (weekStr ++ [Pad]) isCurrent
  end.

(** The loop [for week := 0; currentDay <= daysInMonth; week++].  The
    source has no bound on the number of weeks; [fuel] is the number of
    iterations the model may take, and [None] says it was not enough. *)
Fixpoint calendarLoop (fuel : nat) (week startDay daysInMonth day : Z)
    (currentDay : Z) (sb : list WeekRow) : option (list WeekRow) :=
  match fuel with
  | O => if currentDay <=? daysInMonth then None else Some sb
  | S fuel' =>
      if currentDay <=? daysInMonth then
        let '(currentDay', weekStr, isCurrent) :=
          weekLoop 7 week 0 startDay daysInMonth day currentDay [] false in
        calendarLoop fuel' (week + 1) startDay daysInMonth day currentDay'
                     (sb ++ [mkWeek weekStr isCurrent])
      else Some sb
  end.

(** The calendar block, for the weekday of the first of the month
    (Monday = 0), the number of days of the month and the day of today. *)
Definition calendar (fuel : nat) (startDay daysInMonth day : Z)
  : option (list WeekRow) :=
  calendarLoop fuel 0 startDay daysInMonth day 1 [].

(** The days of a month of [n] days, in order. *)
Definition daysOf (n : Z) : list Z := map Z.of_nat (seq 1 (Z.to_nat n)).

(** The cells of a month read line after line: blanks up to the weekday
    of the first, the days, and blanks up to the end of the last week. *)
Definition monthCells (startDay daysInMonth day : Z) : list Cell :=
  repeat Pad (Z.to_nat startDay)
  ++ map (fun d => if d =? day then Today d else Day d) (daysOf daysInMonth)
  ++ repeat Pad (Z.to_nat ((7 - (startDay + daysInMonth) mod 7) mod 7)).



(** The verb [%06x]: lower-case hexadecimal digits, filled with zeros to a
    width of six, the sign of a negative value taking one place. *)
Definition hexDigits (v : Z) : string :=
  HexadecimalString.NilZero.string_of_int (Z.to_hex_int v).
Definition zeroFilled (width : nat) (digits : string) : string :=
  String.append
    (String.concat "" (repeat "0" (width - String.length digits))) digits.
Definition hex06 (v : Z) : string :=
  if v <? 0 then String.append "-" (zeroFilled 5 (hexDigits (- v)))
  else zeroFilled 6 (hexDigits v).

(** [colorTag], on the value [color.Hex()]. *)
Definition colorTag (color : Z) : string :=
  String.append "[#" (String.append (hex06 color) "]").



(** What [updateFooter] puts on the last line of the screen: the command
    line in place of the footer, the latest notification with the
    arguments of its [Sprintf], or the hint. *)
Inductive FooterView :=
| CommandLine
| LatestNotification (timeColor : string) (time : Instant)
                     (color message : string)
| Hint (color : string).

(** The zero value of [Notification]. *)
Definition zeroNotification : Notification := mkNotification "" "" 0.

(** [updateFooter], on the copy of the struct it takes under the read
    lock. *)
Definition footerContent (b : Baseline) : FooterView :=
  let currentFocus := currentFocus b in
  let hasNotifications := 0 <? len (notifications b) in
  let latest :=
    if hasNotifications then last (notifications b) zeroNotification
    else zeroNotification in
  if String.eqb currentFocus "command" then CommandLine
  else if hasNotifications then
    let color :=
      if String.eqb (Type_ latest) "error" then "[red]"
      else if String.eqb (Type_ latest) "success" then "[green]"
      else colorTag (Main (theme b)) in
    LatestNotification (colorTag (Dim (theme b))) (Time_ latest) color
                       (Message latest)
  else Hint (colorTag (Dim (theme b))).

(** The colour of a notification of kind [msgType] under [theme]. *)
Definition kindColor (theme : Theme) (msgType : string) : string :=
  if String.eqb msgType "error" then "[red]"
  else if String.eqb msgType "success" then "[green]"
  else colorTag (Main theme).

(** What [updateWeather] puts in the weather panel above the static
    forecast: the status block with the configured location, the error and,
    without a key, the hint to set one; or the block of the readings. *)
Inductive WeatherView :=
| WeatherStatus (location status : string) (keyHint : bool)
| WeatherReadings (location : string) (tempC : Q) (condition : string)
                  (humidity : Z) (windKph : Q).

(** [updateWeather], on the copies it takes under the read lock. *)
Definition weatherContent (b : Baseline) : WeatherView :=
  let info := weatherInfo b in
  let apiKeySet := negb (String.eqb (weatherAPIKey b) "") in
  let location := weatherLocation b in
  if negb (String.eqb (Error info) "") then
    WeatherStatus location (Error info) (negb apiKeySet)
  else
    WeatherReadings (Location info) (TempC info) (Condition info)
                    (Humidity info) (WindKph info).

(** The calls whose first action on the struct is to take the mutex: all
    but a key typed into the command line, and Escape or another key than
    Enter ending the command line. *)
Definition takesLock (c : Call) (b : Baseline) : bool :=
  match c with
  | CallCmdInputDone KeyEnter => true
  | CallCmdInputDone _ => false
  | CallInputHandler _ =>
      match appFocus b with LayoutWidget => true | CmdInputWidget => false end
  | _ => true
  end.

(** Whether the call is left waiting for the mutex. *)
Definition callBlocks (w : World) (c : Call) (b : Baseline) : bool :=
  match c with
  | CallAddNotification message msgType =>
      hasBlocked (addNotification w message msgType b)
  | CallProcessCommand command => hasBlocked (processCommand w command b)
  | CallCmdInputDone key => hasBlocked (cmdInputDone w key b)
  | CallInputHandler r => hasBlocked (inputHandler w r b)
  | CallUpdateTodos => hasBlocked (updateTodos b)
  | CallUpdateHeader => hasBlocked (updateHeader b)
  | CallUpdateFooter => hasBlocked (updateFooter b)
  | CallUpdateWeather => hasBlocked (updateWeather b)
  | CallFetchWeather reply => hasBlocked (fetchWeather w reply b)
  | CallUpdateSystemInfo m => hasBlocked (updateSystemInfo w m b)
  | CallApplyTheme m => hasBlocked (applyTheme w m b)
  end.

(* ================================================================== *)
(** * Proofs *)
(* ================================================================== *)

(** ** Strings *)

Lemma lowerChar_idempotent c : lowerChar (lowerChar c) = lowerChar c.
Proof. destruct c as [[] [] [] [] [] [] [] []]; reflexivity. Qed.

Lemma ToLower_idempotent s : ToLower (ToLower s) = ToLower s.
Proof.
  induction s as [|c r IH]; simpl; [reflexivity|].
  now rewrite lowerChar_idempotent, IH.
Qed.

Lemma lowerChar_space c : isSpace c = true -> lowerChar c = c.
Proof. destruct c as [[] [] [] [] [] [] [] []]; simpl; intros H; try reflexivity; discriminate H. Qed.

Lemma ToLower_allSpace s : allSpace s = true -> ToLower s = s.
Proof.
  induction s as [|c r IH]; simpl; [reflexivity|].
  intros H. apply andb_prop in H. destruct H as [Hc Hr].
  now rewrite (lowerChar_space c Hc), (IH Hr).
Qed.

Lemma trimLeft_allSpace s : allSpace s = true -> trimLeft s = EmptyString.
Proof.
  induction s as [|c r IH]; simpl; [reflexivity|].
  intros H. apply andb_prop in H. destruct H as [Hc Hr].
  rewrite Hc. exact (IH Hr).
Qed.

Lemma TrimSpace_allSpace s :
  allSpace s = true -> TrimSpace (ToLower s) = EmptyString.
Proof.
  intros H. unfold TrimSpace.
  rewrite (ToLower_allSpace s H), (trimLeft_allSpace s H). reflexivity.
Qed.

(** ** Slices *)

Lemma len_nonneg {A} (s : list A) : 0 <= len s.
Proof. unfold len. lia. Qed.

Lemma len_app {A} (s t : list A) : len (s ++ t) = len s + len t.
Proof. unfold len. rewrite length_app. lia. Qed.

Lemma len_cons {A} (x : A) (s : list A) : len (x :: s) = len s + 1.
Proof. unfold len. simpl. lia. Qed.

Lemma sliceFrom_inside {A} (s : list A) i :
  0 <= i <= len s -> sliceFrom s i = Some (skipn (Z.to_nat i) s).
Proof.
  intros [H0 H1]. unfold sliceFrom.
  apply Z.leb_le in H0. apply Z.leb_le in H1. now rewrite H0, H1.
Qed.

Lemma sliceTo_inside {A} (s : list A) i :
  0 <= i <= len s -> sliceTo s i = Some (firstn (Z.to_nat i) s).
Proof.
  intros [H0 H1]. unfold sliceTo.
  apply Z.leb_le in H0. apply Z.leb_le in H1. now rewrite H0, H1.
Qed.

Lemma appendCapped_lastN {A} cap (s : list A) x :
  0 <= cap -> appendCapped cap s x = Some (lastN (Z.to_nat cap) (s ++ [x])).
Proof.
  intros Hcap. unfold appendCapped, lastN.
  destruct (cap <? len (s ++ [x])) eqn:E.
  - apply Z.ltb_lt in E. rewrite sliceFrom_inside by lia.
    f_equal. f_equal. unfold len in *. lia.
  - apply Z.ltb_ge in E. f_equal.
    replace (List.length (s ++ [x]) - Z.to_nat cap)%nat with 0%nat
      by (unfold len in E; lia).
    reflexivity.
Qed.

Lemma len_lastN {A} n (l : list A) :
  len (lastN n l) = Z.min (Z.of_nat n) (len l).
Proof. unfold lastN, len. rewrite length_skipn. lia. Qed.

Lemma lastN_short {A} n (l : list A) :
  len l <= Z.of_nat n -> lastN n l = l.
Proof.
  intros H. unfold lastN.
  replace (List.length l - n)%nat with 0%nat by (unfold len in H; lia).
  reflexivity.
Qed.

Lemma lastN_snoc {A} n (l : list A) x :
  lastN (S n) (l ++ [x]) = lastN n l ++ [x].
Proof.
  unfold lastN. rewrite length_app, skipn_app. simpl List.length.
  replace (List.length l + 1 - S n)%nat with (List.length l - n)%nat by lia.
  replace (List.length l - n - List.length l)%nat with 0%nat by lia.
  reflexivity.
Qed.

(** ** The mutex *)

Lemma set_mu_same b : set_mu (mu b) b = b.
Proof. now destruct b. Qed.

Lemma set_mu_twice v v' b : set_mu v (set_mu v' b) = set_mu v b.
Proof. now destruct b. Qed.

Lemma mu_set_mu v b : mu (set_mu v b) = v.
Proof. now destruct b. Qed.

Lemma unlock_after_lock b : mu b = Unlocked -> set_mu Unlocked (set_mu WriteLocked b) = b.
Proof. intros H. rewrite set_mu_twice, <- H. apply set_mu_same. Qed.

(** A method that takes the write lock cannot start while it is held. *)
Lemma withLock_held {A} p (body : M A) b :
  mu b <> Unlocked -> withLock p body b = Blocked p b.
Proof.
  intros H. unfold withLock, lock. destruct (mu b); congruence.
Qed.

Lemma addNotification_held w message msgType b :
  mu b <> Unlocked ->
  addNotification w message msgType b
  = Blocked (InAddNotification message msgType) b.
Proof. intros H. unfold addNotification. now apply withLock_held. Qed.

Lemma addNotification_free w message msgType b :
  mu b = Unlocked ->
  addNotification w message msgType b
  = Returned tt
      (set_spawned (spawned b ++ [UpdateFooter])
         (set_notifications
            (lastN 5 (notifications b
                      ++ [mkNotification message msgType (clock w)])) b)).
Proof.
  intros H. unfold addNotification, withLock, lock. rewrite H.
  unfold bind, get, orPanic.
  replace (notifications (set_mu WriteLocked b)) with (notifications b)
    by now destruct b.
  rewrite appendCapped_lastN by lia.
  change (Z.to_nat 5) with 5%nat.
  unfold ret, modify, spawn, modify, unlock.
  destruct b; simpl in *; subst; reflexivity.
Qed.

(** ** What every method preserves: the bound on the notification queue *)

Section Preservation.

Variable P : Baseline -> Prop.
(** [P] looks at nothing but the notification queue. *)
Hypothesis P_frame :
  forall b b', notifications b' = notifications b -> P b -> P b'.

Lemma preserves_ret {A} (a : A) : preserves P (ret a).
Proof. intros b H. exact H. Qed.

Lemma preserves_get : preserves P get.
Proof. intros b H. exact H. Qed.

Lemma preserves_gets {A} (f : Baseline -> A) : preserves P (gets f).
Proof. intros b H. exact H. Qed.

Lemma preserves_panic {A} : preserves P (@panic A).
Proof. intros b H. exact H. Qed.

Lemma preserves_orPanic {A} (o : option A) : preserves P (orPanic o).
Proof. destruct o; intros b H; exact H. Qed.

Lemma preserves_bind {A B} (m : M A) (k : A -> M B) :
  preserves P m -> (forall a, preserves P (k a)) -> preserves P (bind m k).
Proof.
  intros Hm Hk b H. unfold bind. specialize (Hm b H).
  destruct (m b) as [a b'|p b'|b']; simpl in *; [now apply Hk|exact Hm|exact Hm].
Qed.

Lemma preserves_modify f :
  (forall b, notifications (f b) = notifications b) -> preserves P (modify f).
Proof. intros Hf b H. simpl. exact (P_frame b (f b) (Hf b) H). Qed.

Lemma preserves_set_mu v b : P b -> P (set_mu v b).
Proof. apply P_frame. now destruct b. Qed.

Lemma preserves_lock p : preserves P (lock p).
Proof.
  intros b H. unfold lock. destruct (mu b); simpl; auto using preserves_set_mu.
Qed.

Lemma preserves_unlock : preserves P unlock.
Proof.
  intros b H. unfold unlock. destruct (mu b); simpl; auto using preserves_set_mu.
Qed.

Lemma preserves_rlock p : preserves P (rlock p).
Proof.
  intros b H. unfold rlock. destruct (mu b); simpl; auto using preserves_set_mu.
Qed.

Lemma preserves_runlock : preserves P runlock.
Proof.
  intros b H. unfold runlock.
  destruct (mu b) as [| |[n|n|]]; simpl; auto using preserves_set_mu.
Qed.

Lemma preserves_withLock {A} p (body : M A) :
  preserves P body -> preserves P (withLock p body).
Proof.
  intros Hbody b H. unfold withLock.
  pose proof (preserves_lock p b H) as Hl.
  destruct (lock p b) as [[] b1|q b1|b1]; simpl in *; try exact Hl.
  specialize (Hbody b1 Hl).
  destruct (body b1) as [a b2|q b2|b2]; simpl in *; try exact Hbody;
    pose proof (preserves_unlock b2 Hbody) as Hu;
    destruct (unlock b2) as [[] b3|q b3|b3]; simpl in *; exact Hu.
Qed.

Lemma preserves_when c m : preserves P m -> preserves P (when c m).
Proof. intros H. destruct c; simpl; [exact H|apply preserves_ret]. Qed.

Lemma preserves_spawn t : preserves P (spawn t).
Proof. apply preserves_modify. intros b. now destruct b. Qed.

Lemma preserves_history f : preserves P (history f).
Proof. apply preserves_modify. intros b. now destruct b. Qed.

End Preservation.

Lemma queueBounded_frame b b' :
  notifications b' = notifications b -> queueBounded b -> queueBounded b'.
Proof. unfold queueBounded. intros ->. auto. Qed.

Lemma preserves_addNotification w message msgType :
  preserves queueBounded (addNotification w message msgType).
Proof.
  intros b H. destruct (mu b) eqn:E.
  - rewrite addNotification_free by exact E. simpl.
    unfold queueBounded.
    replace (notifications _) with
      (lastN 5 (notifications b ++ [mkNotification message msgType (clock w)]))
      by now destruct b.
    rewrite len_lastN. lia.
  - rewrite addNotification_held by congruence. exact H.
  - rewrite addNotification_held by congruence. exact H.
Qed.

Lemma preserves_clear : preserves queueBounded (modify (set_notifications [])).
Proof. intros b H. destruct b. unfold queueBounded, len. simpl. lia. Qed.

Create HintDb preserve.

#[local] Hint Resolve preserves_ret preserves_get preserves_gets preserves_panic
  preserves_orPanic preserves_lock preserves_unlock preserves_rlock
  preserves_runlock preserves_withLock preserves_when preserves_spawn
  preserves_history queueBounded_frame preserves_addNotification
  preserves_clear : preserve.

(** Takes a method apart along its binds, branches and assignments. *)
Ltac preserve :=
  repeat first
    [ solve [eauto with preserve]
    | match goal with
      | |- preserves _ (withLock _ _) =>
          apply preserves_withLock; [exact queueBounded_frame|]
      | |- preserves _ (when _ _) =>
          apply preserves_when
      | |- preserves _ (bind _ _) => apply preserves_bind; [|intros ?]
      | |- preserves _ (modify _) =>
          apply preserves_modify;
            [exact queueBounded_frame
            |let b := fresh "b" in intros b; now destruct b]
      | |- preserves _ (match ?x with _ => _ end) => destruct x
      | |- preserves _ (let '(_, _) := ?x in _) => destruct x
      end ].

Lemma preserves_saveTodos w : preserves queueBounded (saveTodos w).
Proof. unfold saveTodos. preserve. Qed.

Lemma preserves_trimHistory : preserves queueBounded trimHistory.
Proof. unfold trimHistory. preserve. Qed.

Lemma preserves_saveSystemHistory w :
  preserves queueBounded (saveSystemHistory w).
Proof. unfold saveSystemHistory. pose proof preserves_trimHistory. preserve. Qed.

Lemma preserves_updateSystemInfo w m :
  preserves queueBounded (updateSystemInfo w m).
Proof.
  unfold updateSystemInfo, recordNetIO, appendSample.
  pose proof (preserves_saveSystemHistory w).
  preserve.
Qed.

Lemma preserves_updateWeather : preserves queueBounded updateWeather.
Proof. unfold updateWeather. preserve. Qed.

Lemma preserves_updateHeader : preserves queueBounded updateHeader.
Proof. unfold updateHeader. preserve. Qed.

Lemma preserves_updateFooter : preserves queueBounded updateFooter.
Proof. unfold updateFooter. preserve. Qed.

Lemma preserves_fetchWeather w reply :
  preserves queueBounded (fetchWeather w reply).
Proof.
  unfold fetchWeather. pose proof preserves_updateWeather. preserve.
Qed.

Lemma preserves_updateTodos : preserves queueBounded updateTodos.
Proof. unfold updateTodos. preserve. Qed.

Lemma preserves_themeCommand w args :
  preserves queueBounded (themeCommand w args).
Proof. unfold themeCommand. preserve. Qed.

Lemma preserves_todoCommand w args :
  preserves queueBounded (todoCommand w args).
Proof.
  unfold todoCommand, todoAdd, todoToggle, todoDelete, invalidIndex.
  pose proof (preserves_saveTodos w).
  preserve.
Qed.

Lemma preserves_weatherCommand w args :
  preserves queueBounded (weatherCommand w args).
Proof. unfold weatherCommand. preserve. Qed.

Lemma preserves_switchCommand w command cmd args :
  preserves queueBounded (switchCommand w command cmd args).
Proof.
  unfold switchCommand.
  pose proof (preserves_themeCommand w args).
  pose proof (preserves_todoCommand w args).
  pose proof (preserves_weatherCommand w args).
  preserve.
Qed.

Lemma preserves_processCommand w command :
  preserves queueBounded (processCommand w command).
Proof.
  unfold processCommand.
  pose proof (preserves_switchCommand w).
  preserve.
Qed.

Lemma preserves_inputHandler w r :
  preserves queueBounded (inputHandler w r).
Proof.
  unfold inputHandler, keyToggle, keyDelete, keyPriority.
  pose proof (preserves_saveTodos w). preserve.
Qed.

Lemma preserves_cmdInputDone w key :
  preserves queueBounded (cmdInputDone w key).
Proof.
  unfold cmdInputDone.
  pose proof (preserves_processCommand w). pose proof preserves_updateFooter.
  preserve.
Qed.

Lemma preserves_applyTheme w m : preserves queueBounded (applyTheme w m).
Proof.
  unfold applyTheme.
  pose proof preserves_updateHeader. pose proof (preserves_updateSystemInfo w m).
  pose proof preserves_updateWeather. pose proof preserves_updateTodos.
  pose proof preserves_updateFooter.
  preserve.
Qed.

Lemma preserves_loadTodos w f : preserves queueBounded (loadTodos w f).
Proof. unfold loadTodos. preserve. Qed.

Lemma preserves_loadSystemHistory w f :
  preserves queueBounded (loadSystemHistory w f).
Proof. unfold loadSystemHistory. preserve. Qed.

Lemma queueBounded_new w su : queueBounded (finalState (NewBaseline w su)).
Proof.
  unfold NewBaseline.
  assert (H : queueBounded (newStruct su))
    by (unfold queueBounded, len; simpl; lia).
  revert H. generalize (newStruct su).
  change (preserves queueBounded
    ((b <- get ;;
      when (String.eqb (weatherLocation b) "")
           (modify (set_weatherLocation "Lahore"))) ;;
     (b <- get ;;
      when (String.eqb (weatherAPIKey b) "YOUR_API_KEY"
            || String.eqb (weatherAPIKey b) "")
           (modify (set_weatherAPIKey "") ;;
            addNotification w "Weather API key not set. Using sample data."
                            "info")) ;;
     loadTodos w (todosFile su) ;;
     loadSystemHistory w (historyFile su) ;;
     match firstNetIO su with
     | Some (io0 :: _) =>
         modify (set_lastNetIO io0) ;; modify (set_lastNetTime (clock w))
     | _ => ret tt
     end)).
  pose proof (preserves_loadTodos w). pose proof (preserves_loadSystemHistory w).
  preserve.
Qed.

Lemma reachable_queueBounded b : reachable b -> queueBounded b.
Proof.
  induction 1 as [w su|w c b Hb IH].
  - apply queueBounded_new.
  - destruct c; simpl.
    + now apply preserves_addNotification.
    + now apply preserves_processCommand.
    + now apply preserves_cmdInputDone.
    + now apply preserves_inputHandler.
    + now apply preserves_updateTodos.
    + now apply preserves_updateHeader.
    + now apply preserves_updateFooter.
    + now apply preserves_updateWeather.
    + now apply preserves_fetchWeather.
    + now apply preserves_updateSystemInfo.
    + now apply preserves_applyTheme.
Qed.

(** ** The notification queue (C4) *)

(** C4.  The notification queue never holds more than five entries, in any
    struct an execution can show.  A call of [addNotification] that finds
    the mutex free returns; the queue is then the last four entries of the
    old queue, in their order, followed by the new entry, which carries the
    message, the kind and the clock reading of the call.  On a queue of five
    this drops the oldest entry and nothing else; on a shorter queue nothing
    is dropped. *)
Theorem notification_queue_bounded_fifo :
  (forall b, reachable b -> len (notifications b) <= 5) /\
  (forall w message msgType b,
     mu b = Unlocked ->
     let n := mkNotification message msgType (clock w) in
     exists b',
       addNotification w message msgType b = Returned tt b' /\
       notifications b' = lastN 4 (notifications b) ++ [n] /\
       len (notifications b') <= 5 /\
       (len (notifications b) = 5 ->
        notifications b' = tl (notifications b) ++ [n]) /\
       (len (notifications b) < 5 ->
        notifications b' = notifications b ++ [n])).
Proof.
  split; [exact reachable_queueBounded|].
  intros w message msgType b Hmu n.
  eexists. split; [apply addNotification_free; exact Hmu|].
  fold n.
  assert (Hq : notifications
                 (set_spawned (spawned b ++ [UpdateFooter])
                    (set_notifications (lastN 5 (notifications b ++ [n])) b))
               = lastN 4 (notifications b) ++ [n])
    by (rewrite <- lastN_snoc; now destruct b).
  rewrite Hq. clear Hq.
  split; [reflexivity|split; [|split]].
  - rewrite len_app, len_lastN. change (len [n]) with 1. lia.
  - intros H. f_equal. unfold lastN.
    replace (List.length (notifications b) - 4)%nat with 1%nat
      by (unfold len in H; lia).
    now destruct (notifications b).
  - intros H. f_equal. apply lastN_short. simpl. lia.
Qed.

Lemma notification_queue_bounded_fifo_witness :
  len (notifications (perform noon (CallProcessCommand "clear") started)) <= 5 /\
  exists b',
    addNotification noon "six" "info" startedFull = Returned tt b' /\
    notifications b'
    = [ mkNotification "two" "info" 2; mkNotification "three" "error" 3;
        mkNotification "four" "success" 4; mkNotification "five" "info" 5;
        mkNotification "six" "info" 43200 ].
Proof.
  destruct notification_queue_bounded_fifo as [Hreach Hpush].
  split.
  - apply Hreach. apply reach_call. apply (reach_new noon firstStart).
  - destruct (Hpush noon "six" "info" startedFull eq_refl)
      as [b' [Hrun [_ [_ [Hfull _]]]]].
    exists b'. split; [exact Hrun|]. apply Hfull. reflexivity.
Defined.

(** ** The empty command line (C10) *)

(** C10.  A command line that is empty or holds only white space changes
    nothing: dispatched with the mutex free, [processCommand] returns the
    struct as it was, with no notification pushed and nothing appended to
    the command history; and whatever the state of the mutex, the struct
    after the call is the struct before it. *)
Theorem blank_command_is_noop w command b :
  allSpace command = true ->
  (mu b = Unlocked -> processCommand w command b = Returned tt b) /\
  finalState (processCommand w command b) = b.
Proof.
  intros Hsp.
  assert (Hfree : mu b = Unlocked -> processCommand w command b = Returned tt b).
  { intros Hmu. unfold processCommand, withLock, lock. rewrite Hmu.
    rewrite (TrimSpace_allSpace command Hsp). simpl.
    unfold unlock. rewrite mu_set_mu.
    now rewrite (unlock_after_lock b Hmu). }
  split; [exact Hfree|].
  destruct (mu b) eqn:Hmu.
  - now rewrite Hfree.
  - unfold processCommand. rewrite withLock_held by congruence. reflexivity.
  - unfold processCommand. rewrite withLock_held by congruence. reflexivity.
Qed.

Lemma blank_command_is_noop_witness :
  processCommand noon "  	 " started = Returned tt started /\
  processCommand noon "" started = Returned tt started.
Proof.
  split.
  - apply (blank_command_is_noop noon "  	 " started eq_refl). reflexivity.
  - apply (blank_command_is_noop noon "" started eq_refl). reflexivity.
Defined.

(** ** The weather fetch without a key (C9) *)

(** C9.  With the API key unset, a weather fetch that finds the mutex free
    returns and leaves in [weatherInfo] exactly the sample snapshot: the
    configured location, 22.0 degrees, "Partly Cloudy (Sample)", humidity
    65, wind 8.0, the non-empty error "API Key not set" and the clock
    reading of the fetch.  Nothing of the previous snapshot survives and
    no other field of the struct changes. *)
Theorem fetchWeather_without_key w reply b :
  mu b = Unlocked ->
  weatherAPIKey b = "" ->
  fetchWeather w reply b
  = Returned tt
      (set_weatherInfo
         (mkWeather (weatherLocation b) 22 "Partly Cloudy (Sample)" 65 8
                    "API Key not set" (clock w)) b)
  /\ Error (weatherInfo
              (set_weatherInfo
                 (mkWeather (weatherLocation b) 22 "Partly Cloudy (Sample)"
                            65 8 "API Key not set" (clock w)) b)) <> "".
Proof.
  intros Hmu Hkey. split.
  - destruct b; simpl in *; subst. reflexivity.
  - destruct b; simpl. discriminate.
Qed.

Lemma fetchWeather_without_key_witness :
  exists b',
    fetchWeather noon (TransportError "unused") started = Returned tt b' /\
    weatherInfo b'
    = mkWeather "Lahore" 22 "Partly Cloudy (Sample)" 65 8 "API Key not set"
                43200.
Proof.
  destruct (fetchWeather_without_key noon (TransportError "unused") started
              eq_refl eq_refl) as [Hrun _].
  eexists. split; [exact Hrun|]. reflexivity.
Defined.

(** ** The todo panel (C3) *)

Lemma insertStable_perm x l : Permutation (insertStable x l) (x :: l).
Proof.
  induction l as [|y r IH]; simpl; [reflexivity|].
  destruct (lessTodo x y); [reflexivity|].
  rewrite IH. apply perm_swap.
Qed.

Lemma fold_insertStable_perm l acc :
  Permutation (fold_left (fun sorted x => insertStable x sorted) l acc)
              (acc ++ l).
Proof.
  revert acc. induction l as [|x l IH]; intros acc; simpl.
  - now rewrite app_nil_r.
  - rewrite IH, insertStable_perm. apply Permutation_cons_app. reflexivity.
Qed.

Lemma SliceStable_perm items : Permutation (SliceStable items) items.
Proof. unfold SliceStable. now rewrite fold_insertStable_perm. Qed.

Lemma insertStable_ordered x l :
  inPriorityOrder l -> inPriorityOrder (insertStable x l).
Proof.
  unfold inPriorityOrder.
  induction l as [|y r IH]; simpl; intros H.
  - constructor; constructor.
  - apply StronglySorted_inv in H. destruct H as [Hr Hy].
    unfold lessTodo. destruct (priorityRank x <? priorityRank y) eqn:E.
    + apply Z.ltb_lt in E. constructor.
      * constructor; assumption.
      * constructor; [lia|].
        eapply Forall_impl; [|exact Hy]. simpl. intros; lia.
    + apply Z.ltb_ge in E. constructor; [now apply IH|].
      eapply Permutation_Forall.
      * symmetry. apply insertStable_perm.
      * constructor; assumption.
Qed.

Lemma fold_insertStable_ordered l acc :
  inPriorityOrder acc ->
  inPriorityOrder (fold_left (fun sorted x => insertStable x sorted) l acc).
Proof.
  revert acc. induction l as [|x l IH]; intros acc H; simpl; [exact H|].
  apply IH. now apply insertStable_ordered.
Qed.

Lemma SliceStable_ordered items : inPriorityOrder (SliceStable items).
Proof. apply fold_insertStable_ordered. constructor. Qed.

Lemma ofRank_cons r x l : ofRank r (x :: l) = ofRank r [x] ++ ofRank r l.
Proof. unfold ofRank. change (x :: l) with ([x] ++ l). apply filter_app. Qed.

Lemma ofRank_above r x l :
  priorityRank x = r ->
  Forall (fun y => priorityRank x < priorityRank y) l -> ofRank r l = [].
Proof.
  intros Hx. induction 1 as [|y l Hy Hl IH]; simpl; [reflexivity|].
  destruct (priorityRank y =? r) eqn:E; [apply Z.eqb_eq in E; lia|exact IH].
Qed.

Lemma insertStable_stable r x l :
  inPriorityOrder l ->
  ofRank r (insertStable x l) = ofRank r l ++ ofRank r [x].
Proof.
  unfold inPriorityOrder.
  induction l as [|y l IH]; intros H; [reflexivity|].
  apply StronglySorted_inv in H. destruct H as [Hl Hy].
  simpl insertStable. unfold lessTodo.
  destruct (priorityRank x <? priorityRank y) eqn:E.
  - apply Z.ltb_lt in E.
    rewrite (ofRank_cons r x (y :: l)).
    simpl (ofRank r [x]).
    destruct (priorityRank x =? r) eqn:Ex; [|now rewrite app_nil_r].
    apply Z.eqb_eq in Ex.
    rewrite (ofRank_above r x (y :: l) Ex); [reflexivity|].
    constructor; [exact E|].
    eapply Forall_impl; [|exact Hy]. simpl. intros; lia.
  - rewrite (ofRank_cons r y (insertStable x l)), (IH Hl), app_assoc.
    now rewrite <- (ofRank_cons r y l).
Qed.

Lemma fold_insertStable_stable r l acc :
  inPriorityOrder acc ->
  ofRank r (fold_left (fun sorted x => insertStable x sorted) l acc)
  = ofRank r acc ++ ofRank r l.
Proof.
  revert acc. induction l as [|x l IH]; intros acc H; simpl fold_left.
  - simpl. now rewrite app_nil_r.
  - rewrite IH by now apply insertStable_ordered.
    rewrite insertStable_stable by exact H.
    rewrite <- app_assoc. now rewrite <- (ofRank_cons r x l).
Qed.

Lemma SliceStable_stable r items : ofRank r (SliceStable items) = ofRank r items.
Proof. unfold SliceStable. now rewrite fold_insertStable_stable by constructor. Qed.

Lemma ordered_prefix l1 l2 :
  inPriorityOrder (l1 ++ l2) -> inPriorityOrder l1.
Proof.
  unfold inPriorityOrder. induction l1 as [|x l1 IH]; simpl; intros H.
  - constructor.
  - apply StronglySorted_inv in H. destruct H as [Hl Hx].
    constructor; [now apply IH|].
    apply Forall_app in Hx. tauto.
Qed.

Lemma insertStable_last x acc :
  inPriorityOrder (acc ++ [x]) -> insertStable x acc = acc ++ [x].
Proof.
  unfold inPriorityOrder. induction acc as [|y acc IH]; simpl; intros H.
  - reflexivity.
  - apply StronglySorted_inv in H. destruct H as [Hl Hy].
    apply Forall_app in Hy. destruct Hy as [_ Hx].
    apply Forall_inv in Hx.
    unfold lessTodo. destruct (priorityRank x <? priorityRank y) eqn:E.
    + apply Z.ltb_lt in E. lia.
    + now rewrite IH.
Qed.

Lemma fold_insertStable_fixed l acc :
  inPriorityOrder (acc ++ l) ->
  fold_left (fun sorted x => insertStable x sorted) l acc = acc ++ l.
Proof.
  revert acc. induction l as [|x l IH]; intros acc H; simpl.
  - now rewrite app_nil_r.
  - replace (acc ++ x :: l) with ((acc ++ [x]) ++ l) in *
      by now rewrite <- app_assoc.
    rewrite insertStable_last by exact (ordered_prefix _ _ H).
    now apply IH.
Qed.

Lemma SliceStable_fixed items :
  SliceStable items = items <-> inPriorityOrder items.
Proof.
  split.
  - intros H. rewrite <- H. apply SliceStable_ordered.
  - intros H. unfold SliceStable. now rewrite fold_insertStable_fixed.
Qed.

Lemma updateTodos_free b :
  mu b = Unlocked ->
  updateTodos b
  = Returned tt
      (set_todoPanel (todoRows 0 (SliceStable (todoItems b)))
         (set_todoItems (SliceStable (todoItems b)) b)).
Proof.
  intros H. destruct b; simpl in *; subst. reflexivity.
Qed.

(** C3, as the code has it.  Rendering the todo panel sorts the stored todo
    list itself: after [updateTodos] the stored sequence is the stable sort
    of the sequence before (a permutation of it, in the order high, then
    medium and unrecognised, then low, items of one rank in their earlier
    order), and the panel shows one row per stored item in that order.  The
    stored sequence is unchanged exactly when it was in priority order
    already. *)
Theorem updateTodos_sorts_storage b :
  mu b = Unlocked ->
  exists b',
    updateTodos b = Returned tt b' /\
    todoItems b' = SliceStable (todoItems b) /\
    Permutation (todoItems b') (todoItems b) /\
    inPriorityOrder (todoItems b') /\
    (forall r, ofRank r (todoItems b') = ofRank r (todoItems b)) /\
    todoPanel b' = todoRows 0 (todoItems b') /\
    (todoItems b' = todoItems b <-> inPriorityOrder (todoItems b)).
Proof.
  intros Hmu. eexists. split; [apply updateTodos_free; exact Hmu|].
  assert (Hi : todoItems
                 (set_todoPanel (todoRows 0 (SliceStable (todoItems b)))
                    (set_todoItems (SliceStable (todoItems b)) b))
               = SliceStable (todoItems b)) by now destruct b.
  assert (Hp : todoPanel
                 (set_todoPanel (todoRows 0 (SliceStable (todoItems b)))
                    (set_todoItems (SliceStable (todoItems b)) b))
               = todoRows 0 (SliceStable (todoItems b))) by now destruct b.
  rewrite Hi, Hp.
  repeat split.
  - apply SliceStable_perm.
  - apply SliceStable_ordered.
  - intros r. apply SliceStable_stable.
  - apply SliceStable_fixed.
  - apply SliceStable_fixed.
Qed.

Lemma updateTodos_sorts_storage_witness :
  exists b',
    updateTodos startedLowThenHigh = Returned tt b' /\
    todoItems b' = SliceStable lowThenHigh.
Proof.
  destruct (updateTodos_sorts_storage startedLowThenHigh eq_refl)
    as [b' [Hrun [Hitems _]]].
  exists b'. split; [exact Hrun|exact Hitems].
Defined.

(** C3, as the claim has it, fails: the struct that a start with the todo
    list [low, high] produces stores [high, low] once the panel has been
    rendered. *)
Lemma updateTodos_reorders_storage :
  todoItems startedLowThenHigh = lowThenHigh /\
  exists b',
    updateTodos startedLowThenHigh = Returned tt b' /\
    todoItems b'
    = [ mkTodo "pay rent" false "high"; mkTodo "water plants" false "low" ] /\
    todoItems b' <> todoItems startedLowThenHigh.
Proof.
  split; [reflexivity|].
  eexists. split; [reflexivity|]. split; [reflexivity|]. discriminate.
Qed.

(** ** The metric history (C2) *)

Lemma skipn_lastN {A} (l : list A) :
  skipn (Z.to_nat (len l - historyLimit)) l = lastN 60 l.
Proof.
  unfold lastN, len, historyLimit. f_equal. lia.
Qed.

(** On an aligned history the trimming block returns and cuts every
    sequence to its last 60 entries. *)
Lemma trimHistory_aligned b :
  aligned (systemHistory b) ->
  trimHistory b
  = Returned tt (set_systemHistory (trimmed (systemHistory b)) b).
Proof.
  intros (Hm & Ht & Hi & Ho).
  destruct b as [? ? ? ? [c m t i o] ? ? ? ? ? ? ? ? ? ? ? ? ? ? ?].
  simpl in *. unfold trimHistory, bind, get, gets. simpl.
  destruct (historyLimit <? len c) eqn:E.
  - apply Z.ltb_lt in E. unfold historyLimit in E.
    unfold ret, history, modify, orPanic. simpl.
    repeat (rewrite sliceFrom_inside by (unfold historyLimit; lia); simpl).
    unfold trimmed. simpl. rewrite !skipn_lastN. reflexivity.
  - apply Z.ltb_ge in E. unfold historyLimit in E.
    unfold ret, trimmed. simpl.
    rewrite !lastN_short by (simpl; lia). reflexivity.
Qed.

Lemma trimHistory_short b :
  len (CPU (systemHistory b)) <= historyLimit -> trimHistory b = Returned tt b.
Proof.
  intros H. unfold trimHistory, bind, get.
  apply Z.ltb_ge in H. now rewrite H.
Qed.

Lemma aligned_trimmed h : aligned h -> aligned (trimmed h).
Proof.
  intros (Hm & Ht & Hi & Ho). unfold aligned, trimmed. simpl.
  rewrite !len_lastN, Hm, Ht, Hi, Ho. tauto.
Qed.

Lemma withinLimit_trimmed h : withinLimit (trimmed h).
Proof.
  unfold withinLimit, trimmed, historyLimit. simpl.
  rewrite !len_lastN. change (Z.of_nat 60) with 60. lia.
Qed.

Lemma aligned_sampled m io h : aligned h -> aligned (sampled m io h).
Proof.
  intros (Hm & Ht & Hi & Ho). unfold aligned, sampled, len in *. simpl.
  rewrite !length_app. simpl. lia.
Qed.

Lemma recordNetIO_returns m b :
  exists b', recordNetIO m b = Returned tt b' /\
             systemHistory b' = systemHistory b /\
             mu b' = mu b /\ files b' = files b.
Proof.
  unfold recordNetIO.
  destruct (currentNetIO m) as [|io0 rest]; [now exists b|].
  destruct (netError m); [now exists b|].
  eexists. split; [reflexivity|]. now destruct b.
Qed.

Lemma appendSample_online m io rest b :
  currentNetIO m = io :: rest ->
  appendSample m b
  = Returned tt (set_systemHistory (sampled m io (systemHistory b)) b).
Proof.
  intros H. unfold appendSample. rewrite H.
  destruct b as [? ? ? ? [c me t i o] ? ? ? ? ? ? ? ? ? ? ? ? ? ? ?].
  reflexivity.
Qed.

Lemma appendSample_offline m b :
  currentNetIO m = [] ->
  appendSample m b
  = Returned tt
      (set_systemHistory
         (mkHistory (CPU (systemHistory b) ++ [cpuPercent m])
                    (Memory (systemHistory b) ++ [memPercent m])
                    (Timestamps (systemHistory b) ++ [nowStr m])
                    (NetworkIn (systemHistory b))
                    (NetworkOut (systemHistory b))) b).
Proof.
  intros H. unfold appendSample. rewrite H.
  destruct b as [? ? ? ? [c me t i o] ? ? ? ? ? ? ? ? ? ? ? ? ? ? ?].
  reflexivity.
Qed.

Lemma saveSystemHistory_aligned w b :
  writeError w = None ->
  aligned (systemHistory b) ->
  exists b', saveSystemHistory w b = Returned tt b' /\
             systemHistory b' = trimmed (systemHistory b) /\
             mu b' = mu b.
Proof.
  intros Hw Hal. unfold saveSystemHistory, bind.
  rewrite trimHistory_aligned by exact Hal. simpl. rewrite Hw.
  eexists. split; [reflexivity|]. now destruct b.
Qed.

Lemma saveSystemHistory_short w b :
  writeError w = None ->
  len (CPU (systemHistory b)) <= historyLimit ->
  exists b', saveSystemHistory w b = Returned tt b' /\
             systemHistory b' = systemHistory b /\
             mu b' = mu b.
Proof.
  intros Hw Hal. unfold saveSystemHistory, bind.
  rewrite trimHistory_short by exact Hal. simpl. rewrite Hw.
  eexists. split; [reflexivity|]. now destruct b.
Qed.

(** The shape of a run of [updateSystemInfo] whose three parts return. *)
Lemma updateSystemInfo_returns w m b b1 b2 b3 :
  mu b = Unlocked ->
  recordNetIO m (set_mu WriteLocked b) = Returned tt b1 ->
  appendSample m b1 = Returned tt b2 ->
  saveSystemHistory w b2 = Returned tt b3 ->
  mu b3 = WriteLocked ->
  updateSystemInfo w m b = Returned tt (set_mu Unlocked b3).
Proof.
  intros Hmu H1 H2 H3 Hmu3.
  unfold updateSystemInfo, withLock, lock. rewrite Hmu.
  unfold bind. rewrite H1, H2, H3. unfold unlock. now rewrite Hmu3.
Qed.

(** X6.  A sample taken while the network counters are available and the
    history file can be written: [updateSystemInfo] returns, and a history
    whose five sequences had equal lengths becomes that history with the
    sample appended to each sequence and each cut to its last 60 entries,
    so the sequences are again of equal length, at most 60, the oldest
    entries leaving first. *)
Lemma updateSystemInfo_online w m io rest b :
  mu b = Unlocked ->
  writeError w = None ->
  currentNetIO m = io :: rest ->
  aligned (systemHistory b) ->
  exists b',
    updateSystemInfo w m b = Returned tt b' /\
    systemHistory b' = trimmed (sampled m io (systemHistory b)) /\
    aligned (systemHistory b') /\
    withinLimit (systemHistory b').
Proof.
  intros Hmu Hw Hnet Hal.
  destruct (recordNetIO_returns m (set_mu WriteLocked b))
    as (b1 & H1 & Hh1 & Hmu1 & _).
  pose proof (appendSample_online m io rest b1 Hnet) as H2.
  set (b2 := set_systemHistory (sampled m io (systemHistory b1)) b1) in *.
  assert (Hh2 : systemHistory b2 = sampled m io (systemHistory b))
    by (unfold b2; rewrite Hh1; destruct b1, b; reflexivity).
  assert (Hmu2 : mu b2 = WriteLocked)
    by (unfold b2; rewrite <- (mu_set_mu WriteLocked b), <- Hmu1;
        now destruct b1).
  destruct (saveSystemHistory_aligned w b2 Hw) as (b3 & H3 & Hh3 & Hmu3).
  { rewrite Hh2. now apply aligned_sampled. }
  exists (set_mu Unlocked b3).
  split.
  { apply (updateSystemInfo_returns w m b b1 b2 b3); try assumption.
    now rewrite Hmu3. }
  assert (Hh : systemHistory (set_mu Unlocked b3)
               = trimmed (sampled m io (systemHistory b)))
    by (rewrite <- Hh2, <- Hh3; now destruct b3).
  rewrite Hh.
  split; [reflexivity|].
  split; [now apply aligned_trimmed, aligned_sampled
         |apply withinLimit_trimmed].
Qed.

Lemma updateSystemInfo_online_witness :
  exists b',
    updateSystemInfo noon online started = Returned tt b' /\
    systemHistory b'
    = trimmed (sampled online (mkIO 1500 2500) (systemHistory started)) /\
    aligned (systemHistory b') /\
    withinLimit (systemHistory b').
Proof.
  apply (updateSystemInfo_online noon online (mkIO 1500 2500) [] started);
    try reflexivity.
  repeat split.
Defined.

(** C2, where the code departs from it.  A sample taken while
    [net.IOCounters] delivers no counters appends to [CPU], [Memory] and
    [Timestamps] and to neither network sequence: from an aligned history
    below the limit, [updateSystemInfo] returns a history whose first three
    sequences are one longer than the two network sequences. *)
Theorem history_misaligned_without_network w m b :
  mu b = Unlocked ->
  writeError w = None ->
  currentNetIO m = [] ->
  aligned (systemHistory b) ->
  len (CPU (systemHistory b)) < historyLimit ->
  exists b',
    updateSystemInfo w m b = Returned tt b' /\
    len (CPU (systemHistory b')) = len (CPU (systemHistory b)) + 1 /\
    len (Memory (systemHistory b')) = len (CPU (systemHistory b)) + 1 /\
    len (Timestamps (systemHistory b')) = len (CPU (systemHistory b)) + 1 /\
    len (NetworkIn (systemHistory b')) = len (CPU (systemHistory b)) /\
    len (NetworkOut (systemHistory b')) = len (CPU (systemHistory b)) /\
    ~ aligned (systemHistory b').
Proof.
  intros Hmu Hw Hnet (Hm & Ht & Hi & Ho) Hlt.
  destruct (recordNetIO_returns m (set_mu WriteLocked b))
    as (b1 & H1 & Hh1 & Hmu1 & _).
  pose proof (appendSample_offline m b1 Hnet) as H2.
  rewrite Hh1 in H2.
  replace (systemHistory (set_mu WriteLocked b)) with (systemHistory b) in *
    by now destruct b.
  set (h2 := mkHistory _ _ _ _ _) in H2.
  set (b2 := set_systemHistory h2 b1) in *.
  assert (Hh2 : systemHistory b2 = h2) by (unfold b2; now destruct b1).
  assert (Hmu2 : mu b2 = WriteLocked)
    by (unfold b2; rewrite <- (mu_set_mu WriteLocked b), <- Hmu1;
        now destruct b1).
  assert (Hc2 : len (CPU h2) = len (CPU (systemHistory b)) + 1)
    by (unfold h2; simpl; rewrite len_app; reflexivity).
  destruct (saveSystemHistory_short w b2 Hw) as (b3 & H3 & Hh3 & Hmu3).
  { rewrite Hh2, Hc2. lia. }
  exists (set_mu Unlocked b3).
  split.
  { apply (updateSystemInfo_returns w m b b1 b2 b3); try assumption.
    now rewrite Hmu3. }
  replace (systemHistory (set_mu Unlocked b3)) with h2
    by (rewrite <- Hh2, <- Hh3; now destruct b3).
  unfold h2, aligned. simpl. rewrite !len_app.
  change (len [cpuPercent m]) with 1. change (len [memPercent m]) with 1.
  change (len [nowStr m]) with 1.
  repeat split; try lia.
  all: intros (_ & _ & Hbad & _); lia.
Qed.

Lemma history_misaligned_without_network_witness :
  exists b',
    updateSystemInfo noon offline started = Returned tt b' /\
    len (CPU (systemHistory b')) = 1 /\
    len (NetworkIn (systemHistory b')) = 0 /\
    ~ aligned (systemHistory b').
Proof.
  assert (Hal : aligned (systemHistory started))
    by (repeat split; reflexivity).
  destruct (history_misaligned_without_network noon offline started
              eq_refl eq_refl eq_refl Hal eq_refl)
    as (b' & Hrun & Hc & _ & _ & Hi & _ & Hbad).
  exists b'. repeat split; assumption.
Defined.

(** The misaligned history is one an execution can show: it is reached
    from a first start by one tick without network counters. *)
Lemma history_invariant_fails :
  exists b, reachable b /\ ~ aligned (systemHistory b).
Proof.
  exists (perform noon (CallUpdateSystemInfo offline) started). split.
  - apply reach_call. apply (reach_new noon firstStart).
  - intros (_ & _ & Hbad & _). vm_compute in Hbad. discriminate Hbad.
Qed.

(** Sixty-one samples with counters leave sixty entries in each
    sequence. *)
Lemma history_online_example :
  exists b,
    ticks noon online 61 started = Returned tt b /\
    aligned (systemHistory b) /\
    len (CPU (systemHistory b)) = 60.
Proof.
  eexists. split; [vm_compute; reflexivity|].
  split; [repeat split|]; reflexivity.
Qed.

(** Once the sequences differ in length, the trimming block slices a
    network sequence at a negative index: the sixty-first sample without
    counters panics, the sixty before it return. *)
Lemma history_trim_panics :
  hasReturned (ticks noon offline 60 started) = true /\
  hasPanicked (ticks noon offline 61 started) = true.
Proof. split; vm_compute; reflexivity. Qed.

(** ** The command dispatcher (C1, C5, C6, C7) *)

(** The dispatcher sees the lower-cased line only: the case of every
    character, in the verb and in the arguments, is lost before the line
    is split. *)
Lemma processCommand_ToLower w command :
  processCommand w (ToLower command) = processCommand w command.
Proof. unfold processCommand. now rewrite ToLower_idempotent. Qed.

(** The struct on which the [switch] of [processCommand] runs. *)
Lemma processCommand_switch w command cmd args b :
  mu b = Unlocked ->
  Fields (TrimSpace (ToLower command)) = cmd :: args ->
  forall p b',
    switchCommand w (TrimSpace (ToLower command)) cmd args
      (set_commandHistory
         (lastN 20 (commandHistory b ++ [TrimSpace (ToLower command)]))
         (set_mu WriteLocked b))
    = Blocked p b' ->
    processCommand w command b = Blocked p b'.
Proof.
  intros Hmu Hf p b' Hsw.
  unfold processCommand, withLock, lock. rewrite Hmu.
  cbv zeta.
  destruct (String.eqb_spec (TrimSpace (ToLower command)) "") as [E|E].
  - rewrite E in Hf. discriminate Hf.
  - unfold bind at 1. unfold get at 1.
    replace (commandHistory (set_mu WriteLocked b)) with (commandHistory b)
      by now destruct b.
    rewrite appendCapped_lastN by lia.
    change (Z.to_nat 20) with 20%nat.
    unfold orPanic, ret, bind at 1. unfold bind at 1. unfold modify at 1.
    rewrite Hf. unfold bind at 1. rewrite Hsw. reflexivity.
Qed.

Lemma switchCommand_todo w command args :
  switchCommand w command "todo" args
  = (t <- todoCommand w args ;; ret (t, false, false)).
Proof. reflexivity. Qed.

(** Every call of [addNotification] from inside the dispatcher finds the
    mutex held by the dispatcher itself. *)
Lemma bind_blocked {A B} (m : M A) (k : A -> M B) p b b' :
  m b = Blocked p b' -> bind m k b = Blocked p b'.
Proof. intros H. unfold bind. now rewrite H. Qed.

Lemma bind_get {B} (k : Baseline -> M B) b : bind get k b = k b b.
Proof. reflexivity. Qed.

Lemma bind_modify {B} f (k : unit -> M B) b : bind (modify f) k b = k tt (f b).
Proof. reflexivity. Qed.

Lemma bind_orPanic {A B} (a : A) (k : A -> M B) b :
  bind (orPanic (Some a)) k b = k a b.
Proof. reflexivity. Qed.

Lemma saveTodos_then_notify {B} w message msgType (k : unit -> M B) b :
  mu b = WriteLocked ->
  exists p b',
    (saveTodos w ;; addNotification w message msgType ;; k tt) b
    = Blocked p b' /\
    (writeError w = None -> p = InAddNotification message msgType) /\
    todoItems b' = todoItems b /\
    notifications b' = notifications b /\
    theme b' = theme b /\
    mu b' = WriteLocked.
Proof.
  intros Hmu. unfold saveTodos, bind at 1 2. unfold get.
  destruct (writeError w) as [err|] eqn:E.
  - rewrite addNotification_held by congruence.
    eexists. eexists. split; [reflexivity|].
    repeat split; try assumption. discriminate.
  - unfold modify. unfold bind.
    rewrite addNotification_held by (destruct b; simpl in *; congruence).
    eexists. eexists. split; [reflexivity|].
    destruct b; simpl in *. repeat split; assumption.
Qed.

Lemma saveTodos_then_notify_focus {B} w message msgType (k : unit -> M B)
    b p b' :
  mu b = WriteLocked ->
  (saveTodos w ;; addNotification w message msgType ;; k tt) b = Blocked p b' ->
  appFocus b' = appFocus b.
Proof.
  intros Hmu. unfold saveTodos, bind at 1 2. unfold get.
  destruct (writeError w) as [err|].
  - rewrite addNotification_held by congruence.
    intros [= _ <-]. reflexivity.
  - unfold modify. unfold bind.
    rewrite addNotification_held by (destruct b; simpl in *; congruence).
    intros [= _ <-]. now destruct b.
Qed.

Lemma todoAdd_blocks w arg args b :
  mu b = WriteLocked ->
  exists p b',
    todoAdd w (arg :: args) b = Blocked p b' /\
    (writeError w = None ->
     p = InAddNotification
           (String.append "Added todo: " (Join (arg :: args) " ")) "success") /\
    todoItems b'
    = todoItems b ++ [mkTodo (Join (arg :: args) " ") false "medium"] /\
    notifications b' = notifications b /\
    mu b' = WriteLocked.
Proof.
  intros Hmu.
  destruct (saveTodos_then_notify w
              (String.append "Added todo: " (Join (arg :: args) " ")) "success"
              (fun _ => ret true)
              (set_todoItems
                 (todoItems b ++ [mkTodo (Join (arg :: args) " ") false "medium"])
                 b))
    as (p & b' & Hrun & Hp & Hi & Hn & _ & Hm).
  { now destruct b. }
  exists p, b'. split; [|split; [exact Hp|split; [|split; [|exact Hm]]]].
  - unfold todoAdd. cbv zeta. rewrite bind_modify. exact Hrun.
  - rewrite Hi. now destruct b.
  - rewrite Hn. now destruct b.
Qed.

(** What [todo add] does to the struct: the item is appended, with the
    text as the lower-cased line has it, and the dispatcher then waits in
    [addNotification] for the mutex it holds itself. *)
Lemma todo_add_blocks w command arg args b :
  mu b = Unlocked ->
  Fields (TrimSpace (ToLower command)) = "todo" :: "add" :: arg :: args ->
  exists p b',
    processCommand w command b = Blocked p b' /\
    (writeError w = None ->
     p = InAddNotification
           (String.append "Added todo: " (Join (arg :: args) " ")) "success") /\
    todoItems b'
    = todoItems b ++ [mkTodo (Join (arg :: args) " ") false "medium"] /\
    notifications b' = notifications b /\
    mu b' = WriteLocked.
Proof.
  intros Hmu Hf.
  set (c := TrimSpace (ToLower command)) in *.
  set (b0 := set_commandHistory (lastN 20 (commandHistory b ++ [c]))
                                (set_mu WriteLocked b)).
  destruct (todoAdd_blocks w arg args b0) as (p & b' & Hrun & Hp & Hi & Hn & Hm).
  { unfold b0. now destruct b. }
  exists p, b'. split; [|split; [exact Hp|split; [|split; [|exact Hm]]]].
  - apply (processCommand_switch w command "todo" ("add" :: arg :: args) b
             Hmu Hf).
    rewrite switchCommand_todo. now apply bind_blocked.
  - rewrite Hi. unfold b0. now destruct b.
  - rewrite Hn. unfold b0. now destruct b.
Qed.

(** C1, as the code has it.  The dispatcher lower-cases the whole line
    before it splits it: a line and its lower-cased copy are dispatched
    alike, so the verb is matched without regard to case and the arguments
    are stored in lower case.  For a line whose fields are [todo], [add] and
    at least one more, the todo list afterwards is the list before followed
    by one item, not done, of priority medium, whose text is the remaining
    lower-cased fields joined by single spaces; for [todo add Buy milk] on
    an empty list that is the single item "buy milk". *)
Theorem dispatcher_lowercases_whole_line w :
  (forall command,
     processCommand w (ToLower command) = processCommand w command) /\
  (forall command arg args b,
     mu b = Unlocked ->
     Fields (TrimSpace (ToLower command)) = "todo" :: "add" :: arg :: args ->
     todoItems (finalState (processCommand w command b))
     = todoItems b ++ [mkTodo (Join (arg :: args) " ") false "medium"]) /\
  (forall b,
     mu b = Unlocked ->
     todoItems b = [] ->
     todoItems (finalState (processCommand w "todo add Buy milk" b))
     = [mkTodo "buy milk" false "medium"]).
Proof.
  split; [exact (processCommand_ToLower w)|split].
  - intros command arg args b Hmu Hf.
    destruct (todo_add_blocks w command arg args b Hmu Hf)
      as (p & b' & Hrun & _ & Hi & _).
    rewrite Hrun. exact Hi.
  - intros b Hmu Hnil.
    destruct (todo_add_blocks w "todo add Buy milk" "buy" ["milk"] b Hmu
                eq_refl) as (p & b' & Hrun & _ & Hi & _).
    rewrite Hrun. simpl finalState. rewrite Hi, Hnil. reflexivity.
Qed.

Lemma dispatcher_lowercases_whole_line_witness :
  processCommand noon (ToLower "TODO Add Buy milk")
  = processCommand noon "TODO Add Buy milk" /\
  todoItems (finalState (processCommand noon "TODO  Add Buy MILK" started))
  = todoItems started ++ [mkTodo "buy milk" false "medium"] /\
  todoItems (finalState (processCommand noon "todo add Buy milk" startedEmpty))
  = [mkTodo "buy milk" false "medium"].
Proof.
  destruct (dispatcher_lowercases_whole_line noon) as (Hlow & Hadd & Hmilk).
  split; [apply Hlow|split].
  - apply (Hadd "TODO  Add Buy MILK" "buy" ["milk"] started eq_refl eq_refl).
  - apply (Hmilk startedEmpty eq_refl eq_refl).
Defined.

(** C1, as the claim has it, fails: [todo add Buy milk] on the empty todo
    list of a freshly started program stores the text "buy milk", not
    "Buy milk", and the dispatcher stops in [addNotification] before
    anything is pushed, so the queue still ends with the info entry of the
    start. *)
Lemma todo_add_loses_case :
  todoItems startedEmpty = [] /\
  exists p b',
    processCommand noon "todo add Buy milk" startedEmpty = Blocked p b' /\
    todoItems b' <> [mkTodo "Buy milk" false "medium"] /\
    todoItems b' = [mkTodo "buy milk" false "medium"] /\
    notifications b' = notifications startedEmpty /\
    option_map Type_ (elemAt (notifications b')
                             (len (notifications b') - 1)) = Some "info".
Proof.
  split; [reflexivity|].
  destruct (todo_add_blocks noon "todo add Buy milk" "buy" ["milk"]
              startedEmpty eq_refl eq_refl) as (p & b' & Hrun & _ & Hi & Hn & _).
  exists p, b'. split; [exact Hrun|].
  rewrite Hi, Hn. repeat split. discriminate.
Qed.

Lemma insertEverywhere_perm {A} (x : A) l p :
  In p (insertEverywhere x l) -> Permutation p (x :: l).
Proof.
  revert p. induction l as [|y r IH]; simpl; intros p H.
  - destruct H as [<-|[]]. reflexivity.
  - destruct H as [<-|H]; [reflexivity|].
    apply in_map_iff in H. destruct H as (q & <- & Hq).
    rewrite (IH q Hq). apply perm_swap.
Qed.

Lemma arrangements_perm {A} (l p : list A) :
  In p (arrangements l) -> Permutation p l.
Proof.
  revert p. induction l as [|x r IH]; simpl; intros p H.
  - destruct H as [<-|[]]. reflexivity.
  - apply in_flat_map in H. destruct H as (q & Hq & Hp).
    rewrite (insertEverywhere_perm x q p Hp). constructor. now apply IH.
Qed.

(** Whatever order the range over the map takes, it delivers every key
    once. *)
Lemma rangeKeys_perm {V} seed (m : list (string * V)) :
  Permutation (rangeKeys seed m) (map fst m).
Proof.
  unfold rangeKeys.
  destruct (nth_in_or_default seed (arrangements (map fst m)) (map fst m))
    as [H|H].
  - now apply arrangements_perm.
  - now rewrite H.
Qed.

(** C5, where the code departs from it.  [theme bogus], dispatched with the
    mutex free, leaves the theme as it was and composes an error message
    that lists the three known theme names, each once, in the order the
    range over the map delivers them; the call of [addNotification] that
    carries it then blocks on the mutex the dispatcher holds, so the
    notification is never pushed. *)
Theorem theme_bogus_blocks w b :
  mu b = Unlocked ->
  let available := rangeKeys (rangeSeed w) themes in
  exists b',
    processCommand w "theme bogus" b
    = Blocked
        (InAddNotification
           (String.append "Unknown theme: bogus. Available: "
                          (Join available ", ")) "error") b' /\
    Permutation available ["amber"; "green"; "blue"] /\
    theme b' = theme b /\
    notifications b' = notifications b /\
    mu b' = WriteLocked.
Proof.
  intros Hmu available.
  eexists. split; [|split; [apply (rangeKeys_perm (rangeSeed w) themes)|]].
  - apply (processCommand_switch w "theme bogus" "theme" ["bogus"] b Hmu
             eq_refl).
    change (switchCommand w (TrimSpace (ToLower "theme bogus")) "theme"
              ["bogus"])
      with (t <- (addNotification w
                    (String.append "Unknown theme: bogus. Available: "
                       (Join available ", "))
                    "error" ;; ret false) ;;
            ret (false, false, t)).
    apply bind_blocked, bind_blocked, addNotification_held.
    destruct b; simpl; discriminate.
  - destruct b; simpl in *. repeat split.
Qed.

Lemma theme_bogus_blocks_witness :
  exists b',
    processCommand noon "theme bogus" started
    = Blocked
        (InAddNotification
           "Unknown theme: bogus. Available: amber, green, blue" "error") b' /\
    theme b' = theme started /\
    notifications b' = notifications started.
Proof.
  destruct (theme_bogus_blocks noon started eq_refl)
    as (b' & Hrun & _ & Ht & Hn & _).
  exists b'. split; [exact Hrun|split; assumption].
Defined.

Lemma elemAt_inside {A} (s : list A) i :
  0 <= i < len s ->
  exists x, elemAt s i = Some x /\ nth_error s (Z.to_nat i) = Some x.
Proof.
  intros [H0 H1]. unfold elemAt.
  apply Z.leb_le in H0 as E0. apply Z.ltb_lt in H1 as E1. rewrite E0, E1.
  simpl. destruct (nth_error s (Z.to_nat i)) eqn:E; [eauto|].
  apply nth_error_None in E. unfold len in H1. lia.
Qed.

Lemma store_inside {A} (s : list A) i v :
  0 <= i < len s -> store s i v = Some (setNth (Z.to_nat i) v s).
Proof.
  intros [H0 H1]. unfold store.
  apply Z.leb_le in H0. apply Z.ltb_lt in H1. now rewrite H0, H1.
Qed.

Lemma length_setNth {A} n (v : A) s : List.length (setNth n v s) = List.length s.
Proof.
  revert n. induction s as [|x s IH]; intros [|n]; simpl; auto.
Qed.

Lemma nth_error_setNth_same {A} n (v : A) s :
  (n < List.length s)%nat -> nth_error (setNth n v s) n = Some v.
Proof.
  revert n. induction s as [|x s IH]; intros [|n] H; simpl in *; try lia; auto.
  apply IH. lia.
Qed.

Lemma setNth_twice {A} n (v v' : A) s :
  setNth n v (setNth n v' s) = setNth n v s.
Proof.
  revert n. induction s as [|x s IH]; intros [|n]; simpl; auto.
  now rewrite IH.
Qed.

Lemma setNth_unchanged {A} n (x : A) s :
  nth_error s n = Some x -> setNth n x s = s.
Proof.
  revert n. induction s as [|y s IH]; intros [|n] H; simpl in *; try congruence.
  now rewrite IH.
Qed.

(** On the slice alone, toggling one index twice restores the slice. *)
Lemma toggleAt_involutive k items : toggleAt k (toggleAt k items) = items.
Proof.
  unfold toggleAt at 2.
  destruct (nth_error items (Z.to_nat (k - 1))) as [item|] eqn:E.
  - unfold toggleAt.
    rewrite nth_error_setNth_same
      by (apply nth_error_Some; congruence).
    rewrite setNth_twice. apply setNth_unchanged.
    rewrite E. f_equal. destruct item as [t d p]. simpl.
    now rewrite negb_involutive.
  - unfold toggleAt. now rewrite E.
Qed.

(** On the slice alone, deleting a valid index removes one element, keeps
    the elements before it in place and moves those behind it down by
    one. *)
Lemma deleteAt_shifts k items :
  1 <= k <= len items ->
  len (deleteAt k items) = len items - 1 /\
  (forall j, 0 <= j < k - 1 ->
     nth_error (deleteAt k items) (Z.to_nat j) = nth_error items (Z.to_nat j)) /\
  (forall j, k - 1 <= j ->
     nth_error (deleteAt k items) (Z.to_nat j)
     = nth_error items (Z.to_nat (j + 1))).
Proof.
  intros Hk. unfold deleteAt, len in *.
  assert (Hf : List.length (firstn (Z.to_nat (k - 1)) items) = Z.to_nat (k - 1))
    by (rewrite length_firstn; lia).
  split; [|split].
  - rewrite length_app, Hf, length_skipn. lia.
  - intros j Hj. rewrite nth_error_app1 by lia.
    rewrite nth_error_firstn.
    replace (Z.to_nat j <? Z.to_nat (k - 1))%nat with true
      by (symmetry; apply Nat.ltb_lt; lia).
    reflexivity.
  - intros j Hj. rewrite nth_error_app2 by lia.
    rewrite Hf, nth_error_skipn. f_equal. lia.
Qed.

Lemma invalidIndex_blocks w arg b :
  mu b = WriteLocked ->
  invalidIndex w arg b
  = Blocked (InAddNotification (String.append "Invalid todo index: " arg)
                               "error") b.
Proof.
  intros H. unfold invalidIndex. apply bind_blocked, addNotification_held.
  congruence.
Qed.

Lemma todoToggle_valid w arg k b :
  mu b = WriteLocked ->
  Atoi arg = Some k ->
  1 <= k <= len (todoItems b) ->
  exists p b',
    todoToggle w [arg] b = Blocked p b' /\
    (writeError w = None ->
     p = InAddNotification (String.append "Toggled todo #" (showInt k))
                           "success") /\
    todoItems b' = toggleAt k (todoItems b) /\
    notifications b' = notifications b /\
    mu b' = WriteLocked.
Proof.
  intros Hmu Ha Hk.
  destruct (elemAt_inside (todoItems b) (k - 1)) as (item & He & Hn); [lia|].
  set (items := setNth (Z.to_nat (k - 1)) (withDone (negb (Done item)) item)
                       (todoItems b)).
  destruct (saveTodos_then_notify w
              (String.append "Toggled todo #" (showInt k)) "success"
              (fun _ => ret true) (set_todoItems items b))
    as (p & b' & Hrun & Hp & Hi & Hq & _ & Hm).
  { now destruct b. }
  exists p, b'. split; [|split; [exact Hp|split; [|split; [|exact Hm]]]].
  - unfold todoToggle. rewrite bind_get, Ha.
    replace ((1 <=? k) && (k <=? len (todoItems b))) with true
      by (symmetry; apply andb_true_iff; split; apply Z.leb_le; lia).
    rewrite He, bind_orPanic, store_inside, bind_orPanic, bind_modify by lia.
    exact Hrun.
  - rewrite Hi. unfold toggleAt. rewrite Hn. now destruct b.
  - rewrite Hq. now destruct b.
Qed.

Lemma todoDelete_valid w arg k b :
  mu b = WriteLocked ->
  Atoi arg = Some k ->
  1 <= k <= len (todoItems b) ->
  exists p b',
    todoDelete w [arg] b = Blocked p b' /\
    todoItems b' = deleteAt k (todoItems b) /\
    notifications b' = notifications b /\
    mu b' = WriteLocked.
Proof.
  intros Hmu Ha Hk.
  destruct (elemAt_inside (todoItems b) (k - 1)) as (item & He & Hn); [lia|].
  destruct (saveTodos_then_notify w
              (String.append "Deleted todo: " (Text item)) "success"
              (fun _ => ret true)
              (set_todoItems (deleteAt k (todoItems b)) b))
    as (p & b' & Hrun & Hp & Hi & Hq & _ & Hm).
  { now destruct b. }
  exists p, b'. split; [|split; [|split; [|exact Hm]]].
  - unfold todoDelete. rewrite bind_get, Ha.
    replace ((1 <=? k) && (k <=? len (todoItems b))) with true
      by (symmetry; apply andb_true_iff; split; apply Z.leb_le; lia).
    rewrite He, bind_orPanic, sliceTo_inside, bind_orPanic,
      sliceFrom_inside, bind_orPanic, bind_modify by lia.
    exact Hrun.
  - rewrite Hi. now destruct b.
  - rewrite Hq. now destruct b.
Qed.

Lemma todoToggle_invalid w arg b :
  mu b = WriteLocked ->
  (forall k, Atoi arg = Some k -> k < 1 \/ len (todoItems b) < k) ->
  todoToggle w [arg] b
  = Blocked (InAddNotification (String.append "Invalid todo index: " arg)
                               "error") b.
Proof.
  intros Hmu Hbad. unfold todoToggle. rewrite bind_get.
  destruct (Atoi arg) as [k|]; [|now apply invalidIndex_blocks].
  replace ((1 <=? k) && (k <=? len (todoItems b))) with false.
  - now apply invalidIndex_blocks.
  - symmetry. apply andb_false_iff.
    destruct (Hbad k eq_refl); [left; apply Z.leb_gt|right; apply Z.leb_gt]; lia.
Qed.

Lemma todoDelete_invalid w arg b :
  mu b = WriteLocked ->
  (forall k, Atoi arg = Some k -> k < 1 \/ len (todoItems b) < k) ->
  todoDelete w [arg] b
  = Blocked (InAddNotification (String.append "Invalid todo index: " arg)
                               "error") b.
Proof.
  intros Hmu Hbad. unfold todoDelete. rewrite bind_get.
  destruct (Atoi arg) as [k|]; [|now apply invalidIndex_blocks].
  replace ((1 <=? k) && (k <=? len (todoItems b))) with false.
  - now apply invalidIndex_blocks.
  - symmetry. apply andb_false_iff.
    destruct (Hbad k eq_refl); [left; apply Z.leb_gt|right; apply Z.leb_gt]; lia.
Qed.

(** An argument is a valid index of the slice, or it is not. *)
Lemma index_valid_or_not arg (items : list TodoItem) :
  (exists k, Atoi arg = Some k /\ 1 <= k <= len items) \/
  (forall k, Atoi arg = Some k -> k < 1 \/ len items < k).
Proof.
  destruct (Atoi arg) as [k|]; [|right; discriminate].
  destruct (Z_lt_le_dec k 1); [right; intros ? [= <-]; lia|].
  destruct (Z_lt_le_dec (len items) k); [right; intros ? [= <-]; lia|].
  left. exists k. split; [reflexivity|lia].
Qed.

Lemma switch_state_todoItems b h :
  todoItems (set_commandHistory h (set_mu WriteLocked b)) = todoItems b.
Proof. now destruct b. Qed.

Lemma switch_state_notifications b h :
  notifications (set_commandHistory h (set_mu WriteLocked b)) = notifications b.
Proof. now destruct b. Qed.

Lemma switch_state_mu b h :
  mu (set_commandHistory h (set_mu WriteLocked b)) = WriteLocked.
Proof. now destruct b. Qed.

(** C6, where the code departs from it.  [todo delete <arg>], dispatched
    with the mutex free, never returns and never pushes a notification.
    With a valid 1-based index the element is removed from the slice (one
    element fewer, the later ones one place down) before the dispatcher
    blocks in [addNotification]; with an index of 0, of [len+1] or any other
    invalid argument the slice is untouched and the dispatcher blocks in the
    call that would have pushed "Invalid todo index: <arg>". *)
Theorem todo_delete_blocks w command arg b :
  mu b = Unlocked ->
  Fields (TrimSpace (ToLower command)) = ["todo"; "delete"; arg] ->
  exists p b',
    processCommand w command b = Blocked p b' /\
    notifications b' = notifications b /\
    mu b' = WriteLocked /\
    (forall k, Atoi arg = Some k -> 1 <= k <= len (todoItems b) ->
       todoItems b' = deleteAt k (todoItems b) /\
       len (todoItems b') = len (todoItems b) - 1) /\
    ((forall k, Atoi arg = Some k -> k < 1 \/ len (todoItems b) < k) ->
       todoItems b' = todoItems b /\
       p = InAddNotification (String.append "Invalid todo index: " arg)
                             "error").
Proof.
  intros Hmu Hf.
  set (c := TrimSpace (ToLower command)) in *.
  set (b0 := set_commandHistory (lastN 20 (commandHistory b ++ [c]))
                                (set_mu WriteLocked b)).
  assert (Hmu0 : mu b0 = WriteLocked) by apply switch_state_mu.
  assert (Hi0 : todoItems b0 = todoItems b) by apply switch_state_todoItems.
  assert (Hn0 : notifications b0 = notifications b)
    by apply switch_state_notifications.
  destruct (index_valid_or_not arg (todoItems b)) as [(k & Ha & Hk)|Hbad].
  - destruct (todoDelete_valid w arg k b0 Hmu0 Ha)
      as (p & b' & Hrun & Hi & Hn & Hm); [rewrite Hi0; exact Hk|].
    exists p, b'. split; [|split; [congruence|split; [exact Hm|split]]].
    + apply (processCommand_switch w command "todo" ["delete"; arg] b Hmu Hf).
      rewrite switchCommand_todo. now apply bind_blocked.
    + intros k' Ha' Hk'. assert (k' = k) by congruence. subst k'.
      rewrite Hi, Hi0. split; [reflexivity|].
      apply (deleteAt_shifts k (todoItems b) Hk).
    + intros Hbad. destruct (Hbad k Ha); lia.
  - exists (InAddNotification (String.append "Invalid todo index: " arg)
                              "error"), b0.
    split; [|split; [exact Hn0|split; [exact Hmu0|split]]].
    + apply (processCommand_switch w command "todo" ["delete"; arg] b Hmu Hf).
      rewrite switchCommand_todo. apply bind_blocked.
      apply todoDelete_invalid; [exact Hmu0|now rewrite Hi0].
    + intros k Ha Hk. destruct (Hbad k Ha); lia.
    + intros _. split; [exact Hi0|reflexivity].
Qed.

Lemma todo_delete_blocks_witness :
  (exists p b',
     processCommand noon "todo delete 2" started = Blocked p b' /\
     notifications b' = notifications started /\
     len (todoItems b') = 3) /\
  (exists b',
     processCommand noon "todo delete 0" started
     = Blocked (InAddNotification "Invalid todo index: 0" "error") b' /\
     todoItems b' = todoItems started) /\
  (exists b',
     processCommand noon "Todo  DELETE 5" started
     = Blocked (InAddNotification "Invalid todo index: 5" "error") b' /\
     todoItems b' = todoItems started).
Proof.
  split; [|split].
  - destruct (todo_delete_blocks noon "todo delete 2" "2" started
                eq_refl eq_refl) as (p & b' & Hrun & Hn & _ & Hok & _).
    exists p, b'. split; [exact Hrun|split; [exact Hn|]].
    destruct (Hok 2 eq_refl) as [_ Hlen]; [vm_compute; split; discriminate|].
    exact Hlen.
  - destruct (todo_delete_blocks noon "todo delete 0" "0" started
                eq_refl eq_refl) as (p & b' & Hrun & _ & _ & _ & Hbad).
    destruct Hbad as [Hi Hp]; [intros k [= <-]; left; reflexivity|].
    exists b'. subst p. split; [exact Hrun|exact Hi].
  - destruct (todo_delete_blocks noon "Todo  DELETE 5" "5" started
                eq_refl eq_refl) as (p & b' & Hrun & _ & _ & _ & Hbad).
    destruct Hbad as [Hi Hp]; [intros k [= <-]; right; reflexivity|].
    exists b'. subst p. split; [exact Hrun|exact Hi].
Defined.

(** C7, where the code departs from it.  The first [todo toggle <k>] with a
    valid index flips the [Done] flag of item [k] and then blocks in
    [addNotification] with the mutex held; the second dispatch of the same
    line blocks at once on that mutex and changes nothing.  After the two
    dispatches the flag of item [k] is the negation of what it was. *)
Theorem todo_toggle_twice_blocks w command arg k b :
  mu b = Unlocked ->
  Fields (TrimSpace (ToLower command)) = ["todo"; "toggle"; arg] ->
  Atoi arg = Some k ->
  1 <= k <= len (todoItems b) ->
  exists p b1,
    processCommand w command b = Blocked p b1 /\
    processCommand w command b1 = Blocked (InLock "processCommand") b1 /\
    todoItems b1 = toggleAt k (todoItems b) /\
    notifications b1 = notifications b /\
    option_map Done (elemAt (todoItems b1) (k - 1))
    = option_map (fun t => negb (Done t)) (elemAt (todoItems b) (k - 1)).
Proof.
  intros Hmu Hf Ha Hk.
  set (c := TrimSpace (ToLower command)) in *.
  set (b0 := set_commandHistory (lastN 20 (commandHistory b ++ [c]))
                                (set_mu WriteLocked b)).
  assert (Hmu0 : mu b0 = WriteLocked) by apply switch_state_mu.
  assert (Hi0 : todoItems b0 = todoItems b) by apply switch_state_todoItems.
  assert (Hn0 : notifications b0 = notifications b)
    by apply switch_state_notifications.
  destruct (todoToggle_valid w arg k b0 Hmu0 Ha)
    as (p & b1 & Hrun & _ & Hi & Hn & Hm); [rewrite Hi0; exact Hk|].
  exists p, b1.
  split; [|split; [|split; [congruence|split; [congruence|]]]].
  - apply (processCommand_switch w command "todo" ["toggle"; arg] b Hmu Hf).
    rewrite switchCommand_todo. now apply bind_blocked.
  - unfold processCommand. apply withLock_held. congruence.
  - rewrite Hi, Hi0.
    destruct (elemAt_inside (todoItems b) (k - 1)) as (item & He & Hnth);
      [lia|].
    rewrite He. unfold toggleAt. rewrite Hnth. simpl.
    destruct (elemAt_inside
                (setNth (Z.to_nat (k - 1)) (withDone (negb (Done item)) item)
                        (todoItems b)) (k - 1)) as (item' & He' & Hnth').
    { unfold len in *. rewrite length_setNth. lia. }
    rewrite He'. rewrite nth_error_setNth_same in Hnth'
      by (unfold len in Hk; lia).
    injection Hnth' as <-. reflexivity.
Qed.

Lemma todo_toggle_twice_blocks_witness :
  exists p b1,
    processCommand noon "todo toggle 1" started = Blocked p b1 /\
    processCommand noon "todo toggle 1" b1
    = Blocked (InLock "processCommand") b1 /\
    option_map Done (elemAt (todoItems started) 0) = Some false /\
    option_map Done (elemAt (todoItems b1) 0) = Some true.
Proof.
  assert (Hk : 1 <= 1 <= len (todoItems started))
    by (vm_compute; split; discriminate).
  destruct (todo_toggle_twice_blocks noon "todo toggle 1" "1" 1 started
              eq_refl eq_refl eq_refl Hk)
    as (p & b1 & Hrun & Hagain & _ & _ & Hdone).
  exists p, b1. split; [exact Hrun|split; [exact Hagain|split]].
  - reflexivity.
  - exact Hdone.
Defined.

(** ** The priority shortcut (C8) *)

Lemma withLock_blocked {A} q (body : M A) p b b' :
  mu b = Unlocked ->
  body (set_mu WriteLocked b) = Blocked p b' ->
  withLock q body b = Blocked p b'.
Proof.
  intros Hmu H. unfold withLock, lock. now rewrite Hmu, H.
Qed.

Lemma findFrom_found p j items i item :
  findFrom p j items = Some (i, item) ->
  j <= i < j + len items /\ nth_error items (Z.to_nat (i - j)) = Some item.
Proof.
  revert j. induction items as [|x r IH]; simpl; intros j H; [discriminate|].
  rewrite len_cons. pose proof (len_nonneg r).
  destruct (p x).
  - injection H as -> ->. split; [lia|].
    replace (i - i) with 0 by lia. reflexivity.
  - destruct (IH (j + 1) H) as [Hi Hn]. split; [lia|].
    replace (Z.to_nat (i - j)) with (S (Z.to_nat (i - (j + 1)))) by lia.
    exact Hn.
Qed.

(** On the priority alone, one press takes low to medium, medium to high
    and high to low, so three presses restore each of the three values. *)
Lemma cyclePriority_cycle p :
  In p priorities ->
  exists p1 p2,
    cyclePriority p = Some p1 /\ cyclePriority p1 = Some p2 /\
    cyclePriority p2 = Some p /\ In p1 priorities /\ In p2 priorities.
Proof.
  simpl. intros [<-|[<-|[<-|[]]]].
  - exists "medium", "high". repeat split; simpl; auto.
  - exists "high", "low". repeat split; simpl; auto.
  - exists "low", "medium". repeat split; simpl; auto.
Qed.

(** A priority outside the three values is left alone, and a value that
    differs from them in letter case is replaced by its lower-case
    successor. *)
Lemma cyclePriority_other :
  cyclePriority "urgent" = None /\ cyclePriority "HIGH" = Some "low" /\
  cyclePriority "" = Some "high".
Proof. repeat split. Qed.

Lemma keyPriority_blocks w b i item next :
  mu b = WriteLocked ->
  findFrom (fun t => negb (Done t)) 0 (todoItems b) = Some (i, item) ->
  cyclePriority (Priority item) = Some next ->
  exists p b',
    keyPriority w b = Blocked p b' /\
    (writeError w = None ->
     p = InAddNotification
           (String.append "Priority set to "
              (String.append next (String.append " for: " (Text item))))
           "success") /\
    todoItems b' = setNth (Z.to_nat i) (withPriority next item) (todoItems b) /\
    notifications b' = notifications b /\
    mu b' = WriteLocked /\
    appFocus b' = appFocus b.
Proof.
  intros Hmu Hfind Hcyc.
  destruct (findFrom_found _ _ _ _ _ Hfind) as [Hi _].
  unfold cyclePriority in Hcyc.
  destruct (priorityIndex (Priority item) =? -1) eqn:E; [discriminate|].
  destruct (saveTodos_then_notify w
              (String.append "Priority set to "
                 (String.append next (String.append " for: " (Text item))))
              "success" (fun _ => ret tt)
              (set_todoItems
                 (setNth (Z.to_nat i) (withPriority next item) (todoItems b)) b))
    as (p & b' & Hrun & Hp & Hit & Hq & _ & Hm).
  { now destruct b. }
  assert (Hfocus : appFocus b' = appFocus b).
  { assert (Hmu' : mu (set_todoItems
                         (setNth (Z.to_nat i) (withPriority next item)
                                 (todoItems b)) b) = WriteLocked)
      by now destruct b.
    rewrite (saveTodos_then_notify_focus _ _ _ _ _ _ _ Hmu' Hrun).
    now destruct b. }
  exists p, b'.
  split; [|split; [exact Hp|split; [|split; [|split; [exact Hm|exact Hfocus]]]]].
  - unfold keyPriority. rewrite bind_get, Hfind. cbv zeta. rewrite E.
    change (negb false) with true. cbv iota.
    rewrite Hcyc, bind_orPanic, store_inside, bind_orPanic, bind_modify by lia.
    unfold bind in Hrun |- *.
    destruct (saveTodos w _) as [[] s1|q s1|s1];
      [|exact Hrun|discriminate Hrun].
    destruct (addNotification w _ _ s1) as [[] s2|q s2|s2];
      [discriminate Hrun|exact Hrun|discriminate Hrun].
  - rewrite Hit. now destruct b.
  - rewrite Hq. now destruct b.
Qed.

(** C8, where the code departs from it.  One press of [p] on the dashboard
    gives the first pending item the next priority of the cycle low,
    medium, high, low, and then blocks in [addNotification] with the mutex
    held; every later press blocks at once on that mutex and changes
    nothing, so the shortcut cannot be applied three times. *)
Theorem priority_shortcut_blocks w b i item :
  mu b = Unlocked ->
  appFocus b = LayoutWidget ->
  findFrom (fun t => negb (Done t)) 0 (todoItems b) = Some (i, item) ->
  In (Priority item) priorities ->
  exists p next b1,
    inputHandler w "p" b = Blocked p b1 /\
    cyclePriority (Priority item) = Some next /\
    elemAt (todoItems b1) i = Some (withPriority next item) /\
    notifications b1 = notifications b /\
    inputHandler w "p" b1 = Blocked (InLock "inputHandler") b1.
Proof.
  intros Hmu Hfocus Hfind Hprio.
  destruct (cyclePriority_cycle _ Hprio) as (next & _ & Hcyc & _).
  destruct (findFrom_found _ _ _ _ _ Hfind) as [Hi _].
  destruct (keyPriority_blocks w (set_mu WriteLocked b) i item next)
    as (p & b1 & Hrun & _ & Hit & Hq & Hm & Hfocus1).
  { now destruct b. }
  { replace (todoItems (set_mu WriteLocked b)) with (todoItems b)
      by now destruct b.
    exact Hfind. }
  { exact Hcyc. }
  replace (appFocus (set_mu WriteLocked b)) with (appFocus b) in Hfocus1
    by now destruct b.
  rewrite Hfocus in Hfocus1.
  exists p, next, b1.
  split; [|split; [exact Hcyc|split; [|split]]].
  - unfold inputHandler, bind at 1, get at 1. rewrite Hfocus.
    apply (withLock_blocked _ _ p b b1 Hmu).
    change (if Ascii.eqb "p" ":" then _ else _)
      with (keyPriority w ;; ret (@None ascii)).
    now apply bind_blocked.
  - rewrite Hit.
    replace (todoItems (set_mu WriteLocked b)) with (todoItems b)
      by now destruct b.
    unfold elemAt.
    replace ((0 <=? i) && (i <? len (setNth (Z.to_nat i)
                                       (withPriority next item) (todoItems b))))
      with true.
    + apply nth_error_setNth_same. unfold len in Hi. lia.
    + symmetry. apply andb_true_iff. unfold len in *. rewrite length_setNth.
      split; [apply Z.leb_le|apply Z.ltb_lt]; lia.
  - rewrite Hq. now destruct b.
  - unfold inputHandler, bind at 1, get at 1. rewrite Hfocus1.
    apply withLock_held. congruence.
Qed.

Lemma priority_shortcut_blocks_witness :
  exists p b1,
    inputHandler noon "p" started = Blocked p b1 /\
    elemAt (todoItems b1) 0
    = Some (mkTodo "Review project documentation (Go)" false "high") /\
    inputHandler noon "p" b1 = Blocked (InLock "inputHandler") b1.
Proof.
  destruct (priority_shortcut_blocks noon started 0
              (mkTodo "Review project documentation (Go)" false "medium")
              eq_refl eq_refl eq_refl)
    as (p & next & b1 & Hrun & Hcyc & Hitem & _ & Hagain).
  { simpl. auto. }
  exists p, b1. split; [exact Hrun|split; [|exact Hagain]].
  rewrite Hitem. f_equal.
  assert (Hnext : next = "high") by (vm_compute in Hcyc; congruence).
  now rewrite Hnext.
Defined.

(** ** The re-entrant lock: where the dispatcher and the key handler stop *)

Lemma stuck_bind {A B} (m : M A) (k : A -> M B) b :
  stuck m b -> stuck (bind m k) b.
Proof.
  intros (p & b' & H & Hm). exists p, b'. split; [|exact Hm].
  now apply bind_blocked.
Qed.

Lemma stuck_addNotification w message msgType b :
  mu b = WriteLocked -> stuck (addNotification w message msgType) b.
Proof.
  intros H. exists (InAddNotification message msgType), b.
  split; [apply addNotification_held; congruence|exact H].
Qed.

Lemma stuck_modify {B} f (k : unit -> M B) b :
  stuck (k tt) (f b) -> stuck (bind (modify f) k) b.
Proof. intros H. unfold stuck. rewrite bind_modify. exact H. Qed.

Create HintDb stuck.

#[local] Hint Resolve stuck_bind stuck_addNotification : stuck.

Lemma themeCommand_stuck w args b :
  mu b = WriteLocked -> stuck (themeCommand w args) b.
Proof.
  intros Hmu. unfold themeCommand.
  destruct args as [|themeName [|? ?]]; auto with stuck.
  destruct (lookup themes themeName); auto with stuck.
  apply stuck_modify, stuck_bind, stuck_addNotification. now destruct b.
Qed.

Lemma weatherCommand_stuck w args b :
  mu b = WriteLocked -> stuck (weatherCommand w args) b.
Proof.
  intros Hmu. unfold weatherCommand.
  destruct args as [|arg0 [|? ?]]; auto with stuck.
  destruct (String.eqb arg0 "set"); auto with stuck.
  apply stuck_modify, stuck_bind, stuck_addNotification. now destruct b.
Qed.

Lemma todoCommand_stuck w args b :
  mu b = WriteLocked -> stuck (todoCommand w args) b.
Proof.
  intros Hmu. unfold todoCommand.
  destruct args as [|subCmd todoArgs]; auto with stuck.
  destruct (String.eqb subCmd "add").
  { destruct todoArgs as [|arg rest]; [unfold todoAdd; auto with stuck|].
    destruct (todoAdd_blocks w arg rest b Hmu) as (p & b' & H & _ & _ & _ & Hm).
    now exists p, b'. }
  destruct (String.eqb subCmd "toggle" || String.eqb subCmd "done").
  { destruct todoArgs as [|arg [|? ?]]; try (unfold todoToggle; auto with stuck).
    destruct (index_valid_or_not arg (todoItems b)) as [(k & Ha & Hk)|Hbad].
    - destruct (todoToggle_valid w arg k b Hmu Ha Hk)
        as (p & b' & H & _ & _ & _ & Hm).
      now exists p, b'.
    - eexists. exists b. split; [now apply todoToggle_invalid|exact Hmu]. }
  destruct (String.eqb subCmd "delete" || String.eqb subCmd "rm").
  { destruct todoArgs as [|arg [|? ?]]; try (unfold todoDelete; auto with stuck).
    destruct (index_valid_or_not arg (todoItems b)) as [(k & Ha & Hk)|Hbad].
    - destruct (todoDelete_valid w arg k b Hmu Ha Hk)
        as (p & b' & H & _ & _ & Hm).
      now exists p, b'.
    - eexists. exists b. split; [now apply todoDelete_invalid|exact Hmu]. }
  auto with stuck.
Qed.

Lemma switchCommand_stuck w command cmd args b :
  mu b = WriteLocked ->
  isExit cmd = false ->
  stuck (switchCommand w command cmd args) b.
Proof.
  intros Hmu Hexit. unfold switchCommand. unfold isExit in Hexit.
  destruct (String.eqb cmd "help" || String.eqb cmd "?"); auto with stuck.
  rewrite Hexit.
  destruct (String.eqb cmd "clear").
  { apply stuck_modify, stuck_bind, stuck_addNotification. now destruct b. }
  destruct (String.eqb cmd "shortcut"); auto with stuck.
  destruct (String.eqb cmd "theme");
    [apply stuck_bind; now apply themeCommand_stuck|].
  destruct (String.eqb cmd "todo");
    [apply stuck_bind; now apply todoCommand_stuck|].
  destruct (String.eqb cmd "weather");
    [apply stuck_bind; now apply weatherCommand_stuck|].
  auto with stuck.
Qed.

(** X1.  Every command line that is not blank and whose verb is not
    [exit], [quit] or [q] stops the dispatcher: each of its branches ends in
    a call of [addNotification], which waits for the mutex [processCommand]
    took on entry.  The call never returns and the mutex stays held. *)
Lemma dispatcher_stuck w command cmd args b :
  mu b = Unlocked ->
  Fields (TrimSpace (ToLower command)) = cmd :: args ->
  isExit cmd = false ->
  stuck (processCommand w command) b.
Proof.
  intros Hmu Hf Hexit.
  destruct (switchCommand_stuck w (TrimSpace (ToLower command)) cmd args
              (set_commandHistory
                 (lastN 20 (commandHistory b ++ [TrimSpace (ToLower command)]))
                 (set_mu WriteLocked b)))
    as (p & b' & Hrun & Hm); [apply switch_state_mu|exact Hexit|].
  exists p, b'. split; [|exact Hm].
  now apply (processCommand_switch w command cmd args b Hmu Hf).
Qed.

Lemma dispatcher_stuck_witness :
  stuck (processCommand noon "HELP me") started.
Proof.
  apply (dispatcher_stuck noon "HELP me" "help" ["me"] started);
    reflexivity.
Defined.

Lemma keyToggle_stuck w b : mu b = WriteLocked -> stuck (keyToggle w) b.
Proof.
  intros Hmu. unfold keyToggle. unfold stuck. rewrite bind_get.
  destruct (findFrom _ 0 (todoItems b)) as [[i item]|] eqn:E;
    [|now apply stuck_addNotification].
  destruct (findFrom_found _ _ _ _ _ E) as [Hi _].
  rewrite store_inside, bind_orPanic, bind_modify by lia.
  destruct (saveTodos_then_notify w
              (String.append "Completed: " (Text item)) "success"
              (fun _ => ret tt)
              (set_todoItems
                 (setNth (Z.to_nat i) (withDone true item) (todoItems b)) b))
    as (p & b' & Hrun & _ & _ & _ & _ & Hm); [now destruct b|].
  exists p, b'. split; [|exact Hm].
  unfold bind in Hrun |- *.
  destruct (saveTodos w _) as [[] s1|q s1|s1];
    [|exact Hrun|discriminate Hrun].
  destruct (addNotification w _ _ s1) as [[] s2|q s2|s2];
    [discriminate Hrun|exact Hrun|discriminate Hrun].
Qed.

Lemma keyDelete_stuck w b : mu b = WriteLocked -> stuck (keyDelete w) b.
Proof.
  intros Hmu. unfold keyDelete. unfold stuck. rewrite bind_get.
  destruct (findFrom Done 0 (todoItems b)) as [[i item]|] eqn:E;
    [|now apply stuck_addNotification].
  destruct (findFrom_found _ _ _ _ _ E) as [Hi _].
  rewrite sliceTo_inside, bind_orPanic, sliceFrom_inside, bind_orPanic,
    bind_modify by lia.
  match goal with
  | |- context [set_todoItems ?items b] =>
      destruct (saveTodos_then_notify w
                  (String.append "Deleted: " (Text item)) "success"
                  (fun _ => ret tt) (set_todoItems items b))
        as (p & b' & Hrun & _ & _ & _ & _ & Hm); [now destruct b|]
  end.
  exists p, b'. split; [|exact Hm].
  unfold bind in Hrun |- *.
  destruct (saveTodos w _) as [[] s1|q s1|s1];
    [|exact Hrun|discriminate Hrun].
  destruct (addNotification w _ _ s1) as [[] s2|q s2|s2];
    [discriminate Hrun|exact Hrun|discriminate Hrun].
Qed.

Lemma keyPriority_stuck w b : mu b = WriteLocked -> stuck (keyPriority w) b.
Proof.
  intros Hmu.
  destruct (findFrom (fun t => negb (Done t)) 0 (todoItems b))
    as [[i item]|] eqn:E.
  - destruct (cyclePriority (Priority item)) as [next|] eqn:Ec.
    + destruct (keyPriority_blocks w b i item next Hmu E Ec)
        as (p & b' & Hrun & _ & _ & _ & Hm & _).
      now exists p, b'.
    + unfold keyPriority, stuck. rewrite bind_get, E. cbv zeta.
      unfold cyclePriority in Ec.
      destruct (priorityIndex (Priority item) =? -1) eqn:Ei.
      * simpl. now apply stuck_addNotification.
      * exfalso. revert Ec Ei. unfold nextPriority, priorityIndex.
        destruct (String.eqb (ToLower (Priority item)) "");
          [discriminate|].
        unfold priorities, indexIn.
        repeat match goal with
               | |- context [String.eqb ?a ?c] => destruct (String.eqb a c)
               end; discriminate.
  - unfold keyPriority, stuck. rewrite bind_get, E.
    now apply stuck_addNotification.
Qed.

(** X2.  While the dashboard has the focus, each of the keys [?], [n],
    [t], [d] and [p] stops the key handler: whatever the todo list holds,
    the case ends in a call of [addNotification] under the mutex
    [inputHandler] took on entry, so the handler never returns and the
    mutex stays held. *)
Lemma inputHandler_stuck w r b :
  mu b = Unlocked ->
  appFocus b = LayoutWidget ->
  In r notifyingKeys ->
  stuck (inputHandler w r) b.
Proof.
  intros Hmu Hfocus Hr.
  assert (Hbody : forall body : M (option ascii),
            stuck body (set_mu WriteLocked b) ->
            stuck (withLock (InLock "inputHandler") body) b).
  { intros body (p & b' & Hrun & Hm). exists p, b'. split; [|exact Hm].
    now apply withLock_blocked. }
  assert (Hheld : mu (set_mu WriteLocked b) = WriteLocked) by apply mu_set_mu.
  unfold inputHandler, stuck. rewrite bind_get, Hfocus.
  simpl in Hr. destruct Hr as [<-|[<-|[<-|[<-|[<-|[]]]]]]; apply Hbody.
  - now apply stuck_bind, stuck_addNotification.
  - now apply stuck_bind, stuck_addNotification.
  - now apply stuck_bind, keyToggle_stuck.
  - now apply stuck_bind, keyDelete_stuck.
  - now apply stuck_bind, keyPriority_stuck.
Qed.

Lemma inputHandler_stuck_witness : stuck (inputHandler noon "t") started.
Proof.
  apply (inputHandler_stuck noon "t" started); [reflexivity..|].
  simpl. tauto.
Defined.

(** The calls that do return: a blank line, the exit verbs, and the keys
    [:] and [q]. *)
Lemma returning_calls :
  hasReturned (processCommand noon "quit" started) = true /\
  hasReturned (inputHandler noon ":" started) = true /\
  hasReturned (inputHandler noon "q" started) = true /\
  hasReturned (inputHandler noon "x" started) = true.
Proof. repeat split. Qed.

(* ================================================================== *)
(** * Further properties of the code *)
(* ================================================================== *)

(** ** Preservation, for any property of the struct *)

Lemma keeps_modify (P : Baseline -> Prop) f :
  (forall b, P b -> P (f b)) -> preserves P (modify f).
Proof. intros Hf b H. simpl. now apply Hf. Qed.

Section Stable.

Variable P : Baseline -> Prop.
(** [P] does not look at the mutex. *)
Hypothesis P_mu : forall v b, P b -> P (set_mu v b).

Lemma keeps_lock p : preserves P (lock p).
Proof. intros b H. unfold lock. destruct (mu b); simpl; auto. Qed.

Lemma keeps_unlock : preserves P unlock.
Proof. intros b H. unfold unlock. destruct (mu b); simpl; auto. Qed.

Lemma keeps_rlock p : preserves P (rlock p).
Proof. intros b H. unfold rlock. destruct (mu b); simpl; auto. Qed.

Lemma keeps_runlock : preserves P runlock.
Proof.
  intros b H. unfold runlock. destruct (mu b) as [| |[n|n|]]; simpl; auto.
Qed.

Lemma keeps_withLock {A} p (body : M A) :
  preserves P body -> preserves P (withLock p body).
Proof.
  intros Hbody b H. unfold withLock.
  pose proof (keeps_lock p b H) as Hl.
  destruct (lock p b) as [[] b1|q b1|b1]; simpl in *; try exact Hl.
  specialize (Hbody b1 Hl).
  destruct (body b1) as [a b2|q b2|b2]; simpl in *; try exact Hbody;
    pose proof (keeps_unlock b2 Hbody) as Hu;
    destruct (unlock b2) as [[] b3|q b3|b3]; simpl in *; exact Hu.
Qed.

(** Nor at the notification queue, nor at the goroutines started. *)
Hypothesis P_notifications : forall v b, P b -> P (set_notifications v b).
Hypothesis P_spawned : forall v b, P b -> P (set_spawned v b).

Lemma keeps_addNotification w message msgType :
  preserves P (addNotification w message msgType).
Proof.
  intros b H. destruct (mu b) eqn:E.
  - rewrite addNotification_free by exact E. simpl. auto.
  - rewrite addNotification_held by congruence. exact H.
  - rewrite addNotification_held by congruence. exact H.
Qed.

End Stable.

Section Held.

Variable P : Baseline -> Prop.
(** [P] holds only while the mutex is held. *)
Hypothesis P_held : forall b, P b -> mu b <> Unlocked.

Lemma held_withLock {A} p (body : M A) : preserves P (withLock p body).
Proof. intros b H. rewrite withLock_held by auto. exact H. Qed.

Lemma held_addNotification w message msgType :
  preserves P (addNotification w message msgType).
Proof. apply held_withLock. Qed.

End Held.

(** Settles that an assignment keeps a property that does not read the
    assigned field. *)
Ltac untouched :=
  let b := fresh "b" in
  let H := fresh "H" in
  intros b H; destruct b; simpl in H |- *;
  first [exact H | tauto | intuition congruence].

Ltac stable :=
  let v := fresh "v" in
  let b := fresh "b" in
  let H := fresh "H" in
  intros v b H; destruct b; simpl in H |- *;
  first [exact H | tauto | intuition congruence].

(** Takes a method apart; what is left are the assignments that touch
    what the property reads. *)
Ltac keep :=
  repeat first
    [ assumption
    | match goal with
      | H : _ |- preserves _ _ => solve [apply H]
      | |- preserves _ (ret _) => apply preserves_ret
      | |- preserves _ get => apply preserves_get
      | |- preserves _ (gets _) => apply preserves_gets
      | |- preserves _ panic => apply preserves_panic
      | |- preserves _ (orPanic _) => apply preserves_orPanic
      | |- preserves _ (bind _ _) => apply preserves_bind; [|intros ?]
      | |- preserves _ (when _ _) => apply preserves_when
      | |- preserves _ (history _) => unfold history
      | |- preserves _ (spawn _) => unfold spawn
      | |- preserves _ (modify _) => apply keeps_modify; untouched
      | |- preserves _ (lock _) => apply keeps_lock; stable
      | |- preserves _ unlock => apply keeps_unlock; stable
      | |- preserves _ (rlock _) => apply keeps_rlock; stable
      | |- preserves _ runlock => apply keeps_runlock; stable
      | |- preserves _ (addNotification _ _ _) =>
          first [ apply keeps_addNotification; stable
                | apply held_addNotification; intros ? ?; intuition congruence ]
      | |- preserves _ (withLock _ _) => apply keeps_withLock; [stable|]
      | |- preserves _ (match ?x with _ => _ end) => destruct x eqn:?
      | |- preserves _ (let '(_, _) := ?x in _) => destruct x
      end ].

(** ** The dispatcher: which calls return, and what a call leaves alone *)

Lemma fieldsFrom_started f s : fieldsFrom (Some f) s <> [].
Proof.
  revert f. induction s as [|c r IH]; intros f; simpl; [discriminate|].
  destruct (isSpace c); [discriminate|apply IH].
Qed.

Lemma trimLeft_head s :
  match trimLeft s with
  | EmptyString => True
  | String c _ => isSpace c = false
  end.
Proof.
  induction s as [|c r IH]; simpl; [exact I|].
  destruct (isSpace c) eqn:E; [exact IH|exact E].
Qed.

Lemma trimRight_head s :
  match trimRight s with
  | EmptyString => True
  | String c _ => exists r, s = String c r
  end.
Proof.
  destruct s as [|c r]; simpl; [exact I|].
  destruct (trimRight r); [destruct (isSpace c)|]; simpl; eauto.
Qed.

(** A trimmed line that is not empty has a first field: [parts[0]] of
    [processCommand] is always in range. *)
Lemma Fields_TrimSpace s :
  TrimSpace s <> EmptyString -> Fields (TrimSpace s) <> [].
Proof.
  unfold TrimSpace, Fields. intros H.
  pose proof (trimRight_head (trimLeft s)) as Hr.
  pose proof (trimLeft_head s) as Hl.
  destruct (trimRight (trimLeft s)) as [|c r]; [congruence|].
  destruct Hr as [r' Hr]. rewrite Hr in Hl.
  simpl. rewrite Hl. apply fieldsFrom_started.
Qed.

Lemma processCommand_blank w command b :
  mu b = Unlocked ->
  TrimSpace (ToLower command) = EmptyString ->
  processCommand w command b = Returned tt b.
Proof.
  intros Hmu Hc. unfold processCommand, withLock, lock. rewrite Hmu, Hc.
  simpl. unfold unlock. rewrite mu_set_mu.
  now rewrite (unlock_after_lock b Hmu).
Qed.

Lemma isExit_cases cmd :
  isExit cmd = true -> cmd = "exit" \/ cmd = "quit" \/ cmd = "q".
Proof.
  unfold isExit. intros H.
  destruct (String.eqb_spec cmd "exit"); [auto|].
  destruct (String.eqb_spec cmd "quit"); [auto|].
  destruct (String.eqb_spec cmd "q"); [auto|discriminate].
Qed.

Lemma switchCommand_exit w command cmd args b :
  isExit cmd = true ->
  switchCommand w command cmd args b
  = Returned (false, false, false) (set_appStopped true b).
Proof.
  intros H. destruct (isExit_cases cmd H) as [->|[->| ->]]; reflexivity.
Qed.

(** X3.  A line whose verb is [exit], [quit] or [q], in any letter case and
    with any arguments, always returns: the application is stopped, the
    lower-cased line is the newest entry of the command history, the
    command line is cleared and the mutex is free again; nothing else of
    the struct changes, no notification is pushed and no goroutine is
    started. *)
Theorem exit_verbs_return w command cmd args b :
  mu b = Unlocked ->
  Fields (TrimSpace (ToLower command)) = cmd :: args ->
  isExit cmd = true ->
  processCommand w command b
  = Returned tt
      (set_cmdInputText ""
         (set_appStopped true
            (set_commandHistory
               (lastN 20 (commandHistory b ++ [TrimSpace (ToLower command)]))
               b))).
Proof.
  intros Hmu Hf Hexit.
  unfold processCommand, withLock, lock. rewrite Hmu. cbv zeta.
  destruct (String.eqb_spec (TrimSpace (ToLower command)) "") as [E|E].
  { rewrite E in Hf. discriminate Hf. }
  rewrite bind_get.
  replace (commandHistory (set_mu WriteLocked b)) with (commandHistory b)
    by now destruct b.
  rewrite appendCapped_lastN by lia. change (Z.to_nat 20) with 20%nat.
  rewrite bind_orPanic, bind_modify, Hf.
  unfold bind at 1. rewrite switchCommand_exit by exact Hexit.
  destruct b; simpl in *; subst. reflexivity.
Qed.

Lemma exit_verbs_return_witness :
  exists b',
    processCommand noon "  QUIT now " started = Returned tt b' /\
    appStopped b' = true /\
    commandHistory b' = ["quit now"] /\
    notifications b' = notifications started /\
    mu b' = Unlocked.
Proof.
  eexists. split.
  - apply (exit_verbs_return noon "  QUIT now " "quit" ["now"] started);
      reflexivity.
  - repeat split.
Defined.

Lemma underLock_refl b : mu b = WriteLocked -> underLock b b.
Proof. intros H. unfold underLock. tauto. Qed.

Lemma underLock_switchCommand b0 w command cmd args :
  preserves (underLock b0) (switchCommand w command cmd args).
Proof.
  unfold switchCommand, themeCommand, todoCommand, todoAdd, todoToggle,
    todoDelete, invalidIndex, weatherCommand, saveTodos, underLock.
  keep.
Qed.

(** The two ways a line that is not blank can end. *)
Lemma processCommand_nonblank w command b :
  mu b = Unlocked ->
  TrimSpace (ToLower command) <> EmptyString ->
  let line := TrimSpace (ToLower command) in
  let recorded := lastN 20 (commandHistory b ++ [line]) in
  (exists p b',
     processCommand w command b = Blocked p b' /\
     underLock (set_commandHistory recorded (set_mu WriteLocked b)) b') \/
  processCommand w command b
  = Returned tt
      (set_cmdInputText ""
         (set_appStopped true (set_commandHistory recorded b))).
Proof.
  intros Hmu Hc line recorded.
  destruct (Fields line) as [|cmd args] eqn:Hf.
  { exfalso. now apply (Fields_TrimSpace (ToLower command)). }
  destruct (isExit cmd) eqn:Hexit.
  - right. now apply (exit_verbs_return w command cmd args).
  - left.
    set (b0 := set_commandHistory recorded (set_mu WriteLocked b)).
    assert (Hmu0 : mu b0 = WriteLocked) by apply switch_state_mu.
    destruct (switchCommand_stuck w line cmd args b0 Hmu0 Hexit)
      as (p & b' & Hrun & _).
    exists p, b'. split.
    + now apply (processCommand_switch w command cmd args b Hmu Hf).
    + pose proof (underLock_switchCommand b0 w line cmd args b0
                    (underLock_refl b0 Hmu0)) as H.
      now rewrite Hrun in H.
Qed.

(** X4.  Whatever the line, a call of [processCommand] that finds the mutex
    free does not panic, starts no goroutine (no redraw of the todo panel,
    no change of the colours on screen, no weather fetch is ever scheduled)
    and pushes no notification: the queue afterwards is the queue before or,
    after [clear], the empty queue.  The focus, the metric history, the
    weather snapshot, the API key and the rows of the todo panel are as
    they were. *)
Theorem dispatcher_leaves_alone w command b :
  mu b = Unlocked ->
  let b' := finalState (processCommand w command b) in
  hasPanicked (processCommand w command b) = false /\
  spawned b' = spawned b /\
  (notifications b' = notifications b \/ notifications b' = []) /\
  currentFocus b' = currentFocus b /\
  appFocus b' = appFocus b /\
  systemHistory b' = systemHistory b /\
  weatherInfo b' = weatherInfo b /\
  weatherAPIKey b' = weatherAPIKey b /\
  todoPanel b' = todoPanel b.
Proof.
  intros Hmu b'. subst b'.
  destruct (String.eqb_spec (TrimSpace (ToLower command)) "") as [Hc|Hc].
  - rewrite (processCommand_blank w command b Hmu Hc). simpl. tauto.
  - destruct (processCommand_nonblank w command b Hmu Hc)
      as [(p & b' & Hrun & Hu)|Hrun]; rewrite Hrun; simpl.
    + unfold underLock in Hu. destruct b; simpl in *. intuition congruence.
    + destruct b; simpl. tauto.
Qed.

Lemma dispatcher_leaves_alone_witness :
  spawned (finalState (processCommand noon "weather set Oslo" started))
  = spawned started /\
  notifications (finalState (processCommand noon "clear" started)) = [] /\
  hasPanicked (processCommand noon "todo rm 9" started) = false.
Proof.
  split; [|split].
  - apply (dispatcher_leaves_alone noon "weather set Oslo" started eq_refl).
  - destruct (dispatcher_leaves_alone noon "clear" started eq_refl)
      as (_ & _ & [H|H] & _); [|exact H].
    reflexivity.
  - apply (dispatcher_leaves_alone noon "todo rm 9" started eq_refl).
Defined.

(** X5.  Every line that is not blank is recorded, trimmed and in lower
    case, as the newest entry of the command history before it is
    dispatched, also when the dispatch then fails or never returns; the
    history keeps its last 20 entries.  A blank line is not recorded. *)
Theorem command_history_records w command b :
  mu b = Unlocked ->
  commandHistory (finalState (processCommand w command b))
  = if String.eqb (TrimSpace (ToLower command)) ""
    then commandHistory b
    else lastN 20 (commandHistory b ++ [TrimSpace (ToLower command)]).
Proof.
  intros Hmu.
  destruct (String.eqb_spec (TrimSpace (ToLower command)) "") as [Hc|Hc].
  - now rewrite (processCommand_blank w command b Hmu Hc).
  - destruct (processCommand_nonblank w command b Hmu Hc)
      as [(p & b' & Hrun & Hu)|Hrun]; rewrite Hrun; simpl.
    + destruct Hu as (_ & _ & _ & Hh & _). rewrite Hh. now destruct b.
    + now destruct b.
Qed.

Lemma command_history_records_witness :
  commandHistory (finalState (processCommand noon " Bogus  THING " started))
  = ["bogus  thing"] /\
  commandHistory (finalState (processCommand noon "   " started)) = [].
Proof.
  split.
  - rewrite (command_history_records noon " Bogus  THING " started eq_refl).
    reflexivity.
  - rewrite (command_history_records noon "   " started eq_refl).
    reflexivity.
Defined.

(** ** The metric history when its sequences differ in length *)

Lemma sliceFrom_negative {A} (s : list A) i : i < 0 -> sliceFrom s i = None.
Proof.
  intros H. unfold sliceFrom.
  destruct (0 <=? i) eqn:E; [apply Z.leb_le in E; lia|reflexivity].
Qed.

(** The trimming block on a history whose first three sequences are long
    enough and whose fourth is not: the first three are cut, the fourth
    slice expression is out of range. *)
Lemma trimHistory_panics b :
  historyLimit < len (CPU (systemHistory b)) ->
  historyLimit <= len (Memory (systemHistory b)) ->
  historyLimit <= len (Timestamps (systemHistory b)) ->
  len (NetworkIn (systemHistory b)) < historyLimit ->
  exists b', trimHistory b = Panicked b' /\ mu b' = mu b /\ files b' = files b.
Proof.
  intros Hc Hm Ht Hi.
  destruct b as [? ? ? ? [c m t i o] ? ? ? ? ? ? ? ? ? ? ? ? ? ? ?].
  simpl in *. unfold trimHistory, bind, get, gets. simpl.
  apply Z.ltb_lt in Hc as Hc'. rewrite Hc'.
  unfold historyLimit in *.
  unfold ret, history, modify, orPanic. simpl.
  repeat (rewrite sliceFrom_inside by (unfold historyLimit; lia); simpl).
  rewrite sliceFrom_negative by (unfold historyLimit; lia).
  eexists. split; [reflexivity|]. split; reflexivity.
Qed.

(** X7.  Once the network sequences of the history have fallen behind the
    others, the trimming block of [saveSystemHistory] fails: if the sample
    makes the CPU sequence longer than 60 entries while the sequence of
    received bytes, with this sample, has fewer than 60, the slice
    expression [NetworkIn[len(NetworkIn)-60:]] has a negative bound and
    [updateSystemInfo] panics.  The deferred unlock releases the mutex;
    the history file is not written. *)
Theorem updateSystemInfo_panics w m b :
  mu b = Unlocked ->
  60 <= len (CPU (systemHistory b)) ->
  59 <= len (Memory (systemHistory b)) ->
  59 <= len (Timestamps (systemHistory b)) ->
  len (NetworkIn (systemHistory b)) + netSamples m < 60 ->
  exists b',
    updateSystemInfo w m b = Panicked b' /\
    mu b' = Unlocked /\
    files b' = files b.
Proof.
  intros Hmu Hc Hm Ht Hi.
  destruct (recordNetIO_returns m (set_mu WriteLocked b))
    as (b1 & H1 & Hh1 & Hmu1 & Hf1).
  assert (Hh : systemHistory b1 = systemHistory b)
    by (rewrite Hh1; now destruct b).
  assert (exists b2, appendSample m b1 = Returned tt b2 /\
            mu b2 = mu b1 /\ files b2 = files b1 /\
            len (CPU (systemHistory b2)) = len (CPU (systemHistory b)) + 1 /\
            len (Memory (systemHistory b2))
            = len (Memory (systemHistory b)) + 1 /\
            len (Timestamps (systemHistory b2))
            = len (Timestamps (systemHistory b)) + 1 /\
            len (NetworkIn (systemHistory b2))
            = len (NetworkIn (systemHistory b)) + netSamples m)
    as (b2 & H2 & Hmu2 & Hf2 & Lc & Lm & Lt & Li).
  { unfold netSamples. rewrite <- Hh.
    destruct (currentNetIO m) as [|io rest] eqn:En.
    - rewrite (appendSample_offline m b1 En). eexists.
      split; [reflexivity|]. destruct b1 as [? ? ? ? [] ? ? ? ? ? ? ? ? ? ? ? ? ? ? ?].
      simpl. rewrite !len_app. unfold len. simpl. repeat split; lia.
    - rewrite (appendSample_online m io rest b1 En). eexists.
      split; [reflexivity|]. destruct b1 as [? ? ? ? [] ? ? ? ? ? ? ? ? ? ? ? ? ? ? ?].
      unfold sampled. simpl. rewrite !len_app. unfold len. simpl.
      repeat split; lia. }
  destruct (trimHistory_panics b2) as (b3 & H3 & Hmu3 & Hf3);
    try (unfold historyLimit; lia).
  assert (Hheld : mu b3 = WriteLocked).
  { rewrite Hmu3, Hmu2, Hmu1. apply mu_set_mu. }
  exists (set_mu Unlocked b3). split; [|split].
  - unfold updateSystemInfo, withLock, lock. rewrite Hmu.
    unfold bind. rewrite H1, H2. unfold saveSystemHistory, bind.
    rewrite H3. unfold unlock. now rewrite Hheld.
  - apply mu_set_mu.
  - transitivity (files b3); [now destruct b3|].
    rewrite Hf3, Hf2, Hf1. now destruct b.
Qed.

Lemma updateSystemInfo_panics_witness :
  exists b',
    updateSystemInfo noon online (finalState (ticks noon offline 60 started))
    = Panicked b' /\
    mu b' = Unlocked /\
    files b' = files (finalState (ticks noon offline 60 started)).
Proof.
  apply (updateSystemInfo_panics noon online
           (finalState (ticks noon offline 60 started)));
    [ vm_compute; reflexivity
    | apply Z.leb_le; vm_compute; reflexivity
    | apply Z.leb_le; vm_compute; reflexivity
    | apply Z.leb_le; vm_compute; reflexivity
    | apply Z.ltb_lt; vm_compute; reflexivity ].
Defined.

(** ** The weather fetch with a key *)

(** X8.  With an API key set, a weather fetch that finds the mutex free
    returns whatever the request did, and replaces the whole snapshot.
    After a decoded reply the snapshot holds the name and the readings the
    API sent, with an empty error.  After a transport error, a status other
    than 200 or an undecodable body it holds the configured location, zero
    readings, an empty condition and an error text that is not empty: the
    readings of an earlier successful fetch are not kept.  Either way the
    snapshot is stamped with the clock reading of this fetch, and no other
    field of the struct changes. *)
Theorem fetchWeather_with_key w reply b :
  mu b = Unlocked ->
  weatherAPIKey b <> "" ->
  exists info,
    fetchWeather w reply b = Returned tt (set_weatherInfo info b) /\
    LastUpdated info = clock w /\
    match reply with
    | Payload name temp_c text humidity wind_kph =>
        info = mkWeather name temp_c text humidity wind_kph "" (clock w)
    | _ =>
        info = mkWeather (weatherLocation b) 0 "" 0 0 (Error info) (clock w)
        /\ Error info <> ""
    end.
Proof.
  intros Hmu Hkey.
  destruct b; simpl in *; subst.
  unfold fetchWeather, bind, lock, unlock, get, modify, updateWeather,
    rlock, runlock; simpl.
  destruct (String.eqb_spec weatherAPIKey0 "") as [E|_]; [contradiction|].
  destruct reply as [err|status [msg|]|err|name temp_c text humidity wind_kph];
    simpl.
  - eexists. split; [reflexivity|]. simpl. repeat split. discriminate.
  - destruct (String.eqb msg ""); eexists; (split; [reflexivity|]); simpl;
      repeat split; discriminate.
  - eexists. split; [reflexivity|]. simpl. repeat split. discriminate.
  - eexists. split; [reflexivity|]. simpl. repeat split. discriminate.
  - eexists. split; [reflexivity|]. simpl. split; reflexivity.
Qed.

Lemma fetchWeather_with_key_witness :
  exists info,
    fetchWeather noon (BadStatus 403 (Some "API key is invalid."))
      (set_weatherAPIKey "k3y" started)
    = Returned tt (set_weatherInfo info (set_weatherAPIKey "k3y" started)) /\
    LastUpdated info = 43200 /\
    info = mkWeather "Lahore" 0 "" 0 0 (Error info) 43200 /\
    Error info <> "".
Proof.
  apply (fetchWeather_with_key noon
           (BadStatus 403 (Some "API key is invalid."))
           (set_weatherAPIKey "k3y" started));
    [reflexivity|discriminate].
Defined.

(** ** Construction *)

(** X9.  [NewBaseline] never returns when one of the two data files is
    there but cannot be read or parsed: [loadTodos] and [loadSystemHistory]
    report that through [addNotification] while they hold the mutex.  In
    every other case the constructor gets through both loaders, and in no
    case does it panic. *)
Theorem NewBaseline_blocks_on_unreadable_file w su :
  hasBlocked (NewBaseline w su)
  = negb (readable (todosFile su) && readable (historyFile su)) /\
  hasPanicked (NewBaseline w su) = false.
Proof.
  destruct su as [hd cc th key loc tf hf io].
  unfold NewBaseline, newStruct, bind, get, when, modify. simpl.
  destruct (String.eqb loc ""); simpl;
    destruct (String.eqb key "YOUR_API_KEY"), (String.eqb key ""); simpl;
    destruct tf, hf, io as [[|? ?]|]; split; reflexivity.
Qed.

(** X10.  When each data file is absent or parses, [NewBaseline] returns
    with the mutex free and a struct built from the environment: the todo
    list of the file as it was parsed, or the four seed items when there is
    no file; the history of the file, or five empty sequences; the theme
    named by THEME, or amber when the name is empty or unknown; the
    location of WEATHER_LOCATION, or "Lahore" when that is empty; the key
    of WEATHER_API_KEY, the placeholder "YOUR_API_KEY" counting as no key;
    and a notification queue that holds one info entry when there is no
    key and nothing otherwise. *)
Theorem NewBaseline_builds w su :
  readable (todosFile su) = true ->
  readable (historyFile su) = true ->
  exists b,
    NewBaseline w su = Returned tt b /\
    mu b = Unlocked /\
    todoItems b
    = match todosFile su with Parsed items => items | _ => defaultTodos end /\
    systemHistory b
    = match historyFile su with Parsed h => h | _ => emptyHistory end /\
    theme b
    = match lookup themes (envTheme su) with
      | Some t => t
      | None => mkTheme 0xFFBF00 0xCC9900 0xFFDF00
      end /\
    weatherLocation b
    = (if String.eqb (envWeatherLocation su) "" then "Lahore"
       else envWeatherLocation su) /\
    weatherAPIKey b
    = (if String.eqb (envWeatherAPIKey su) "YOUR_API_KEY" then ""
       else envWeatherAPIKey su) /\
    notifications b
    = (if String.eqb (weatherAPIKey b) "" then
         [mkNotification "Weather API key not set. Using sample data."
                         "info" (clock w)]
       else []).
Proof.
  destruct su as [hd cc th key loc tf hf io]. simpl. intros Ht Hh.
  assert (Htheme :
    match lookup themes (if String.eqb th "" then "amber" else th) with
    | Some t => t
    | None => match lookup themes "amber" with
              | Some t => t | None => zeroTheme end
    end
    = match lookup themes th with
      | Some t => t
      | None => mkTheme 0xFFBF00 0xCC9900 0xFFDF00
      end).
  { destruct (String.eqb_spec th "") as [->|_]; [reflexivity|].
    destruct (lookup themes th); reflexivity. }
  unfold NewBaseline, newStruct, bind, get, when, modify. simpl.
  destruct (String.eqb loc "") eqn:El; simpl;
    destruct (String.eqb_spec key "YOUR_API_KEY") as [Ek|Ek];
    destruct (String.eqb key "") eqn:Ee; simpl;
    destruct tf, hf; try discriminate; simpl;
    destruct io as [[|? ?]|]; simpl;
    eexists; (split; [reflexivity|]); simpl;
    rewrite ?Ee; simpl; repeat split; try exact Htheme;
    try (apply String.eqb_eq in Ee; now subst).
Qed.

Lemma NewBaseline_builds_witness :
  exists b,
    NewBaseline noon
      (mkStartup None None "neon" "YOUR_API_KEY" "" (Parsed lowThenHigh)
                 NotExist None)
    = Returned tt b /\
    todoItems b = lowThenHigh /\
    theme b = mkTheme 0xFFBF00 0xCC9900 0xFFDF00 /\
    weatherLocation b = "Lahore" /\
    weatherAPIKey b = "" /\
    len (notifications b) = 1.
Proof.
  destruct (NewBaseline_builds noon
              (mkStartup None None "neon" "YOUR_API_KEY" "" (Parsed lowThenHigh)
                         NotExist None) eq_refl eq_refl)
    as (b & Hrun & _ & Ht & _ & Hth & Hl & Hk & Hn).
  exists b. split; [exact Hrun|].
  rewrite Hn, Hk. repeat split; assumption.
Defined.

(** ** The todo panel and the indices of the todo commands *)

Lemma nth_error_todoRows items : forall i n,
  nth_error (todoRows i items) n
  = option_map (todoRow (i + Z.of_nat n)) (nth_error items n).
Proof.
  induction items as [|x r IH]; intros i n; simpl.
  - now destruct n.
  - destruct n as [|n]; simpl.
    + now rewrite Z.add_0_r.
    + rewrite IH. do 2 f_equal. lia.
Qed.

Lemma length_todoRows items : forall i,
  List.length (todoRows i items) = List.length items.
Proof. induction items as [|x r IH]; intros i; simpl; [|rewrite IH]; reflexivity. Qed.

(** X11.  The numbers in the todo panel are the indices the todo commands
    take.  After [updateTodos] the panel has one row per stored item, and
    for every [k] from 1 to the length of the list the row at position [k]
    carries the number [k] and shows the item stored at index [k - 1], the
    one that [todo toggle k] and [todo delete k] address: its text, [X]
    exactly when it is done, and the mark of its priority. *)
Theorem panel_numbers_are_indices b k item :
  mu b = Unlocked ->
  elemAt (todoItems (finalState (updateTodos b))) (k - 1) = Some item ->
  let b' := finalState (updateTodos b) in
  len (todoPanel b') = len (todoItems b') /\
  exists row,
    elemAt (todoPanel b') (k - 1) = Some row /\
    rowNumber row = k /\
    rowText row = escapeBrackets (Text item) /\
    (rowStatus row = "[X]" <-> Done item = true) /\
    row = todoRow (k - 1) item.
Proof.
  intros Hmu. rewrite (updateTodos_free b Hmu). simpl.
  set (items := SliceStable (todoItems b)).
  replace (todoItems (set_todoPanel (todoRows 0 items) (set_todoItems items b)))
    with items by now destruct b.
  replace (todoPanel (set_todoPanel (todoRows 0 items) (set_todoItems items b)))
    with (todoRows 0 items) by now destruct b.
  intros Hk. split.
  - unfold len. now rewrite length_todoRows.
  - exists (todoRow (k - 1) item).
    unfold elemAt in *. unfold len in *. rewrite length_todoRows.
    destruct ((0 <=? k - 1) && (k - 1 <? Z.of_nat (List.length items))) eqn:E;
      [|discriminate].
    apply andb_prop in E. destruct E as [E1 _]. apply Z.leb_le in E1.
    rewrite nth_error_todoRows, Hk. simpl.
    rewrite Z2Nat.id by exact E1.
    repeat split; try reflexivity; try lia.
    + unfold todoRow. simpl. destruct (Done item); [reflexivity|discriminate].
    + unfold todoRow. simpl. now intros ->.
Qed.

Lemma panel_numbers_are_indices_witness :
  exists row,
    elemAt (todoPanel (finalState (updateTodos started))) (1 - 1) = Some row /\
    rowNumber row = 1 /\
    rowText row = "Debug terminal interface (Go)" /\
    rowStatus row = "[X]".
Proof.
  destruct (panel_numbers_are_indices started 1
              (mkTodo "Debug terminal interface (Go)" true "high")
              eq_refl eq_refl)
    as (_ & row & Hrow & Hn & Ht & Hs & _).
  exists row. repeat split; try assumption.
  now apply Hs.
Defined.

(** X12.  Drawing the todo panel a second time changes nothing: the first
    [updateTodos] leaves the stored list sorted and the panel in step with
    it, and the struct it leaves is a fixed point of [updateTodos]. *)
Theorem updateTodos_idempotent b :
  mu b = Unlocked ->
  exists b',
    updateTodos b = Returned tt b' /\
    updateTodos b' = Returned tt b'.
Proof.
  intros Hmu. eexists. split; [apply updateTodos_free; exact Hmu|].
  rewrite updateTodos_free by now destruct b.
  assert (H : SliceStable (SliceStable (todoItems b)) = SliceStable (todoItems b))
    by apply SliceStable_fixed, SliceStable_ordered.
  destruct b; simpl in *. now rewrite H.
Qed.

Lemma updateTodos_idempotent_witness :
  exists b',
    updateTodos startedLowThenHigh = Returned tt b' /\
    updateTodos b' = Returned tt b' /\
    todoItems b' <> todoItems startedLowThenHigh.
Proof.
  destruct (updateTodos_idempotent startedLowThenHigh eq_refl)
    as (b' & H1 & H2).
  exists b'. repeat split; try assumption.
  intros H. assert (E : b' = finalState (updateTodos startedLowThenHigh))
    by now rewrite H1.
  rewrite E in H. vm_compute in H. discriminate H.
Defined.

(** ** The keys [t] and [d] *)

(** [saveTodos] followed by a notification, under the lock: the file is
    written if it can be, and the call stops. *)
Lemma saveTodos_then_blocked {B} w message msgType (k : unit -> M B) items b :
  mu b = WriteLocked ->
  exists p,
    (saveTodos w ;; addNotification w message msgType ;; k tt)
      (set_todoItems items b)
    = Blocked p (savedTodos w items b).
Proof.
  intros Hmu. unfold saveTodos, savedTodos, bind at 1 2. unfold get.
  destruct (writeError w) as [err|].
  - rewrite addNotification_held by (destruct b; simpl in *; congruence).
    eexists. reflexivity.
  - unfold modify, bind.
    rewrite addNotification_held by (destruct b; simpl in *; congruence).
    eexists. now destruct b.
Qed.

(** The item [findFrom] returns is the first that satisfies the test. *)
Lemma findFrom_first p items : forall j i item,
  findFrom p j items = Some (i, item) ->
  p item = true /\
  forall n x, (n < Z.to_nat (i - j))%nat ->
    nth_error items n = Some x -> p x = false.
Proof.
  induction items as [|y r IH]; simpl; intros j i item H; [discriminate|].
  destruct (p y) eqn:E.
  - injection H as <- <-. split; [exact E|]. intros n x Hn. lia.
  - destruct (findFrom_found _ _ _ _ _ H) as [Hi _].
    destruct (IH _ _ _ H) as [Hp Hbefore]. split; [exact Hp|].
    intros [|n] x Hn; simpl.
    + now intros [= <-].
    + apply Hbefore. lia.
Qed.

(** X13.  The key [t] on the dashboard completes the first pending item:
    the item it picks is not done, every item before it is done, and the
    slice with that one item marked done is stored and, when the write
    succeeds, written to todos.json.  After that the handler stops in
    [addNotification] under its own lock, so the change is on disk but the
    handler never returns. *)
Theorem toggle_key_completes_first_pending w b i item :
  mu b = Unlocked ->
  appFocus b = LayoutWidget ->
  findFrom (fun t => negb (Done t)) 0 (todoItems b) = Some (i, item) ->
  Done item = false /\
  (forall j x, 0 <= j < i ->
     nth_error (todoItems b) (Z.to_nat j) = Some x -> Done x = true) /\
  exists p,
    inputHandler w "t" b
    = Blocked p
        (savedTodos w
           (setNth (Z.to_nat i) (withDone true item) (todoItems b))
           (set_mu WriteLocked b)).
Proof.
  intros Hmu Hfocus Hfind.
  destruct (findFrom_found _ _ _ _ _ Hfind) as [Hi _].
  destruct (findFrom_first _ _ _ _ _ Hfind) as [Hp Hbefore].
  split; [now apply negb_true_iff in Hp|]. split.
  - intros j x Hj Hx.
    specialize (Hbefore (Z.to_nat j) x ltac:(lia) Hx).
    now apply negb_false_iff in Hbefore.
  - destruct (saveTodos_then_blocked w
                (String.append "Completed: " (Text item)) "success"
                (fun _ => ret tt)
                (setNth (Z.to_nat i) (withDone true item) (todoItems b))
                (set_mu WriteLocked b) (mu_set_mu _ _)) as (p & Hrun).
    exists p.
    unfold inputHandler, bind at 1, get at 1. rewrite Hfocus.
    apply (withLock_blocked _ _ p b _ Hmu).
    change (if Ascii.eqb "t" ":" then _ else _)
      with (keyToggle w ;; ret (@None ascii)).
    apply bind_blocked.
    unfold keyToggle. rewrite bind_get.
    replace (todoItems (set_mu WriteLocked b)) with (todoItems b)
      by now destruct b.
    rewrite Hfind, store_inside, bind_orPanic, bind_modify by lia.
    unfold bind in Hrun |- *.
    destruct (saveTodos w _) as [[] s1|q s1|s1];
      [|exact Hrun|discriminate Hrun].
    destruct (addNotification w _ _ s1) as [[] s2|q s2|s2];
      [discriminate Hrun|exact Hrun|discriminate Hrun].
Qed.

Lemma toggle_key_completes_first_pending_witness :
  exists p b',
    inputHandler noon "t" started = Blocked p b' /\
    map Done (todoItems b') = [true; true; false; false] /\
    todosJson (files b') = Some (todoItems b').
Proof.
  destruct (toggle_key_completes_first_pending noon started 0
              (mkTodo "Review project documentation (Go)" false "medium")
              eq_refl eq_refl eq_refl) as (_ & _ & p & Hrun).
  exists p. eexists. split; [exact Hrun|]. split; reflexivity.
Defined.

(** X14.  The key [d] on the dashboard deletes the first completed item:
    the item it picks is done, no item before it is, and the slice without
    that one item (the items behind it moving up by one) is stored and,
    when the write succeeds, written to todos.json.  After that the handler
    stops in [addNotification] under its own lock. *)
Theorem delete_key_removes_first_done w b i item :
  mu b = Unlocked ->
  appFocus b = LayoutWidget ->
  findFrom Done 0 (todoItems b) = Some (i, item) ->
  Done item = true /\
  (forall j x, 0 <= j < i ->
     nth_error (todoItems b) (Z.to_nat j) = Some x -> Done x = false) /\
  exists p,
    inputHandler w "d" b
    = Blocked p
        (savedTodos w (deleteAt (i + 1) (todoItems b)) (set_mu WriteLocked b)).
Proof.
  intros Hmu Hfocus Hfind.
  destruct (findFrom_found _ _ _ _ _ Hfind) as [Hi _].
  destruct (findFrom_first _ _ _ _ _ Hfind) as [Hp Hbefore].
  split; [exact Hp|]. split.
  - intros j x Hj Hx. apply (Hbefore (Z.to_nat j) x); [lia|exact Hx].
  - destruct (saveTodos_then_blocked w
                (String.append "Deleted: " (Text item)) "success"
                (fun _ => ret tt)
                (deleteAt (i + 1) (todoItems b))
                (set_mu WriteLocked b) (mu_set_mu _ _)) as (p & Hrun).
    exists p.
    assert (Hd : deleteAt (i + 1) (todoItems b)
                 = firstn (Z.to_nat i) (todoItems b)
                   ++ skipn (Z.to_nat (i + 1)) (todoItems b))
      by (unfold deleteAt; now replace (i + 1 - 1) with i by lia).
    rewrite Hd in Hrun |- *.
    unfold inputHandler, bind at 1, get at 1. rewrite Hfocus.
    apply (withLock_blocked _ _ p b _ Hmu).
    change (if Ascii.eqb "d" ":" then _ else _)
      with (keyDelete w ;; ret (@None ascii)).
    apply bind_blocked.
    unfold keyDelete. rewrite bind_get.
    replace (todoItems (set_mu WriteLocked b)) with (todoItems b)
      by now destruct b.
    rewrite Hfind, sliceTo_inside, bind_orPanic, sliceFrom_inside,
      bind_orPanic, bind_modify by lia.
    unfold bind in Hrun |- *.
    destruct (saveTodos w _) as [[] s1|q s1|s1];
      [|exact Hrun|discriminate Hrun].
    destruct (addNotification w _ _ s1) as [[] s2|q s2|s2];
      [discriminate Hrun|exact Hrun|discriminate Hrun].
Qed.

Lemma delete_key_removes_first_done_witness :
  exists p b',
    inputHandler noon "d" started = Blocked p b' /\
    map Text (todoItems b')
    = ["Review project documentation (Go)";
       "Implement weather module (Go)";
       "Optimize system performance (Go)"] /\
    todosJson (files b') = Some (todoItems b').
Proof.
  destruct (delete_key_removes_first_done noon started 1
              (mkTodo "Debug terminal interface (Go)" true "high")
              eq_refl eq_refl eq_refl) as (_ & _ & p & Hrun).
  exists p. eexists. split; [exact Hrun|]. split; reflexivity.
Defined.

(** ** Keys that return, and leaving the command line *)

(** X15.  The keys the handler gets through.  With the mutex free and a
    key other than [?], [n], [t], [d] and [p]: while the command line has
    the focus every key is handed back untouched and the struct is not
    changed; on the dashboard [:] is consumed and moves the focus to the
    command line, [q] is consumed and stops the application, and any other
    key (the capital letters the help text shows among them) is handed
    back with the struct as it was.  In each case the mutex is free again
    afterwards. *)
Theorem keys_that_return w r b :
  mu b = Unlocked ->
  ~ In r notifyingKeys ->
  inputHandler w r b
  = match appFocus b with
    | CmdInputWidget => Returned (Some r) b
    | LayoutWidget =>
        if Ascii.eqb r ":" then
          Returned None
            (set_appFocus CmdInputWidget (set_currentFocus "command" b))
        else if Ascii.eqb r "q" then Returned None (set_appStopped true b)
        else Returned (Some r) b
    end.
Proof.
  intros Hmu Hr.
  unfold inputHandler. rewrite bind_get.
  destruct (appFocus b); [|reflexivity].
  unfold withLock, lock. rewrite Hmu.
  destruct (Ascii.eqb r ":");
    [destruct b; simpl in *; subst; reflexivity|].
  destruct (Ascii.eqb r "q");
    [destruct b; simpl in *; subst; reflexivity|].
  simpl in Hr.
  destruct (Ascii.eqb_spec r "?") as [->|_]; [tauto|].
  destruct (Ascii.eqb_spec r "n") as [->|_]; [tauto|].
  destruct (Ascii.eqb_spec r "t") as [->|_]; [tauto|].
  destruct (Ascii.eqb_spec r "d") as [->|_]; [tauto|].
  destruct (Ascii.eqb_spec r "p") as [->|_]; [tauto|].
  destruct b; simpl in *; subst; reflexivity.
Qed.

Lemma keys_that_return_witness :
  inputHandler noon "T" started = Returned (Some "T"%char) started /\
  (exists b', inputHandler noon ":" started = Returned None b' /\
              currentFocus b' = "command" /\
              inputHandler noon "t" b' = Returned (Some "t"%char) b').
Proof.
  split.
  - apply (keys_that_return noon "T" started eq_refl).
    simpl. intros [H|[H|[H|[H|[H|[]]]]]]; discriminate H.
  - eexists. split; [|split].
    + apply (keys_that_return noon ":" started eq_refl).
      simpl. intros [H|[H|[H|[H|[H|[]]]]]]; discriminate H.
    + reflexivity.
    + reflexivity.
Defined.

(** X16.  Enter on the command line with a command other than [exit],
    [quit] and [q]: the done callback never gets past [processCommand], so
    the lines that give the focus back to the dashboard and clear the
    input field are not reached.  The focus stays where it was, the text
    stays in the field, and the mutex stays held. *)
Theorem enter_with_command_keeps_focus w b cmd args :
  mu b = Unlocked ->
  Fields (TrimSpace (ToLower (cmdInputText b))) = cmd :: args ->
  isExit cmd = false ->
  exists p b',
    cmdInputDone w KeyEnter b = Blocked p b' /\
    mu b' = WriteLocked /\
    appFocus b' = appFocus b /\
    currentFocus b' = currentFocus b /\
    cmdInputText b' = cmdInputText b.
Proof.
  intros Hmu Hf Hexit.
  assert (Hc : TrimSpace (ToLower (cmdInputText b)) <> EmptyString).
  { intros E. rewrite E in Hf. discriminate Hf. }
  destruct (processCommand_nonblank w (cmdInputText b) b Hmu Hc)
    as [(p & b' & Hrun & Hu)|Hrun].
  - exists p, b'. split.
    + unfold cmdInputDone. rewrite bind_get. now apply bind_blocked.
    + destruct Hu as (Hm & _ & _ & _ & Hcf & Haf & _ & _ & _ & _ & Ht).
      rewrite Hm, Hcf, Haf, Ht. now destruct b.
  - exfalso.
    destruct (switchCommand_stuck w (TrimSpace (ToLower (cmdInputText b)))
                cmd args
                (set_commandHistory
                   (lastN 20 (commandHistory b
                              ++ [TrimSpace (ToLower (cmdInputText b))]))
                   (set_mu WriteLocked b))
                (switch_state_mu _ _) Hexit) as (p & b' & Hsw & _).
    rewrite (processCommand_switch w (cmdInputText b) cmd args b Hmu Hf p b' Hsw)
      in Hrun.
    discriminate Hrun.
Qed.

Lemma enter_with_command_keeps_focus_witness :
  exists p b',
    cmdInputDone noon KeyEnter
      (set_cmdInputText "todo add tea"
         (set_appFocus CmdInputWidget (set_currentFocus "command" started)))
    = Blocked p b' /\
    appFocus b' = CmdInputWidget /\
    currentFocus b' = "command" /\
    cmdInputText b' = "todo add tea".
Proof.
  destruct (enter_with_command_keeps_focus noon
              (set_cmdInputText "todo add tea"
                 (set_appFocus CmdInputWidget
                    (set_currentFocus "command" started)))
              "todo" ["add"; "tea"] eq_refl eq_refl eq_refl)
    as (p & b' & Hrun & _ & Ha & Hc & Ht).
  exists p, b'. repeat split; assumption.
Defined.



(** ** What every reachable struct keeps *)

Lemma fieldsFrom_nonempty s : forall cur,
  (forall f, cur = Some f -> f <> EmptyString) ->
  Forall (fun f => f <> EmptyString) (fieldsFrom cur s).
Proof.
  induction s as [|c r IH]; intros cur Hcur; simpl.
  - destruct cur as [f|]; [|constructor].
    constructor; [now apply Hcur|constructor].
  - destruct (isSpace c).
    + destruct cur as [f|].
      * constructor; [now apply Hcur|]. apply IH. discriminate.
      * apply IH. discriminate.
    + apply IH. intros f [= <-].
      destruct cur as [[|a f']|]; simpl; discriminate.
Qed.

Lemma Fields_nonempty s : Forall (fun f => f <> EmptyString) (Fields s).
Proof. apply fieldsFrom_nonempty. discriminate. Qed.

Lemma Join_nonempty e rest sep :
  e <> EmptyString -> Join (e :: rest) sep <> EmptyString.
Proof.
  intros He. destruct rest as [|e' rest]; simpl; [exact He|].
  destruct e; [contradiction|]. simpl. discriminate.
Qed.

Lemma wellFormed_switchCommand w command cmd args :
  Forall (fun f => f <> EmptyString) args ->
  preserves wellFormed (switchCommand w command cmd args).
Proof.
  intros HF.
  unfold switchCommand, themeCommand, todoCommand, todoAdd, todoToggle,
    todoDelete, invalidIndex, weatherCommand, saveTodos.
  keep.
  - apply keeps_modify. intros b (H1 & _ & H3 & H4).
    destruct b. repeat split; try assumption. now exists s.
  - apply keeps_modify. intros b (H1 & H2 & H3 & _).
    destruct b. repeat split; try assumption.
    apply Join_nonempty.
    repeat match goal with
           | H : Forall _ (_ :: _) |- _ => inversion H; clear H; subst
           end.
    assumption.
Qed.

Lemma processCommand_dispatch w command b :
  mu b = Unlocked ->
  TrimSpace (ToLower command) <> EmptyString ->
  let line := TrimSpace (ToLower command) in
  let recorded := lastN 20 (commandHistory b ++ [line]) in
  exists cmd args,
    Fields line = cmd :: args /\
    ((isExit cmd = true /\
      processCommand w command b
      = Returned tt
          (set_cmdInputText ""
             (set_appStopped true (set_commandHistory recorded b)))) \/
     (exists p b',
        switchCommand w line cmd args
          (set_commandHistory recorded (set_mu WriteLocked b))
        = Blocked p b' /\
        processCommand w command b = Blocked p b')).
Proof.
  intros Hmu Hc line recorded.
  destruct (Fields line) as [|cmd args] eqn:Hf.
  { exfalso. now apply (Fields_TrimSpace (ToLower command)). }
  exists cmd, args. split; [reflexivity|].
  destruct (isExit cmd) eqn:Hexit.
  - left. split; [reflexivity|].
    now apply (exit_verbs_return w command cmd args).
  - right.
    destruct (switchCommand_stuck w line cmd args
                (set_commandHistory recorded (set_mu WriteLocked b))
                (switch_state_mu _ _) Hexit) as (p & b' & Hrun & _).
    exists p, b'. split; [exact Hrun|].
    now apply (processCommand_switch w command cmd args b Hmu Hf).
Qed.

Lemma wellFormed_processCommand w command :
  preserves wellFormed (processCommand w command).
Proof.
  intros b H.
  destruct (mu b) eqn:Hmu;
    [|unfold processCommand; rewrite withLock_held by congruence; exact H..].
  destruct (String.eqb_spec (TrimSpace (ToLower command)) "") as [Hc|Hc].
  { now rewrite (processCommand_blank w command b Hmu Hc). }
  assert (H0 : wellFormed
                 (set_commandHistory
                    (lastN 20 (commandHistory b ++ [TrimSpace (ToLower command)]))
                    (set_mu WriteLocked b))).
  { destruct H as (_ & H2 & H3 & H4). destruct b.
    repeat split; try assumption. simpl. rewrite len_lastN. lia. }
  destruct (processCommand_dispatch w command b Hmu Hc)
    as (cmd & args & Hf & [[_ Hrun]|(p & b' & Hsw & Hrun)]);
    rewrite Hrun; simpl.
  - destruct H0 as (H1 & H2 & H3 & H4). destruct b.
    repeat split; assumption.
  - pose proof (Fields_nonempty (TrimSpace (ToLower command))) as HF.
    rewrite Hf in HF. inversion HF as [|? ? _ HF']; subst.
    pose proof (wellFormed_switchCommand w (TrimSpace (ToLower command))
                  cmd args HF' _ H0) as Hw.
    now rewrite Hsw in Hw.
Qed.

Lemma wellFormed_mu v b : wellFormed b -> wellFormed (set_mu v b).
Proof. intros H. destruct b. exact H. Qed.

Lemma wellFormed_to_dashboard :
  preserves wellFormed
    (modify (set_appFocus LayoutWidget) ;;
     modify (set_currentFocus "dashboard") ;;
     updateFooter).
Proof.
  intros b (H1 & H2 & _ & H4).
  assert (H : wellFormed
                (set_currentFocus "dashboard" (set_appFocus LayoutWidget b))).
  { destruct b. repeat split; try assumption. left. split; reflexivity. }
  rewrite !bind_modify.
  assert (Hf : preserves wellFormed updateFooter)
    by (unfold updateFooter; keep).
  now apply Hf.
Qed.

Lemma wellFormed_cmdInputDone w key : preserves wellFormed (cmdInputDone w key).
Proof.
  destruct key; unfold cmdInputDone.
  - apply preserves_bind; [apply preserves_get|intros b0].
    apply preserves_bind; [apply wellFormed_processCommand|intros _].
    apply wellFormed_to_dashboard.
  - apply preserves_bind; [keep|intros _]. apply wellFormed_to_dashboard.
  - apply preserves_ret.
Qed.

Lemma wellFormed_inputHandler w r : preserves wellFormed (inputHandler w r).
Proof.
  unfold inputHandler.
  apply preserves_bind; [apply preserves_get|intros b0].
  destruct (appFocus b0); [|apply preserves_ret].
  apply keeps_withLock; [apply wellFormed_mu|].
  destruct (Ascii.eqb r ":").
  { intros b (H1 & H2 & _ & H4). rewrite !bind_modify. simpl.
    destruct b. repeat split; try assumption. right. split; reflexivity. }
  unfold keyToggle, keyDelete, keyPriority, saveTodos. keep.
Qed.

Lemma wellFormed_new w su : wellFormed (finalState (NewBaseline w su)).
Proof.
  destruct su as [hd cc th key loc tf hf io].
  assert (Hk : knownTheme
    match lookup themes (if String.eqb th "" then "amber" else th) with
    | Some t => t
    | None => match lookup themes "amber" with
              | Some t => t | None => zeroTheme end
    end).
  { destruct (lookup themes (if String.eqb th "" then "amber" else th)) eqn:E.
    - eexists. exact E.
    - exists "amber". reflexivity. }
  unfold NewBaseline, newStruct, bind, get, when, modify. simpl.
  destruct (String.eqb_spec loc "") as [El|El]; simpl;
    destruct (String.eqb key "YOUR_API_KEY"), (String.eqb key ""); simpl;
    destruct tf, hf, io as [[|? ?]|]; simpl;
    (split; [|split; [exact Hk|split; [left; split; reflexivity|]]]);
    simpl; try (discriminate || exact El).
Qed.

Lemma wellFormed_updateSystemInfo w m :
  preserves wellFormed (updateSystemInfo w m).
Proof.
  unfold updateSystemInfo, recordNetIO, appendSample, saveSystemHistory,
    trimHistory.
  keep.
Qed.

Lemma wellFormed_redraw :
  preserves wellFormed updateTodos /\
  preserves wellFormed updateHeader /\
  preserves wellFormed updateFooter /\
  preserves wellFormed updateWeather.
Proof.
  unfold updateTodos, updateHeader, updateFooter, updateWeather.
  split; [|split; [|split]]; keep.
Qed.

Lemma wellFormed_fetchWeather w reply :
  preserves wellFormed (fetchWeather w reply).
Proof. unfold fetchWeather, updateWeather. cbv zeta. keep. Qed.

(** X18.  What every struct an execution can show has kept from its
    construction: the command history holds at most 20 lines; the palette
    is one of the three themes of the table; the focus flag says
    "dashboard" while the layout has the focus and "command" while the
    command line has it; and the weather location is not empty. *)
Theorem reachable_wellFormed b : reachable b -> wellFormed b.
Proof.
  destruct wellFormed_redraw as (Htodos & Hheader & Hfooter & Hweather).
  induction 1 as [w su|w c b Hb IH]; [apply wellFormed_new|].
  destruct c; simpl.
  - apply (keeps_addNotification wellFormed); [stable..|exact IH].
  - now apply wellFormed_processCommand.
  - now apply wellFormed_cmdInputDone.
  - now apply wellFormed_inputHandler.
  - now apply Htodos.
  - now apply Hheader.
  - now apply Hfooter.
  - now apply Hweather.
  - now apply wellFormed_fetchWeather.
  - now apply wellFormed_updateSystemInfo.
  - pose proof (wellFormed_updateSystemInfo w m) as Hsys.
    revert IH. generalize b. fold (preserves wellFormed (applyTheme w m)).
    unfold applyTheme. keep.
Qed.

Lemma reachable_wellFormed_witness :
  wellFormed (perform noon (CallProcessCommand "weather set new york")
                (perform noon (CallInputHandler ":") started)).
Proof.
  apply reachable_wellFormed.
  apply reach_call, reach_call. apply (reach_new noon firstStart).
Defined.

(** ** The uptime text *)

Lemma truncate_mixed a r h :
  0 < h -> 0 <= a -> 0 <= r < h ->
  truncate (inject_Z a + inject_Z r / inject_Z h) = a.
Proof.
  intros Hh Ha Hr. destruct h as [|hp|hp]; try lia.
  unfold truncate, Qdiv, Qinv, Qmult, Qplus, inject_Z. simpl.
  rewrite Z.mul_1_r.
  rewrite Z.quot_div_nonneg by lia.
  rewrite Z.add_comm, Z.div_add by lia.
  rewrite Z.div_small by lia. lia.
Qed.

Lemma truncate_Hours d : 0 <= d -> truncate (Hours d) = d / Hour.
Proof.
  intros Hd. unfold Hours.
  rewrite truncate_mixed.
  - apply Z.quot_div_nonneg; [exact Hd|reflexivity].
  - reflexivity.
  - apply Z.quot_pos; [exact Hd|reflexivity].
  - rewrite Z.rem_mod_nonneg by (exact Hd || reflexivity).
    apply Z.mod_pos_bound. reflexivity.
Qed.

Lemma truncate_Minutes d : 0 <= d -> truncate (Minutes d) = d / Minute.
Proof.
  intros Hd. unfold Minutes.
  rewrite truncate_mixed.
  - apply Z.quot_div_nonneg; [exact Hd|reflexivity].
  - reflexivity.
  - apply Z.quot_pos; [exact Hd|reflexivity].
  - rewrite Z.rem_mod_nonneg by (exact Hd || reflexivity).
    apply Z.mod_pos_bound. reflexivity.
Qed.

(** Rounding to the minute, for a duration that is not negative: the
    largest duration leaves less than half a minute over the last whole
    minute, so the rounded value always fits. *)
Lemma Round_Minute d :
  0 <= d <= maxDuration ->
  Round d Minute = Minute * ((d + 30 * Second) / Minute).
Proof.
  intros Hd. unfold Round.
  change (Minute <=? 0) with false. cbv iota.
  destruct (d <? 0) eqn:E; [apply Z.ltb_lt in E; lia|].
  rewrite Z.rem_mod_nonneg by (lia || reflexivity).
  pose proof (Z.mod_pos_bound d Minute eq_refl) as Hr.
  pose proof (Z.div_mod d Minute ltac:(discriminate)) as Hdm.
  unfold lessThanHalf.
  change (Minute mod 2 ^ 64) with 60000000000.
  change maxDuration with 9223372036854775807 in Hd.
  change Minute with 60000000000 in *.
  change Second with 1000000000.
  change (2 ^ 64) with 18446744073709551616.
  set (r := d mod 60000000000) in *.
  set (q := d / 60000000000) in *.
  rewrite (Z.mod_small r) by lia.
  rewrite (Z.mod_small (r + r)) by lia.
  destruct (r + r <? 60000000000) eqn:Eh.
  - apply Z.ltb_lt in Eh.
    assert ((d + 30 * 1000000000) / 60000000000 = q).
    { symmetry. apply (Z.div_unique _ _ _ (r + 30000000000)); lia. }
    lia.
  - apply Z.ltb_ge in Eh.
    assert (Hq : (d + 30 * 1000000000) / 60000000000 = q + 1).
    { symmetry. apply (Z.div_unique _ _ _ (r - 30000000000)); lia. }
    unfold wrap64. change (2 ^ 63) with 9223372036854775808.
    change (2 ^ 64) with 18446744073709551616.
    rewrite Z.mod_small by lia.
    replace (d <? _) with true by (symmetry; apply Z.ltb_lt; lia).
    lia.
Qed.

(** X19.  [formatDuration] shows a duration that is not negative rounded
    to the nearest whole minute, half a minute going up, and split into
    days, hours below 24 and minutes below 60; the days are left out when
    there are none, and the hours too when there are neither.  The
    rounding never overflows.  A negative duration is shown as "N/A". *)
Theorem formatDuration_rounds_to_minute d :
  minDuration <= d <= maxDuration ->
  let total := (d + 30 * Second) / Minute in
  formatDuration d
  = if d <? 0 then "N/A"
    else shownDuration (total / (24 * 60)) ((total / 60) mod 24) (total mod 60).
Proof.
  intros Hd total. unfold formatDuration.
  destruct (d <? 0) eqn:E; [reflexivity|].
  apply Z.ltb_ge in E.
  rewrite Round_Minute by lia. fold total.
  assert (Ht : 0 <= total).
  { apply Z.div_pos; [|reflexivity]. unfold Second. lia. }
  assert (HD : 0 <= Minute * total) by (unfold Minute, Second; lia).
  rewrite truncate_Hours, truncate_Minutes by exact HD.
  assert (Hh : Minute * total / Hour = total / 60).
  { unfold Hour. rewrite (Z.mul_comm 60 Minute).
    rewrite Z.div_mul_cancel_l; [reflexivity|discriminate..]. }
  assert (Hm : Minute * total / Minute = total).
  { rewrite Z.mul_comm. apply Z.div_mul. discriminate. }
  rewrite Hh, Hm.
  assert (H60 : 0 <= total / 60) by (apply Z.div_pos; lia).
  rewrite Z.quot_div_nonneg, !Z.rem_mod_nonneg by lia.
  rewrite Z.div_div by lia. change (60 * 24) with (24 * 60).
  reflexivity.
Qed.

Lemma formatDuration_rounds_to_minute_witness :
  formatDuration (93784 * Second) = "1d 2h 3m" /\
  formatDuration (29 * Second) = "0m" /\
  formatDuration (3570 * Second) = "1h 0m" /\
  formatDuration maxDuration = "106751d 23h 47m" /\
  formatDuration (- Second) = "N/A".
Proof.
  split; [|split; [|split; [|split]]].
  - rewrite (formatDuration_rounds_to_minute (93784 * Second));
      [reflexivity|split; discriminate].
  - rewrite (formatDuration_rounds_to_minute (29 * Second));
      [reflexivity|split; discriminate].
  - rewrite (formatDuration_rounds_to_minute (3570 * Second));
      [reflexivity|split; discriminate].
  - rewrite (formatDuration_rounds_to_minute maxDuration);
      [reflexivity|split; discriminate].
  - rewrite (formatDuration_rounds_to_minute (- Second));
      [reflexivity|split; discriminate].
Defined.

(** ** The calendar *)

Lemma calendarLoop_S fuel week startDay daysInMonth day currentDay sb :
  calendarLoop (S fuel) week startDay daysInMonth day currentDay sb
  = if currentDay <=? daysInMonth then
      let '(currentDay', weekStr, isCurrent) :=
        weekLoop 7 week 0 startDay daysInMonth day currentDay [] false in
      calendarLoop fuel (week + 1) startDay daysInMonth day currentDay'
                   (sb ++ [mkWeek weekStr isCurrent])
    else Some sb.
Proof. reflexivity. Qed.

(** More fuel than the loop needs does not change what it produces. *)
Lemma calendarLoop_more fuel : forall extra week startDay daysInMonth day
    currentDay sb rows,
  calendarLoop fuel week startDay daysInMonth day currentDay sb = Some rows ->
  calendarLoop (fuel + extra) week startDay daysInMonth day currentDay sb
  = Some rows.
Proof.
  induction fuel as [|fuel IH]; intros extra week startDay daysInMonth day
    currentDay sb rows.
  - change (calendarLoop 0 week startDay daysInMonth day currentDay sb)
      with (if currentDay <=? daysInMonth then None else Some sb).
    destruct (currentDay <=? daysInMonth) eqn:E; [discriminate|].
    intros H. destruct extra as [|extra].
    + change (calendarLoop (0 + 0) week startDay daysInMonth day currentDay sb)
        with (if currentDay <=? daysInMonth then None else Some sb).
      now rewrite E.
    + change (0 + S extra)%nat with (S extra).
      now rewrite calendarLoop_S, E.
  - change (S fuel + extra)%nat with (S (fuel + extra)).
    rewrite !calendarLoop_S.
    destruct (currentDay <=? daysInMonth); [|auto].
    destruct (weekLoop 7 week 0 startDay daysInMonth day currentDay [] false)
      as [[cd ws] cur].
    apply IH.
Qed.

(** X20.  The calendar of the time panel.  For a month of 28 to 31 days
    whose first day falls on weekday [startDay] (Monday = 0), the two
    nested loops finish within six weeks and write as many lines as the
    month touches weeks, each of seven cells.  Read line after line the
    cells are [startDay] blanks, then the days 1 to [daysInMonth] in order,
    each once, then blanks to the end of the last week; so day [d] stands
    in column [(startDay + d - 1) mod 7].  Today and no other day carries
    the mark, and the line of today and no other line is flagged as the
    current week. *)
Theorem calendar_layout fuel startDay daysInMonth day :
  0 <= startDay < 7 ->
  28 <= daysInMonth <= 31 ->
  1 <= day <= daysInMonth ->
  (6 <= fuel)%nat ->
  exists rows,
    calendar fuel startDay daysInMonth day = Some rows /\
    len rows = (startDay + daysInMonth + 6) / 7 /\
    Forall (fun row => len (cells row) = 7) rows /\
    List.concat (map cells rows) = monthCells startDay daysInMonth day /\
    map isCurrentWeek rows
    = map (fun k => Z.of_nat k =? (startDay + day - 1) / 7)
          (seq 0 (List.length rows)).
Proof.
  intros Hs Hd Hday Hfuel.
  replace fuel with (6 + (fuel - 6))%nat by lia.
  assert (Is : In startDay [0; 1; 2; 3; 4; 5; 6]) by (simpl; lia).
  assert (Id : In daysInMonth [28; 29; 30; 31]) by (simpl; lia).
  assert (Iday : In day (daysOf 31)) by (unfold daysOf; simpl; lia).
  clear Hs Hd.
  unfold calendar.
  simpl in Is, Id.
  repeat (destruct Is as [<-|Is]; [|]); [..|destruct Is];
  repeat (destruct Id as [<-|Id]; [|]); [..|destruct Id];
  (unfold daysOf in Iday; simpl in Iday;
   repeat (destruct Iday as [<-|Iday]; [|]); [..|destruct Iday];
   try (exfalso; lia);
   (eexists; split;
    [apply calendarLoop_more; vm_compute; reflexivity|];
    split; [reflexivity|];
    split; [repeat constructor|];
    split; vm_compute; reflexivity)).
Qed.

Lemma calendar_layout_witness :
  exists rows,
    calendar 6 6 30 2 = Some rows /\
    len rows = 6 /\
    map isCurrentWeek rows = [false; true; false; false; false; false] /\
    nth_error rows 0
    = Some (mkWeek [Pad; Pad; Pad; Pad; Pad; Pad; Day 1] false).
Proof.
  destruct (calendar_layout 6 6 30 2) as (rows & Hrun & Hlen & _ & _ & Hcur);
    try lia.
  exists rows. split; [exact Hrun|]. split; [exact Hlen|].
  assert (E : Some rows = calendar 6 6 30 2) by now rewrite Hrun.
  vm_compute in E. injection E as ->. split; reflexivity.
Defined.

(** ** The progress bar *)







(** ** The footer *)

(** X22.  The footer shows the notification that was pushed last.  After
    [addNotification] has returned, [updateFooter] (the goroutine the call
    starts) shows the message of that call, stamped with the clock reading
    of the call, in red for the kind "error", in green for "success" and
    in the main colour of the theme for every other kind; while the
    command line has the focus it shows no notification at all. *)
Theorem footer_shows_newest w message msgType b :
  mu b = Unlocked ->
  footerContent (finalState (addNotification w message msgType b))
  = if String.eqb (currentFocus b) "command" then CommandLine
    else LatestNotification (colorTag (Dim (theme b))) (clock w)
                            (kindColor (theme b) msgType) message.
Proof.
  intros Hmu. rewrite (addNotification_free w message msgType b Hmu). simpl.
  change 5%nat with (S 4). rewrite lastN_snoc.
  unfold footerContent, kindColor.
  replace (currentFocus
             (set_spawned (spawned b ++ [UpdateFooter])
                (set_notifications
                   (lastN 4 (notifications b)
                    ++ [mkNotification message msgType (clock w)]) b)))
    with (currentFocus b) by now destruct b.
  replace (theme
             (set_spawned (spawned b ++ [UpdateFooter])
                (set_notifications
                   (lastN 4 (notifications b)
                    ++ [mkNotification message msgType (clock w)]) b)))
    with (theme b) by now destruct b.
  replace (notifications
             (set_spawned (spawned b ++ [UpdateFooter])
                (set_notifications
                   (lastN 4 (notifications b)
                    ++ [mkNotification message msgType (clock w)]) b)))
    with (lastN 4 (notifications b)
          ++ [mkNotification message msgType (clock w)]) by now destruct b.
  cbv zeta.
  assert (Hlen : (0 <? len (lastN 4 (notifications b)
                            ++ [mkNotification message msgType (clock w)]))
                 = true).
  { apply Z.ltb_lt. rewrite len_app.
    pose proof (len_nonneg (lastN 4 (notifications b))).
    unfold len at 2. simpl. lia. }
  rewrite Hlen, last_last. reflexivity.
Qed.

Lemma footer_shows_newest_witness :
  footerContent (finalState (addNotification noon "Disk full" "error" started))
  = LatestNotification "[#cc9900]" 43200 "[red]" "Disk full".
Proof.
  rewrite (footer_shows_newest noon "Disk full" "error" started eq_refl).
  reflexivity.
Defined.

(** ** The weather panel *)

(** X23.  What the weather panel shows after a fetch.  Without an API key
    it shows the configured location, the status "API Key not set" and the
    hint to set a key: the sample readings the fetch has stored (22.0
    degrees, "Partly Cloudy (Sample)") are never shown.  With a key, a
    decoded reply is shown with the name and the readings the API sent,
    and any failed request as the configured location with the error of
    that request, without the hint. *)
Theorem weather_panel_after_fetch w reply b :
  mu b = Unlocked ->
  let b' := finalState (fetchWeather w reply b) in
  (weatherAPIKey b = "" ->
   weatherContent b'
   = WeatherStatus (weatherLocation b) "API Key not set" true) /\
  (weatherAPIKey b <> "" ->
   match reply with
   | Payload name temp_c text humidity wind_kph =>
       weatherContent b' = WeatherReadings name temp_c text humidity wind_kph
   | _ =>
       exists status,
         status <> "" /\
         weatherContent b' = WeatherStatus (weatherLocation b) status false
   end).
Proof.
  intros Hmu b'. subst b'.
  destruct b; simpl in *; subst.
  unfold fetchWeather, bind, lock, unlock, get, modify, updateWeather,
    rlock, runlock; simpl.
  split; intros Hkey.
  - subst. reflexivity.
  - assert (Hk : String.eqb weatherAPIKey0 "" = false)
      by now apply String.eqb_neq.
    rewrite Hk.
    destruct reply as [err|status [msg|]|err|name temp_c text humidity wind_kph];
      simpl; unfold weatherContent; simpl; rewrite ?Hk; simpl.
    + eexists. split; [|reflexivity]. discriminate.
    + destruct (String.eqb msg ""); simpl; rewrite ?Hk;
        (eexists; split; [|reflexivity]); discriminate.
    + eexists. split; [|reflexivity]. discriminate.
    + eexists. split; [|reflexivity]. discriminate.
    + reflexivity.
Qed.

Lemma weather_panel_after_fetch_witness :
  weatherContent (finalState (fetchWeather noon (TransportError "unused") started))
  = WeatherStatus "Lahore" "API Key not set" true.
Proof.
  destruct (weather_panel_after_fetch noon (TransportError "unused") started
              eq_refl) as [H _].
  now apply H.
Defined.

(** ** After a call has blocked *)

(** X24.  Once a call is stuck with the write lock held, the dashboard is
    frozen: every later call that starts by taking the mutex (a command,
    a dashboard key, a notification, a tick of the metrics or of the
    weather, any redraw of a panel that reads the struct) is left waiting
    at once and changes nothing in the struct.  No further sample is
    recorded, no weather fetched, no panel or footer redrawn. *)
Theorem frozen_after_block w c b :
  mu b = WriteLocked ->
  takesLock c b = true ->
  callBlocks w c b = true /\ perform w c b = b.
Proof.
  intros Hmu Htakes.
  assert (Hheld : mu b <> Unlocked) by congruence.
  assert (Hr : forall p, rlock p b = Blocked p b)
    by (intros p; unfold rlock; now rewrite Hmu).
  destruct c as [message msgType|command|key|r| | | | |reply|m|m];
    unfold callBlocks, perform.
  - now rewrite addNotification_held.
  - unfold processCommand. now rewrite withLock_held.
  - destruct key; try discriminate Htakes.
    unfold cmdInputDone. rewrite bind_get.
    unfold processCommand.
    rewrite (bind_blocked _ _ _ _ _ (withLock_held _ _ b Hheld)).
    split; reflexivity.
  - unfold takesLock in Htakes. unfold inputHandler. rewrite bind_get.
    destruct (appFocus b); [|discriminate Htakes].
    now rewrite withLock_held.
  - unfold updateTodos. now rewrite withLock_held.
  - unfold updateHeader. rewrite (bind_blocked _ _ _ _ _ (Hr _)).
    split; reflexivity.
  - unfold updateFooter. rewrite (bind_blocked _ _ _ _ _ (Hr _)).
    split; reflexivity.
  - unfold updateWeather. rewrite (bind_blocked _ _ _ _ _ (Hr _)).
    split; reflexivity.
  - unfold fetchWeather.
    assert (Hl : lock (InLock "fetchWeather") b
                 = Blocked (InLock "fetchWeather") b)
      by (unfold lock; now rewrite Hmu).
    rewrite (bind_blocked _ _ _ _ _ Hl). split; reflexivity.
  - unfold updateSystemInfo. now rewrite withLock_held.
  - unfold applyTheme, updateHeader.
    assert (Hh : (rlock (InLock "updateHeader") ;; runlock) b
                 = Blocked (InLock "updateHeader") b)
      by (apply bind_blocked, Hr).
    rewrite (bind_blocked _ _ _ _ _ Hh). split; reflexivity.
Qed.

Lemma frozen_after_block_witness :
  exists b1,
    b1 = perform noon (CallProcessCommand "help") started /\
    perform noon (CallUpdateSystemInfo online) b1 = b1 /\
    perform noon (CallFetchWeather (TransportError "unused")) b1 = b1 /\
    perform noon (CallInputHandler "q") b1 = b1.
Proof.
  exists (perform noon (CallProcessCommand "help") started).
  split; [reflexivity|]. split; [|split].
  - apply (frozen_after_block noon (CallUpdateSystemInfo online)); reflexivity.
  - apply (frozen_after_block noon
             (CallFetchWeather (TransportError "unused"))); reflexivity.
  - apply (frozen_after_block noon (CallInputHandler "q")); reflexivity.
Defined.
